(** * Smart ATS resume analyser: a model of [cover.py]

    [cover.py] is a Streamlit script.  Every user interaction re-runs
    [main] from the top; the only data that survives from one run to the
    next is [st.session_state].  A run is modelled as a computation in a
    small monad that threads the session state, the local variable
    [resume_text] of [main] and the state of the remote service, logs
    what the script does (widgets rendered, messages shown, helper calls,
    writes to the busy flag) and finishes in one of the three ways a
    Python block can finish: normally, by [return], or by raising.

    The model has two layers.  The first ([M], [main], [run]) is the
    script when Streamlit lets the run go to its end.  The second ([IM],
    [Watched.main], [Watched.run]) marks every interaction with
    Streamlit, where Streamlit can raise [StopException] or
    [RerunException] to end the run; without such a request the second
    is the first ([undisturbed_run]). *)

From Stdlib Require Import String Ascii List Bool ZArith Lia.
From Stdlib Require Import Strings.Byte.
From Stdlib Require Import Floats.SpecFloat.
Import ListNotations.
Local Open Scope string_scope.
Set Warnings "-register-all".

(** ** Python values *)

(** The values [json.loads] can produce.  A [dict] keeps its items in
    insertion order, so it is an association list (with distinct keys). *)
Inductive pyval : Type :=
| PyNone
| PyBool (b : bool)
| PyInt (n : Z)
| PyFloat (f : spec_float)
| PyStr (s : string)
| PyList (xs : list pyval)
| PyDict (items : list (string * pyval)).

(** [bool(v)]: what [if v:] tests. *)
Definition truthy (v : pyval) : bool :=
  match v with
  | PyNone => false
  | PyBool b => b
  | PyInt n => negb (n =? 0)%Z
  | PyFloat (S754_zero _) => false
  | PyFloat _ => true
  | PyStr s => negb (s =? "")
  | PyList xs => match xs with [] => false | _ :: _ => true end
  | PyDict items => match items with [] => false | _ :: _ => true end
  end.

(** [type(v).__name__] *)
Definition type_name (v : pyval) : string :=
  match v with
  | PyNone => "NoneType"
  | PyBool _ => "bool"
  | PyInt _ => "int"
  | PyFloat _ => "float"
  | PyStr _ => "str"
  | PyList _ => "list"
  | PyDict _ => "dict"
  end.

(** ** Exceptions *)

(** The exceptions the script, its helpers and the Python runtime raise.
    Every one of them is a subclass of [Exception], so both
    [except Exception] clauses of [main] catch all of them.  The
    exceptions that are not, [StopException] and [RerunException], by
    which Streamlit ends a run from inside the script, are not raised by
    the code: they are [control], in the part on runs that Streamlit
    cuts short. *)
Inductive exn : Type :=
| UnboundLocalError (name : string)
    (* a local variable of [main] read before any assignment *)
| AttributeError (obj_type attr : string)
    (* [obj.attr] on an object that has no such attribute *)
| JoinNotIterable (arg_type : string)
    (* TypeError: [sep.join(x)] where [x] cannot be iterated *)
| JoinItemNotStr (index : nat) (item_type : string)
    (* TypeError: [sep.join(x)] met an item that is not a [str] *)
| MetricValueRejected (value : pyval)
    (* TypeError: [st.metric] accepts int, float, str or None only *)
| Failure (cls msg : string).
    (* raised by one of the helpers or by [json.loads] *)

(** Three ways a block of Python finishes. *)
Inductive completion (A : Type) : Type :=
| Normal (a : A)
| Returned
| Raised (e : exn).
Arguments Normal {A} a.
Arguments Returned {A}.
Arguments Raised {A} e.

(** ** dict.get and str.join *)

Fixpoint dict_lookup (key : string) (items : list (string * pyval)) : option pyval :=
  match items with
  | [] => None
  | (k, v) :: rest => if k =? key then Some v else dict_lookup key rest
  end.

(** [obj.get(key, default)]: only a [dict] has the method. *)
Definition py_get (obj : pyval) (key : string) (default : pyval) : pyval + exn :=
  match obj with
  | PyDict items =>
      match dict_lookup key items with
      | Some v => inl v
      | None => inl default
      end
  | _ => inr (AttributeError (type_name obj) "get")
  end.

(** A Python [str] is a sequence of code points; here it is the UTF-8
    bytes, and a continuation byte stays with the byte that leads it. *)
Definition is_continuation (c : ascii) : bool :=
  let n := nat_of_ascii c in (128 <=? n)%nat && (n <? 192)%nat.

Fixpoint code_points (s : string) : list string :=
  match s with
  | EmptyString => []
  | String c rest =>
      let groups := code_points rest in
      match rest with
      | EmptyString => [String c EmptyString]
      | String c' _ =>
          if is_continuation c' then
            match groups with
            | g :: gs => String c g :: gs
            | [] => [String c EmptyString]
            end
          else String c EmptyString :: groups
      end
  end.

(** What [for x in v] yields: the elements of a list, the characters of
    a string, the keys of a dict; nothing else here can be iterated. *)
Definition iterate (v : pyval) : option (list pyval) :=
  match v with
  | PyList xs => Some xs
  | PyStr s => Some (map PyStr (code_points s))
  | PyDict items => Some (map (fun kv => PyStr (fst kv)) items)
  | _ => None
  end.

(** The items of a join must all be [str]; the first that is not is
    reported with its position. *)
Fixpoint all_str (index : nat) (xs : list pyval) : list string + exn :=
  match xs with
  | [] => inl []
  | PyStr s :: rest =>
      match all_str (S index) rest with
      | inl ss => inl (s :: ss)
      | inr e => inr e
      end
  | x :: _ => inr (JoinItemNotStr index (type_name x))
  end.

(** [sep.join(v)] *)
Definition str_join (sep : string) (v : pyval) : string + exn :=
  match iterate v with
  | None => inr (JoinNotIterable (type_name v))
  | Some xs =>
      match all_str 0 xs with
      | inl ss => inl (String.concat sep ss)
      | inr e => inr e
      end
  end.

(** [st.metric(label, value)] takes an int, a float, a str or None
    ([bool] is an [int] in Python). *)
Definition metric_accepts (v : pyval) : bool :=
  match v with
  | PyNone | PyBool _ | PyInt _ | PyFloat _ | PyStr _ => true
  | PyList _ | PyDict _ => false
  end.

(** ** What a run does, as a log *)

Definition UploadedFile := list byte.

Inductive event : Type :=
(* messages *)
| Error (msg : string)                                   (* st.error *)
| Warning (msg : string)                                 (* st.warning *)
| Success (msg : string)                                 (* st.success *)
(* page content *)
| SidebarEnter
| SidebarExit
| Title (text : string)                                  (* st.title *)
| Subheader (text : string)                              (* st.subheader *)
| Write (value : pyval)                                  (* st.write *)
| Metric (label : string) (value : pyval)                (* st.metric *)
| SpinnerEnter (text : string)                           (* with st.spinner *)
| SpinnerExit
(* input widgets *)
| TextArea (label placeholder : string) (help : option string)
| TextInput (label placeholder : string)
| FileUploader (label type help : string)
| Button (label : string) (disabled : bool)              (* st.button *)
| DownloadButton (label data file_name mime : string)
(* calls into the helper module *)
| CallConfigure (api_key : string)
| CallExtract (file : UploadedFile)
| CallPrepare (resume_text jd : string)
| CallGenerate (prompt : string)
(* assignments to st.session_state.processing *)
| SetProcessing (b : bool).

(** ** The collaborators of [main] *)

(** [from helper import configure_genai, get_gemini_response,
    extract_pdf_text, prepare_prompt].  The module is not part of the
    sources at hand, so its four functions are parameters.  The two that
    talk to the remote service see and change its state [W]; the PDF
    extractor and the prompt builder are functions of their arguments.
    Each of them may raise. *)
Record helper (W : Type) : Type := {
  configure_genai : string -> W -> (unit + exn) * W;
  get_gemini_response : string -> W -> (string + exn) * W;
  extract_pdf_text : UploadedFile -> string + exn;
  prepare_prompt : string -> string -> string + exn
}.
Arguments configure_genai {W} h _ _.
Arguments get_gemini_response {W} h _ _.
Arguments extract_pdf_text {W} h _.
Arguments prepare_prompt {W} h _ _.

(** The two services of the Python runtime that [main] relies on:
    [json.loads] and [str(e)] for a caught exception [e]. *)
Record runtime : Type := {
  json_loads : string -> pyval + exn;
  exn_str : exn -> string
}.

(** What one run of the script gets from outside: the environment (as it
    is once [load_dotenv()] has read the [.env] file) and the values the
    widgets return in this run. *)
Record inputs : Type := {
  environ : string -> option string;
  jd : string;
  uploaded_file : option UploadedFile;
  company_name : string;
  job_title : string;
  personal_message : string;
  analyze_clicked : bool;      (* what st.button("Analyze Resume") returns *)
  cover_clicked : bool         (* what st.button("Generate Cover Letter") returns *)
}.

(** [st.session_state]: the key [processing] is absent in a new session. *)
Record session_state : Type := { processing : option bool }.

Definition new_session : session_state := {| processing := None |}.

(** ** The monad of a run *)

(** What the script can read and change while it runs: the session
    state, the local variable [resume_text] of [main] (unbound until the
    assignment in the Analyze handler is executed) and the state of the
    remote service. *)
Record state (W : Type) : Type := {
  session : session_state;
  resume_text : option string;
  world : W
}.
Arguments session {W} s.
Arguments resume_text {W} s.
Arguments world {W} s.

Definition M (W A : Type) : Type :=
  state W -> completion A * state W * list event.

Definition ret {W A} (a : A) : M W A := fun s => (Normal a, s, []).

Definition bind {W A B} (m : M W A) (k : A -> M W B) : M W B :=
  fun s =>
    match m s with
    | (Normal a, s1, t1) => let '(r, s2, t2) := k a s1 in (r, s2, (t1 ++ t2)%list)
    | (Returned, s1, t1) => (Returned, s1, t1)
    | (Raised e, s1, t1) => (Raised e, s1, t1)
    end.

Declare Scope run_scope.
Delimit Scope run_scope with run.
Notation "x <- m ;; k" := (bind m (fun x => k))
  (at level 61, m at next level, right associativity) : run_scope.
Notation "m ;; k" := (bind m (fun _ => k))
  (at level 61, right associativity) : run_scope.
Local Open Scope run_scope.

(** [return] *)
Definition return_ {W A} : M W A := fun s => (Returned, s, []).

(** [raise e] *)
Definition raise {W A} (e : exn) : M W A := fun s => (Raised e, s, []).

Definition emit {W} (ev : event) : M W unit := fun s => (Normal tt, s, [ev]).

(** The value of an expression that may raise. *)
Definition eval {W A} (r : A + exn) : M W A :=
  match r with
  | inl a => ret a
  | inr e => raise e
  end.

(** [try: body except Exception as e: handler(e)] *)
Definition try_except {W A} (body : M W A) (handler : exn -> M W A) : M W A :=
  fun s =>
    match body s with
    | (Raised e, s1, t1) => let '(r, s2, t2) := handler e s1 in (r, s2, (t1 ++ t2)%list)
    | done => done
    end.

(** [try: body finally: cleanup]: the cleanup runs however the body
    finishes, and the block then finishes the way the body did (unless
    the cleanup itself returns or raises). *)
Definition try_finally {W A} (body : M W A) (cleanup : M W unit) : M W A :=
  fun s =>
    let '(r, s1, t1) := body s in
    match cleanup s1 with
    | (Normal _, s2, t2) => (r, s2, (t1 ++ t2)%list)
    | (Returned, s2, t2) => (Returned, s2, (t1 ++ t2)%list)
    | (Raised e, s2, t2) => (Raised e, s2, (t1 ++ t2)%list)
    end.

(** [with ctx: body], for the two context managers of the script: they
    show something on entry, remove or close it on exit, and let an
    exception of the body through. *)
Definition with_ {W A} (enter leave : event) (body : M W A) : M W A :=
  emit enter ;; try_finally body (emit leave).

(** A call of a function written with [return]: the call itself
    finishes normally when the body returns. *)
Definition call {W} (body : M W unit) : M W unit :=
  fun s =>
    match body s with
    | (Returned, s1, t1) => (Normal tt, s1, t1)
    | done => done
    end.

(** *** Session state and the local variable *)

(** [st.session_state.processing] read, when Streamlit lets it take
    place *)
Definition get_processing {W} : M W bool :=
  fun s =>
    match processing (session s) with
    | Some b => (Normal b, s, [])
    | None => (Raised (AttributeError "SessionState" "processing"), s, [])
    end.

(** [st.session_state.processing = b], when Streamlit lets it take
    place.  The assignment is an interaction with Streamlit, which can
    raise [StopException] or [RerunException] in its place: that is
    [interact (set_processing b)] below. *)
Definition set_processing {W} (b : bool) : M W unit :=
  fun s =>
    (Normal tt,
     {| session := {| processing := Some b |};
        resume_text := resume_text s;
        world := world s |},
     [SetProcessing b]).

(** [resume_text = v] *)
Definition assign_resume_text {W} (v : string) : M W unit :=
  fun s =>
    (Normal tt,
     {| session := session s; resume_text := Some v; world := world s |},
     []).

(** [resume_text] read *)
Definition read_resume_text {W} : M W string :=
  fun s =>
    match resume_text s with
    | Some v => (Normal v, s, [])
    | None => (Raised (UnboundLocalError "resume_text"), s, [])
    end.

(** *** Streamlit *)

Definition st_error {W} (msg : string) : M W unit := emit (Error msg).
Definition st_warning {W} (msg : string) : M W unit := emit (Warning msg).
Definition st_success {W} (msg : string) : M W unit := emit (Success msg).
Definition st_title {W} (text : string) : M W unit := emit (Title text).
Definition st_subheader {W} (text : string) : M W unit := emit (Subheader text).
Definition st_write {W} (v : pyval) : M W unit := emit (Write v).

Definition st_metric {W} (label : string) (v : pyval) : M W unit :=
  if metric_accepts v then emit (Metric label v)
  else raise (MetricValueRejected v).

Definition st_text_area {W} (label placeholder : string) (help : option string)
    (value : string) : M W string :=
  emit (TextArea label placeholder help) ;; ret value.

Definition st_text_input {W} (label placeholder : string) (value : string) : M W string :=
  emit (TextInput label placeholder) ;; ret value.

Definition st_file_uploader {W} (label type help : string)
    (value : option UploadedFile) : M W (option UploadedFile) :=
  emit (FileUploader label type help) ;; ret value.

(** [st.button(label, disabled=d)]: the widget goes on the page with the
    [disabled] it was given; the value returned is the click the browser
    reported for this run. *)
Definition st_button {W} (label : string) (disabled clicked : bool) : M W bool :=
  emit (Button label disabled) ;; ret clicked.

Definition st_download_button {W} (label data file_name mime : string) : M W unit :=
  emit (DownloadButton label data file_name mime).

Definition st_spinner {W A} (text : string) (body : M W A) : M W A :=
  with_ (SpinnerEnter text) SpinnerExit body.

Definition st_sidebar {W A} (body : M W A) : M W A :=
  with_ SidebarEnter SidebarExit body.

(** ** The script *)

Definition nl : string := String (ascii_of_nat 10) EmptyString.

(** A text given line by line. *)
Definition lines (ls : list string) : string := String.concat nl ls.

(** The text written in the sidebar (a triple-quoted literal). *)
Definition about_text : string :=
  lines [ " ";
          "        This smart ATS helps you:";
          "        - Evaluate resume-job description match";
          "        - Identify missing keywords";
          "        - Get personalized improvement suggestions";
          "        " ].

(** The f-string of the cover-letter handler, once its five fields have
    been evaluated. *)
Definition cover_letter_prompt
    (job_title company_name personal_message resume_text jd : string) : string :=
  lines [ "";
          "                Act as an expert cover letter writer. Write a personalized cover letter for the following job application:";
          "";
          "                Job Title: " ++ job_title;
          "                Company: " ++ company_name;
          "                Personal Message: " ++ personal_message;
          "";
          "                Resume:";
          "                " ++ resume_text;
          "";
          "                Job Description:";
          "                " ++ jd;
          "";
          "                Provide a professional and persuasive cover letter.";
          "                " ].

Section Script.

Context {W : Type}.
Variable h : helper W.
Variable rt : runtime.

(** *** Calls into the helper module *)

Definition call_configure (api_key : string) : M W unit :=
  fun s =>
    let '(r, w) := configure_genai h api_key (world s) in
    let s' := {| session := session s; resume_text := resume_text s; world := w |} in
    match r with
    | inl u => (Normal u, s', [CallConfigure api_key])
    | inr e => (Raised e, s', [CallConfigure api_key])
    end.

Definition call_generate (prompt : string) : M W string :=
  fun s =>
    let '(r, w) := get_gemini_response h prompt (world s) in
    let s' := {| session := session s; resume_text := resume_text s; world := w |} in
    match r with
    | inl text => (Normal text, s', [CallGenerate prompt])
    | inr e => (Raised e, s', [CallGenerate prompt])
    end.

Definition call_extract (file : UploadedFile) : M W string :=
  emit (CallExtract file) ;; eval (extract_pdf_text h file).

Definition call_prepare (text jd : string) : M W string :=
  emit (CallPrepare text jd) ;; eval (prepare_prompt h text jd).

(** *** init_session_state *)

Definition init_session_state : M W unit :=
  fun s =>
    match processing (session s) with
    | None => set_processing false s
    | Some _ => ret tt s
    end.

(** *** The Analyze handler, once its inputs are validated *)

(** From the model's reply to the page: decode it, then show the match
    score, the missing keywords and the profile summary. *)
Definition show_analysis (response : string) : M W unit :=
  response_json <- eval (json_loads rt response) ;;
  st_success "✨ Analysis Complete!" ;;
  match_percentage <- eval (py_get response_json "JD Match" (PyStr "N/A")) ;;
  st_metric "Match Score" match_percentage ;;
  st_subheader "Missing Keywords" ;;
  missing_keywords <- eval (py_get response_json "MissingKeywords" (PyList [])) ;;
  (if truthy missing_keywords then
     joined <- eval (str_join ", " missing_keywords) ;;
     st_write (PyStr joined)
   else
     st_write (PyStr "No critical missing keywords found!")) ;;
  st_subheader "Profile Summary" ;;
  summary <- eval (py_get response_json "Profile Summary" (PyStr "No summary available")) ;;
  st_write summary.

(** The body of the [with st.spinner] block. *)
Definition analyze_body (file : UploadedFile) (jd : string) : M W unit :=
  text <- call_extract file ;;
  assign_resume_text text ;;
  input_prompt <- call_prepare text jd ;;
  response <- call_generate input_prompt ;;
  show_analysis response.

(** [processing = True], then the try / except / finally. *)
Definition analyze_action (file : UploadedFile) (jd : string) : M W unit :=
  set_processing true ;;
  try_finally
    (try_except
       (st_spinner "📊 Analyzing your resume..." (analyze_body file jd))
       (fun e => st_error ("An error occurred: " ++ exn_str rt e)))
    (set_processing false).

(** *** The cover-letter handler, once its inputs are validated *)

Definition cover_letter_body
    (job_title company_name personal_message jd : string) : M W unit :=
  text <- read_resume_text ;;
  let prompt := cover_letter_prompt job_title company_name personal_message text jd in
  cover_letter <- call_generate prompt ;;
  st_subheader "Generated Cover Letter" ;;
  st_write (PyStr cover_letter) ;;
  st_download_button "Download Cover Letter" cover_letter "cover_letter.txt" "text/plain".

Definition cover_letter_action
    (job_title company_name personal_message jd : string) : M W unit :=
  set_processing true ;;
  try_finally
    (try_except
       (st_spinner "📝 Generating cover letter..."
          (cover_letter_body job_title company_name personal_message jd))
       (fun e => st_error ("An error occurred: " ++ exn_str rt e)))
    (set_processing false).

(** *** main *)

Definition missing_key_message : string :=
  "Please set the GOOGLE_API_KEY in your .env file".

(** The first button and its handler.  [jd] and [uploaded_file] are the
    values the widgets above it returned. *)
Definition analyze_section (i : inputs) (jd : string)
    (uploaded_file : option UploadedFile) : M W unit :=
  disabled <- get_processing ;;
  analyze <- st_button "Analyze Resume" disabled (analyze_clicked i) ;;
  if analyze then
    (if jd =? "" then
       st_warning "Please provide a job description." ;; return_
     else ret tt) ;;
    match uploaded_file with
    | None => st_warning "Please upload a resume in PDF format." ;; return_
    | Some file => analyze_action file jd
    end
  else ret tt.

(** The second button and its handler. *)
Definition cover_section (i : inputs)
    (company_name job_title personal_message jd : string) : M W unit :=
  disabled <- get_processing ;;
  generate <- st_button "Generate Cover Letter" disabled (cover_clicked i) ;;
  if generate then
    (if (company_name =? "") || (job_title =? "") then
       st_warning "Please provide company name and job title for the cover letter." ;;
       return_
     else ret tt) ;;
    cover_letter_action job_title company_name personal_message jd
  else ret tt.

(** The part of [main] that follows the configuration of the client:
    the page and the two handlers. *)
Definition page (i : inputs) : M W unit :=
  st_sidebar (
    st_title "🎯 Smart ATS" ;;
    st_subheader "About" ;;
    st_write (PyStr about_text)) ;;
  st_title "📄 Smart ATS Resume Analyzer" ;;
  st_subheader "Optimize Your Resume for ATS" ;;
  jd <- st_text_area "Job Description" "Paste the job description here..."
          (Some "Enter the complete job description for accurate analysis") (jd i) ;;
  uploaded_file <- st_file_uploader "Resume (PDF)" "pdf"
          "Upload your resume in PDF format" (uploaded_file i) ;;
  company_name <- st_text_input "Company Name" "Enter company name here..." (company_name i) ;;
  job_title <- st_text_input "Job Title" "Enter job title here..." (job_title i) ;;
  personal_message <- st_text_area "Personal Message" "Add a personal message here..."
          None (personal_message i) ;;
  analyze_section i jd uploaded_file ;;
  cover_section i company_name job_title personal_message jd.

(** What [main] does once the session state is initialised: the API key
    and the configuration of the client, then the page.  [environ i] is
    the environment as [load_dotenv()] leaves it. *)
Definition configure_then_page (i : inputs) : M W unit :=
  match environ i "GOOGLE_API_KEY" with
  | None => st_error missing_key_message ;; return_
  | Some api_key =>
      if api_key =? "" then st_error missing_key_message ;; return_
      else
        try_except (call_configure api_key)
          (fun e => st_error ("Failed to configure API: " ++ exn_str rt e) ;; return_) ;;
        page i
  end.

Definition main (i : inputs) : M W unit :=
  call (init_session_state ;; configure_then_page i).

(** One run of the script in a session: every run starts with
    [resume_text] unbound, since it is a local variable of [main]. *)
Definition run (i : inputs) (ss : session_state) (w : W)
  : completion unit * state W * list event :=
  main i {| session := ss; resume_text := None; world := w |}.

Definition trace_of (i : inputs) (ss : session_state) (w : W) : list event :=
  snd (run i ss w).

Definition session_after (i : inputs) (ss : session_state) (w : W) : session_state :=
  session (snd (fst (run i ss w))).

Definition world_after (i : inputs) (ss : session_state) (w : W) : W :=
  world (snd (fst (run i ss w))).

End Script.

(** ** Reading a log *)

(** The assignment [init_session_state] makes in a new session. *)
Definition init_events (ss : session_state) : list event :=
  match processing ss with
  | None => [SetProcessing false]
  | Some _ => []
  end.

(** The value of the busy flag once [init_session_state] has run. *)
Definition busy (ss : session_state) : bool :=
  match processing ss with
  | Some b => b
  | None => false
  end.

(** The sidebar, the headings and the five input widgets, in the order
    [main] renders them. *)
Definition page_form : list event :=
  [ SidebarEnter;
    Title "🎯 Smart ATS";
    Subheader "About";
    Write (PyStr about_text);
    SidebarExit;
    Title "📄 Smart ATS Resume Analyzer";
    Subheader "Optimize Your Resume for ATS";
    TextArea "Job Description" "Paste the job description here..."
      (Some "Enter the complete job description for accurate analysis");
    FileUploader "Resume (PDF)" "pdf" "Upload your resume in PDF format";
    TextInput "Company Name" "Enter company name here...";
    TextInput "Job Title" "Enter job title here...";
    TextArea "Personal Message" "Add a personal message here..." None ].

(** Events that put something of the page on the screen (everything but
    the three kinds of message, the helper calls and the flag). *)
Definition renders (ev : event) : bool :=
  match ev with
  | SidebarEnter | SidebarExit | Title _ | Subheader _ | Write _ | Metric _ _
  | SpinnerEnter _ | SpinnerExit | TextArea _ _ _ | TextInput _ _
  | FileUploader _ _ _ | Button _ _ | DownloadButton _ _ _ _ => true
  | _ => false
  end.

(** Work done for an action: PDF extraction, prompt building, a request
    to the model. *)
Definition is_action_call (ev : event) : bool :=
  match ev with
  | CallExtract _ | CallPrepare _ _ | CallGenerate _ => true
  | _ => false
  end.

(** The pieces of an analysis result on the page. *)
Definition is_analysis_result (ev : event) : bool :=
  match ev with
  | Success _ | Metric _ _ => true
  | Subheader text => (text =? "Missing Keywords") || (text =? "Profile Summary")
  | _ => false
  end.

(** The startup of [main] gets past the API key and the configuration
    of the client. *)
Definition starts {W} (h : helper W) (i : inputs) (w : W) : bool :=
  match environ i "GOOGLE_API_KEY" with
  | Some api_key =>
      negb (api_key =? "") &&
      match fst (configure_genai h api_key w) with
      | inl _ => true
      | inr _ => false
      end
  | None => false
  end.

(** The calls the startup makes. *)
Definition startup_calls (i : inputs) : list event :=
  match environ i "GOOGLE_API_KEY" with
  | Some api_key => if api_key =? "" then [] else [CallConfigure api_key]
  | None => []
  end.

(** The state of the service once the startup is over. *)
Definition world_started {W} (h : helper W) (i : inputs) (w : W) : W :=
  match environ i "GOOGLE_API_KEY" with
  | Some api_key => if api_key =? "" then w else snd (configure_genai h api_key w)
  | None => w
  end.

(** The two ways the startup fails, with the message each shows. *)
Inductive startup_fails {W} (h : helper W) (rt : runtime) (i : inputs) (w : W)
  : string -> Prop :=
| key_missing :
    (environ i "GOOGLE_API_KEY" = None \/ environ i "GOOGLE_API_KEY" = Some "") ->
    startup_fails h rt i w missing_key_message
| configuration_fails : forall api_key e,
    environ i "GOOGLE_API_KEY" = Some api_key ->
    api_key <> "" ->
    fst (configure_genai h api_key w) = inr e ->
    startup_fails h rt i w ("Failed to configure API: " ++ exn_str rt e).

(** The Analyze handler's validation: a job description and a file. *)
Definition analyze_valid (i : inputs) : bool :=
  negb (jd i =? "") &&
  match uploaded_file i with Some _ => true | None => false end.

(** The cover-letter handler's validation: a company and a job title. *)
Definition cover_valid (i : inputs) : bool :=
  negb ((company_name i =? "") || (job_title i =? "")).

(** The run reaches the second button: the Analyze handler did not
    [return] from [main]. *)
Definition reaches_cover (i : inputs) : bool :=
  negb (analyze_clicked i) || analyze_valid i.

Definition with_cover_clicked (i : inputs) (b : bool) : inputs :=
  {| environ := environ i;
     jd := jd i;
     uploaded_file := uploaded_file i;
     company_name := company_name i;
     job_title := job_title i;
     personal_message := personal_message i;
     analyze_clicked := analyze_clicked i;
     cover_clicked := b |}.

(** [d.get(key, default)] on the items of a dict. *)
Definition value_or (default : pyval) (found : option pyval) : pyval :=
  match found with
  | Some v => v
  | None => default
  end.

(** An Analyze run that gets as far as the model's reply: the startup
    passes, the Analyze button is clicked with a job description and a
    file, the extractor returns [text], the prompt builder [prompt], and
    the model answers [response], leaving the service in state [w']. *)
Definition analysis_gets {W} (h : helper W) (i : inputs) (w : W)
    (file : UploadedFile) (text prompt response : string) (w' : W) : Prop :=
  starts h i w = true /\
  analyze_clicked i = true /\
  jd i <> "" /\
  uploaded_file i = Some file /\
  extract_pdf_text h file = inl text /\
  prepare_prompt h text (jd i) = inl prompt /\
  get_gemini_response h prompt (world_started h i w) = (inl response, w').

(** The log of such a run up to the request to the model. *)
Definition log_until_reply (i : inputs) (ss : session_state)
    (file : UploadedFile) (text prompt : string) : list event :=
  (init_events ss ++ startup_calls i ++ page_form ++
   [ Button "Analyze Resume" (busy ss);
     SetProcessing true;
     SpinnerEnter "📊 Analyzing your resume...";
     CallExtract file;
     CallPrepare text (jd i);
     CallGenerate prompt ])%list.

(** What the second button and its handler add to the log when they are
    reached with the flag released, [resume_text] being bound to [text]
    or unbound, and the service in state [w]. *)
Definition cover_log {W} (h : helper W) (rt : runtime) (i : inputs)
    (text : option string) (w : W) : list event :=
  snd (cover_section h rt i (company_name i) (job_title i) (personal_message i) (jd i)
         {| session := {| processing := Some false |};
            resume_text := text;
            world := w |}).

(** The keywords line for a list of keywords. *)
Definition keywords_line (keywords : list string) : string :=
  match keywords with
  | [] => "No critical missing keywords found!"
  | _ :: _ => String.concat ", " keywords
  end.

(** *** The page while the flag is set *)

(** The busy flag, and the [disabled] each trigger was last rendered
    with in this run ([None]: not rendered so far). *)
Record screen : Type := {
  flag : bool;
  analyze_button : option bool;
  cover_button : option bool
}.

Definition screen_step (sc : screen) (ev : event) : screen :=
  match ev with
  | SetProcessing b =>
      {| flag := b; analyze_button := analyze_button sc; cover_button := cover_button sc |}
  | Button label disabled =>
      if label =? "Analyze Resume" then
        {| flag := flag sc; analyze_button := Some disabled; cover_button := cover_button sc |}
      else if label =? "Generate Cover Letter" then
        {| flag := flag sc; analyze_button := analyze_button sc; cover_button := Some disabled |}
      else sc
  | _ => sc
  end.

(** No trigger on the page is enabled while the flag is set. *)
Definition triggers_locked (sc : screen) : bool :=
  let enabled b := match b with Some false => true | _ => false end in
  negb (flag sc && (enabled (analyze_button sc) || enabled (cover_button sc))).

(** ... at every point of a log. *)
Fixpoint locked_throughout (sc : screen) (log : list event) : bool :=
  triggers_locked sc &&
  match log with
  | [] => true
  | ev :: rest => locked_throughout (screen_step sc ev) rest
  end.

Definition screen_at_start (ss : session_state) : screen :=
  {| flag := busy ss; analyze_button := None; cover_button := None |}.

Definition is_button (ev : event) : bool :=
  match ev with Button _ _ => true | _ => false end.

Definition is_enabled_button (ev : event) : bool :=
  match ev with Button _ false => true | _ => false end.

(** *** A session: one run after the other *)

Fixpoint session_runs {W} (h : helper W) (rt : runtime) (runs : list inputs)
    (ss : session_state) (w : W) : session_state * W :=
  match runs with
  | [] => (ss, w)
  | i :: rest =>
      session_runs h rt rest (session_after h rt i ss w) (world_after h rt i ss w)
  end.

(** The model answers a prompt the same way whatever happened before,
    and so does the configuration of the client. *)
Definition deterministic_stub {W} (h : helper W) : Prop :=
  (forall prompt w1 w2,
     fst (get_gemini_response h prompt w1) = fst (get_gemini_response h prompt w2)) /\
  (forall api_key w1 w2,
     fst (configure_genai h api_key w1) = fst (configure_genai h api_key w2)).

(** The analysis result a log shows, if it shows one: the match score,
    the keywords line and the summary. *)
Fixpoint analysis_result (log : list event) : option (pyval * pyval * pyval) :=
  match log with
  | [] => None
  | Metric _ score :: Subheader _ :: Write keywords :: Subheader _ :: Write summary :: _ =>
      Some (score, keywords, summary)
  | _ :: rest => analysis_result rest
  end.

(** *** Runs that differ only in the state of the service *)

(** Two states with the same session and the same [resume_text]. *)
Definition similar {W} (s1 s2 : state W) : Prop :=
  session s1 = session s2 /\ resume_text s1 = resume_text s2.

(** A computation that cannot tell such states apart: it finishes the
    same way, with the same log, in states that are again similar. *)
Definition agrees {W A} (m : M W A) : Prop :=
  forall s1 s2, similar s1 s2 ->
    fst (fst (m s1)) = fst (fst (m s2)) /\
    snd (m s1) = snd (m s2) /\
    similar (snd (fst (m s1))) (snd (fst (m s2))).

(** ** Proof automation *)

Ltac unfold_script :=
  unfold trace_of, session_after, world_after, run, main, configure_then_page, page,
    analyze_section, cover_section,
    analyze_action, analyze_body, show_analysis, cover_letter_action, cover_letter_body,
    init_session_state, call_configure, call_generate, call_extract, call_prepare,
    st_spinner, st_sidebar, with_, st_button, st_text_area, st_text_input,
    st_file_uploader, st_download_button, st_metric, st_error, st_warning,
    st_success, st_title, st_subheader, st_write, get_processing, set_processing,
    assign_resume_text, read_resume_text, call, try_finally, try_except, bind,
    eval, emit, ret, return_, raise in *.

(** One step of symbolic execution: find the innermost thing the script
    tests next; use a known result for it, else split on it. *)
Ltac split_on x :=
  lazymatch x with
  | context [match ?y with _ => _ end] => split_on y
  | context [if ?y then _ else _] => split_on y
  | _ =>
      match goal with
      | H : x = _ |- _ => rewrite H
      | _ => destruct x eqn:?
      end
  end.

Ltac exec_step :=
  match goal with
  | |- context [match ?x with _ => _ end] => split_on x
  | |- context [if ?x then _ else _] => split_on x
  end; cbn [fst snd session resume_text world processing app] in *.

Ltac exec := unfold_script; cbn [fst snd session resume_text world processing app] in *;
  repeat exec_step.

(** ** Test doubles *)

(** A deterministic stand-in for the remote service and for the Python
    runtime, used to run the script on concrete inputs.  The state of
    the service is the number of requests it has answered. *)
Module Stub.

Definition q : string := String (ascii_of_nat 34) EmptyString.

(** [s] between double quotes. *)
Definition quoted (s : string) : string := q ++ s ++ q.

(** A reply with the three keys. *)
Definition full_reply : string :=
  "{" ++ quoted "JD Match" ++ ": " ++ quoted "80%" ++ ", "
  ++ quoted "MissingKeywords" ++ ": [" ++ quoted "Kubernetes" ++ ", " ++ quoted "Go" ++ "], "
  ++ quoted "Profile Summary" ++ ": " ++ quoted "Strong backend candidate" ++ "}".

Definition full_value : pyval :=
  PyDict [ ("JD Match", PyStr "80%");
           ("MissingKeywords", PyList [PyStr "Kubernetes"; PyStr "Go"]);
           ("Profile Summary", PyStr "Strong backend candidate") ].

(** A reply whose list of keywords is empty. *)
Definition no_keywords_reply : string :=
  "{" ++ quoted "JD Match" ++ ": " ++ quoted "95%" ++ ", "
  ++ quoted "MissingKeywords" ++ ": [], "
  ++ quoted "Profile Summary" ++ ": " ++ quoted "Excellent fit" ++ "}".

Definition no_keywords_value : pyval :=
  PyDict [ ("JD Match", PyStr "95%");
           ("MissingKeywords", PyList []);
           ("Profile Summary", PyStr "Excellent fit") ].

(** A reply with none of the keys. *)
Definition empty_reply : string := "{}".

(** The full reply inside a markdown fence. *)
Definition fenced_reply : string :=
  lines [ "```json"; full_reply; "```" ].

(** [json.loads] on the replies above: the three that are JSON decode
    to their value, the fenced one is rejected at its first character. *)
Definition decodes : list (string * pyval) :=
  [ (full_reply, full_value);
    (no_keywords_reply, no_keywords_value);
    (empty_reply, PyDict []) ].

Definition loads (text : string) : pyval + exn :=
  match dict_lookup text decodes with
  | Some v => inl v
  | None =>
      inr (Failure "JSONDecodeError" "Expecting value: line 1 column 1 (char 0)")
  end.

(** [str(e)] *)
Definition str (e : exn) : string :=
  match e with
  | UnboundLocalError name =>
      "cannot access local variable '" ++ name
      ++ "' where it is not associated with a value"
  | AttributeError obj_type attr =>
      "'" ++ obj_type ++ "' object has no attribute '" ++ attr ++ "'"
  | JoinNotIterable _ => "can only join an iterable"
  | JoinItemNotStr _ item_type =>
      "sequence item: expected str instance, " ++ item_type ++ " found"
  | MetricValueRejected _ => "value is not an accepted type"
  | Failure _ msg => msg
  end.

Definition rt : runtime := {| json_loads := loads; exn_str := str |}.

(** A service made of a configuration check, an extractor and a model. *)
Definition service (configure : string -> unit + exn)
    (extract : UploadedFile -> string + exn)
    (model : string -> string + exn) : helper nat :=
  {| configure_genai := fun api_key n => (configure api_key, n);
     get_gemini_response := fun prompt n => (model prompt, S n);
     extract_pdf_text := extract;
     prepare_prompt := fun text jd => inl ("Resume: " ++ text ++ " JD: " ++ jd) |}.

Definition accept_key (api_key : string) : unit + exn := inl tt.

Definition reject_key (api_key : string) : unit + exn :=
  inr (Failure "ValueError" "API key not valid").

Definition readable (file : UploadedFile) : string + exn :=
  inl "Backend engineer, five years of Python".

Definition unreadable (file : UploadedFile) : string + exn :=
  inr (Failure "PdfReadError" "EOF marker not found").

(** A model that answers every prompt with the same text. *)
Definition says (reply : string) (prompt : string) : string + exn := inl reply.

(** A model that answers the analysis prompt with fenced JSON and any
    other prompt with a letter. *)
Definition fences_analysis (prompt : string) : string + exn :=
  if prompt =? "Resume: Backend engineer, five years of Python JD: Python developer"
  then inl fenced_reply
  else inl "Dear Hiring Manager".

Definition with_key (name : string) : option string :=
  if name =? "GOOGLE_API_KEY" then Some "secret" else None.

Definition without_key (name : string) : option string := None.

Definition resume_pdf : UploadedFile := [x25; x50; x44; x46].

(** The form filled in, with the given clicks. *)
Definition filled (analyze cover : bool) : inputs :=
  {| environ := with_key;
     jd := "Python developer";
     uploaded_file := Some resume_pdf;
     company_name := "ACME";
     job_title := "Engineer";
     personal_message := "";
     analyze_clicked := analyze;
     cover_clicked := cover |}.

(** The form left empty, with the given clicks. *)
Definition blank (analyze cover : bool) : inputs :=
  {| environ := with_key;
     jd := "";
     uploaded_file := None;
     company_name := "";
     job_title := "";
     personal_message := "";
     analyze_clicked := analyze;
     cover_clicked := cover |}.

(** The form filled in, but no API key in the environment. *)
Definition keyless : inputs :=
  {| environ := without_key;
     jd := "Python developer";
     uploaded_file := Some resume_pdf;
     company_name := "ACME";
     job_title := "Engineer";
     personal_message := "";
     analyze_clicked := true;
     cover_clicked := false |}.

Definition analysis_prompt : string :=
  "Resume: Backend engineer, five years of Python JD: Python developer".

(** The service with a valid key, a readable PDF and the given model. *)
Definition answering (model : string -> string + exn) : helper nat :=
  service accept_key readable model.

(** The log of the first run of a session against it. *)
Definition first_run (model : string -> string + exn) (i : inputs) : list event :=
  trace_of (answering model) rt i new_session 0.

End Stub.

(** ** More ways to read a log *)

(** The state one run of the script ends in. *)
Definition state_after {W} (h : helper W) (rt : runtime) (i : inputs)
    (ss : session_state) (w : W) : state W :=
  snd (fst (run h rt i ss w)).

(** The action calls of a log against the busy flag.  The state is the
    flag and whether a request went to the model since the flag was last
    assigned; the replay fails on an action call made while the flag is
    not set, and on a second request under the same assignment. *)
Fixpoint replay_flag (st : bool * bool) (log : list event) : option (bool * bool) :=
  match log with
  | [] => Some st
  | SetProcessing b :: rest => replay_flag (b, false) rest
  | CallGenerate _ :: rest =>
      if fst st && negb (snd st) then replay_flag (fst st, true) rest else None
  | CallExtract _ :: rest | CallPrepare _ _ :: rest =>
      if fst st then replay_flag st rest else None
  | _ :: rest => replay_flag st rest
  end.

Definition guarded_by_flag (flag : bool) (log : list event) : bool :=
  match replay_flag (flag, false) log with
  | Some _ => true
  | None => false
  end.

Definition is_configure (ev : event) : bool :=
  match ev with CallConfigure _ => true | _ => false end.

Definition is_download (ev : event) : bool :=
  match ev with DownloadButton _ _ _ _ => true | _ => false end.

(** A string of ASCII characters, and its characters one by one. *)
Definition ascii_only (s : string) : bool :=
  forallb (fun c => (nat_of_ascii c <? 128)%nat) (list_ascii_of_string s).

Definition characters (s : string) : list string :=
  map (fun c => String c EmptyString) (list_ascii_of_string s).

(** ** More test doubles *)

Module Scenario.

(** A reply that is JSON but not an object. *)
Definition list_reply : string := "[1, 2]".

(** A reply whose keywords are not all strings. *)
Definition mixed_keywords_reply : string :=
  "{" ++ Stub.quoted "MissingKeywords" ++ ": [" ++ Stub.quoted "Go" ++ ", 3]}".

(** A reply whose keywords are [null]. *)
Definition null_keywords_reply : string :=
  "{" ++ Stub.quoted "MissingKeywords" ++ ": null}".

(** A reply whose keywords are one string instead of a list. *)
Definition string_keywords_reply : string :=
  "{" ++ Stub.quoted "MissingKeywords" ++ ": " ++ Stub.quoted "Go" ++ "}".

(** [json.loads] on these replies and on those of [Stub]. *)
Definition decodes : list (string * pyval) :=
  (Stub.decodes ++
   [ (list_reply, PyList [PyInt 1; PyInt 2]);
     (mixed_keywords_reply, PyDict [("MissingKeywords", PyList [PyStr "Go"; PyInt 3])]);
     (null_keywords_reply, PyDict [("MissingKeywords", PyNone)]);
     (string_keywords_reply, PyDict [("MissingKeywords", PyStr "Go")]) ])%list.

Definition loads (text : string) : pyval + exn :=
  match dict_lookup text decodes with
  | Some v => inl v
  | None =>
      inr (Failure "JSONDecodeError" "Expecting value: line 1 column 1 (char 0)")
  end.

Definition rt : runtime := {| json_loads := loads; exn_str := Stub.str |}.

(** A model that is out of quota. *)
Definition unavailable (prompt : string) : string + exn :=
  inr (Failure "ResourceExhausted" "429 quota exceeded").

(** A model that answers the analysis prompt with the full object and
    any other prompt with a letter. *)
Definition answers_both (prompt : string) : string + exn :=
  if prompt =? Stub.analysis_prompt then inl Stub.full_reply
  else inl "Dear Hiring Manager".

(** A model that answers the analysis prompt and is out of quota after. *)
Definition answers_once (prompt : string) : string + exn :=
  if prompt =? Stub.analysis_prompt then inl Stub.full_reply
  else inr (Failure "ResourceExhausted" "429 quota exceeded").

(** A service whose prompt builder raises. *)
Definition no_prompt : helper nat :=
  {| configure_genai := fun api_key n => (inl tt, n);
     get_gemini_response := fun prompt n => (inl Stub.full_reply, S n);
     extract_pdf_text := Stub.readable;
     prepare_prompt := fun text jd => inr (Failure "KeyError" "template") |}.

(** The prompt the cover-letter handler builds for [Stub.filled]. *)
Definition letter_prompt : string :=
  cover_letter_prompt "Engineer" "ACME" ""
    "Backend engineer, five years of Python" "Python developer".

End Scenario.

(** ** JSON texts *)

(** The grammar of RFC 8259, as a recogniser: a JSON text is one value
    between optional white space; a value is an object, an array, a
    string, a number or one of the names [true], [false], [null]. *)
Module Json.

Definition code (c : ascii) : nat := nat_of_ascii c.

Definition is_ws (c : ascii) : bool :=
  (code c =? 32)%nat || (code c =? 9)%nat || (code c =? 10)%nat || (code c =? 13)%nat.

Definition is_digit (c : ascii) : bool := (48 <=? code c)%nat && (code c <=? 57)%nat.

Definition is_hex (c : ascii) : bool :=
  is_digit c
  || ((65 <=? code c)%nat && (code c <=? 70)%nat)
  || ((97 <=? code c)%nat && (code c <=? 102)%nat).

(** The characters that may follow a backslash, [u] apart:
    the double quote, the backslash, the slash, b, f, n, r, t. *)
Definition is_escape (c : ascii) : bool :=
  existsb (fun n => (code c =? n)%nat) [34; 92; 47; 98; 102; 110; 114; 116]%nat.

Fixpoint skip_ws (l : list ascii) : list ascii :=
  match l with
  | c :: rest => if is_ws c then skip_ws rest else l
  | [] => []
  end.

Fixpoint skip_digits (l : list ascii) : list ascii :=
  match l with
  | c :: rest => if is_digit c then skip_digits rest else l
  | [] => []
  end.

(** One digit or more. *)
Definition digits (l : list ascii) : option (list ascii) :=
  match l with
  | c :: rest => if is_digit c then Some (skip_digits rest) else None
  | [] => None
  end.

(** [ "." digits ] [ ("e" | "E") [ "+" | "-" ] digits ] *)
Definition fraction (l : list ascii) : option (list ascii) :=
  match l with
  | c :: rest => if (code c =? 46)%nat then digits rest else Some l
  | [] => Some l
  end.

Definition exponent (l : list ascii) : option (list ascii) :=
  match l with
  | c :: rest =>
      if (code c =? 101)%nat || (code c =? 69)%nat then
        match rest with
        | s :: rest' =>
            if (code s =? 43)%nat || (code s =? 45)%nat then digits rest'
            else digits rest
        | [] => None
        end
      else Some l
  | [] => Some l
  end.

(** [ "-" ] ( "0" | digit1-9 digits ) fraction exponent *)
Definition number (l : list ascii) : option (list ascii) :=
  let unsigned :=
    match l with
    | c :: rest => if (code c =? 45)%nat then rest else l
    | [] => l
    end in
  let integer :=
    match unsigned with
    | c :: rest =>
        if (code c =? 48)%nat then Some rest
        else if is_digit c then Some (skip_digits rest)
        else None
    | [] => None
    end in
  match integer with
  | Some rest =>
      match fraction rest with
      | Some rest' => exponent rest'
      | None => None
      end
  | None => None
  end.

(** A string, from the character after its opening quote to the one
    after its closing quote. *)
Fixpoint string_body (l : list ascii) : option (list ascii) :=
  match l with
  | [] => None
  | c :: rest =>
      if (code c =? 34)%nat then Some rest
      else if (code c =? 92)%nat then
        match rest with
        | e :: rest1 =>
            if is_escape e then string_body rest1
            else if (code e =? 117)%nat then
              match rest1 with
              | h1 :: h2 :: h3 :: h4 :: rest2 =>
                  if is_hex h1 && is_hex h2 && is_hex h3 && is_hex h4
                  then string_body rest2
                  else None
              | _ => None
              end
            else None
        | [] => None
        end
      else if (code c <? 32)%nat then None
      else string_body rest
  end.

(** [name] at the head of [l]. *)
Fixpoint name (n : list ascii) (l : list ascii) : option (list ascii) :=
  match n, l with
  | [], _ => Some l
  | a :: n', c :: rest => if Ascii.eqb a c then name n' rest else None
  | _ :: _, [] => None
  end.

Inductive part : Type :=
| Value       (* a value *)
| Elements    (* value *( "," value ) "]" *)
| Members.    (* string ":" value *( "," string ":" value ) "}" *)

Fixpoint parse (fuel : nat) (p : part) (l : list ascii) : option (list ascii) :=
  match fuel with
  | O => None
  | S fuel' =>
      match p with
      | Value =>
          match l with
          | [] => None
          | c :: rest =>
              if (code c =? 123)%nat then
                match skip_ws rest with
                | c' :: rest' =>
                    if (code c' =? 125)%nat then Some rest'
                    else parse fuel' Members (c' :: rest')
                | [] => None
                end
              else if (code c =? 91)%nat then
                match skip_ws rest with
                | c' :: rest' =>
                    if (code c' =? 93)%nat then Some rest'
                    else parse fuel' Elements (c' :: rest')
                | [] => None
                end
              else if (code c =? 34)%nat then string_body rest
              else if (code c =? 116)%nat then name (list_ascii_of_string "true") l
              else if (code c =? 102)%nat then name (list_ascii_of_string "false") l
              else if (code c =? 110)%nat then name (list_ascii_of_string "null") l
              else number l
          end
      | Elements =>
          match parse fuel' Value l with
          | Some rest =>
              match skip_ws rest with
              | c :: rest' =>
                  if (code c =? 44)%nat then parse fuel' Elements (skip_ws rest')
                  else if (code c =? 93)%nat then Some rest'
                  else None
              | [] => None
              end
          | None => None
          end
      | Members =>
          match l with
          | q :: rest =>
              if (code q =? 34)%nat then
                match string_body rest with
                | Some rest1 =>
                    match skip_ws rest1 with
                    | c :: rest2 =>
                        if (code c =? 58)%nat then
                          match parse fuel' Value (skip_ws rest2) with
                          | Some rest3 =>
                              match skip_ws rest3 with
                              | d :: rest4 =>
                                  if (code d =? 44)%nat
                                  then parse fuel' Members (skip_ws rest4)
                                  else if (code d =? 125)%nat then Some rest4
                                  else None
                              | [] => None
                              end
                          | None => None
                          end
                        else None
                    | [] => None
                    end
                | None => None
                end
              else None
          | [] => None
          end
      end
  end.

End Json.

(** [text] is a JSON text. *)
Definition valid_json (text : string) : bool :=
  let l := list_ascii_of_string text in
  match Json.parse (2 * List.length l + 2) Json.Value (Json.skip_ws l) with
  | Some rest =>
      match Json.skip_ws rest with
      | [] => true
      | _ :: _ => false
      end
  | None => false
  end.

(** A decoder as lenient as Python's: beside the replies of [Stub] it
    takes the literal [NaN], which is not JSON, for a float. *)
Module Lenient.

Definition nan_reply : string :=
  "{" ++ Stub.quoted "JD Match" ++ ": NaN}".

Definition decodes : list (string * pyval) :=
  (Stub.decodes ++
   [ (nan_reply, PyDict [("JD Match", PyFloat S754_nan)]) ])%list.

Definition loads (text : string) : pyval + exn :=
  match dict_lookup text decodes with
  | Some v => inl v
  | None =>
      inr (Failure "JSONDecodeError" "Expecting value: line 1 column 1 (char 0)")
  end.

Definition rt : runtime := {| json_loads := loads; exn_str := Stub.str |}.

End Lenient.

(** ** Runs that Streamlit cuts short *)

(** Everything above describes a run that Streamlit lets run to its end.
    While a script runs, the browser can ask for it to be stopped (the
    Stop button) or re-run (a widget is touched).  The script learns of
    it at its next interaction with Streamlit (every [st.*] call and
    every access to [st.session_state]): instead of taking place, the
    interaction raises [StopException] or [RerunException].  Both
    derive from [BaseException], so [except Exception] does not catch
    them, while [finally] clauses and context managers still run. *)
Inductive control : Type :=
| StopException
| RerunException.

(** How a block finishes when that can happen: as before, or by a
    script-control exception. *)
Inductive outcome (A : Type) : Type :=
| Finished (r : completion A)
| Interrupted (c : control).
Arguments Finished {A} r.
Arguments Interrupted {A} c.

(** What Streamlit does at each interaction of a run, the interactions
    being numbered from 0: let it take place, or raise. *)
Definition schedule : Type := nat -> option control.

(** No request from the browser. *)
Definition undisturbed : schedule := fun _ => None.

(** A stop requested so that the interaction number [k] is the first to
    learn of it: once requested, a stop is raised at every interaction. *)
Definition stop_from (k : nat) : schedule :=
  fun n => if (k <=? n)%nat then Some StopException else None.


(** The state of the script, and the number of interactions so far. *)
Record watched (W : Type) : Type := {
  script : state W;
  seen : nat
}.
Arguments script {W} w.
Arguments seen {W} w.

Definition IM (W A : Type) : Type :=
  schedule -> watched W -> outcome A * watched W * list event.

(** A step of the script that does not go through Streamlit. *)
Definition lift {W A} (m : M W A) : IM W A :=
  fun _ ws =>
    let '(r, s, t) := m (script ws) in
    (Finished r, {| script := s; seen := seen ws |}, t).

(** An interaction: raised instead of done when the schedule says so. *)
Definition interact {W A} (m : M W A) : IM W A :=
  fun sg ws =>
    match sg (seen ws) with
    | Some c => (Interrupted c, {| script := script ws; seen := S (seen ws) |}, [])
    | None =>
        let '(r, s, t) := m (script ws) in
        (Finished r, {| script := s; seen := S (seen ws) |}, t)
    end.

Definition ibind {W A B} (m : IM W A) (k : A -> IM W B) : IM W B :=
  fun sg ws =>
    match m sg ws with
    | (Finished (Normal a), ws1, t1) =>
        let '(o, ws2, t2) := k a sg ws1 in (o, ws2, (t1 ++ t2)%list)
    | (Finished Returned, ws1, t1) => (Finished Returned, ws1, t1)
    | (Finished (Raised e), ws1, t1) => (Finished (Raised e), ws1, t1)
    | (Interrupted c, ws1, t1) => (Interrupted c, ws1, t1)
    end.

Declare Scope watch_scope.
Delimit Scope watch_scope with watch.
Notation "x <- m ;; k" := (ibind m (fun x => k))
  (at level 61, m at next level, right associativity) : watch_scope.
Notation "m ;; k" := (ibind m (fun _ => k))
  (at level 61, right associativity) : watch_scope.

(** [try: body except Exception as e: handler(e)]: a script-control
    exception passes through. *)
Definition itry_except {W A} (body : IM W A) (handler : exn -> IM W A) : IM W A :=
  fun sg ws =>
    match body sg ws with
    | (Finished (Raised e), ws1, t1) =>
        let '(o, ws2, t2) := handler e sg ws1 in (o, ws2, (t1 ++ t2)%list)
    | done => done
    end.

(** [try: body finally: cleanup]: the cleanup runs however the body
    finishes; an exception of the cleanup replaces the one in flight. *)
Definition itry_finally {W A} (body : IM W A) (cleanup : IM W unit) : IM W A :=
  fun sg ws =>
    let '(o, ws1, t1) := body sg ws in
    match cleanup sg ws1 with
    | (Finished (Normal _), ws2, t2) => (o, ws2, (t1 ++ t2)%list)
    | (Finished Returned, ws2, t2) => (Finished Returned, ws2, (t1 ++ t2)%list)
    | (Finished (Raised e), ws2, t2) => (Finished (Raised e), ws2, (t1 ++ t2)%list)
    | (Interrupted c, ws2, t2) => (Interrupted c, ws2, (t1 ++ t2)%list)
    end.

Definition icall {W} (body : IM W unit) : IM W unit :=
  fun sg ws =>
    match body sg ws with
    | (Finished Returned, ws1, t1) => (Finished (Normal tt), ws1, t1)
    | done => done
    end.

(** The script again, with its interactions marked.  The helper calls,
    [json.loads], [.get], the join and the local variable do not go
    through Streamlit; the [with st.sidebar] block only redirects what
    is rendered inside it. *)
Module Watched.

Section Script.

Context {W : Type}.
Variable h : helper W.
Variable rt : runtime.

Local Open Scope watch_scope.

(** [with st.spinner(text)]: a placeholder is rendered on entry and
    emptied on exit. *)
Definition st_spinner {A} (text : string) (body : IM W A) : IM W A :=
  interact (emit (SpinnerEnter text)) ;; itry_finally body (interact (emit SpinnerExit)).

Definition st_sidebar {A} (body : IM W A) : IM W A :=
  lift (emit SidebarEnter) ;; itry_finally body (lift (emit SidebarExit)).

(** [st.metric] refuses the value before it renders anything. *)
Definition st_metric (label : string) (v : pyval) : IM W unit :=
  if metric_accepts v then interact (emit (Metric label v))
  else lift (raise (MetricValueRejected v)).

(** ['processing' in st.session_state] *)
Definition has_processing : M W bool :=
  fun s =>
    (Normal (match processing (session s) with Some _ => true | None => false end),
     s, []).

Definition init_session_state : IM W unit :=
  present <- interact has_processing ;;
  if present then lift (ret tt) else interact (set_processing false).

Definition show_analysis (response : string) : IM W unit :=
  response_json <- lift (eval (json_loads rt response)) ;;
  interact (st_success "✨ Analysis Complete!") ;;
  match_percentage <- lift (eval (py_get response_json "JD Match" (PyStr "N/A"))) ;;
  st_metric "Match Score" match_percentage ;;
  interact (st_subheader "Missing Keywords") ;;
  missing_keywords <- lift (eval (py_get response_json "MissingKeywords" (PyList []))) ;;
  (if truthy missing_keywords then
     joined <- lift (eval (str_join ", " missing_keywords)) ;;
     interact (st_write (PyStr joined))
   else
     interact (st_write (PyStr "No critical missing keywords found!"))) ;;
  interact (st_subheader "Profile Summary") ;;
  summary <- lift (eval (py_get response_json "Profile Summary"
                          (PyStr "No summary available"))) ;;
  interact (st_write summary).

Definition analyze_body (file : UploadedFile) (jd : string) : IM W unit :=
  text <- lift (call_extract h file) ;;
  lift (assign_resume_text text) ;;
  input_prompt <- lift (call_prepare h text jd) ;;
  response <- lift (call_generate h input_prompt) ;;
  show_analysis response.

Definition analyze_action (file : UploadedFile) (jd : string) : IM W unit :=
  interact (set_processing true) ;;
  itry_finally
    (itry_except
       (st_spinner "📊 Analyzing your resume..." (analyze_body file jd))
       (fun e => interact (st_error ("An error occurred: " ++ exn_str rt e))))
    (interact (set_processing false)).

Definition cover_letter_body
    (job_title company_name personal_message jd : string) : IM W unit :=
  text <- lift read_resume_text ;;
  let prompt := cover_letter_prompt job_title company_name personal_message text jd in
  cover_letter <- lift (call_generate h prompt) ;;
  interact (st_subheader "Generated Cover Letter") ;;
  interact (st_write (PyStr cover_letter)) ;;
  interact (st_download_button "Download Cover Letter" cover_letter
              "cover_letter.txt" "text/plain").

Definition cover_letter_action
    (job_title company_name personal_message jd : string) : IM W unit :=
  interact (set_processing true) ;;
  itry_finally
    (itry_except
       (st_spinner "📝 Generating cover letter..."
          (cover_letter_body job_title company_name personal_message jd))
       (fun e => interact (st_error ("An error occurred: " ++ exn_str rt e))))
    (interact (set_processing false)).

Definition analyze_section (i : inputs) (jd : string)
    (uploaded_file : option UploadedFile) : IM W unit :=
  disabled <- interact get_processing ;;
  analyze <- interact (st_button "Analyze Resume" disabled (analyze_clicked i)) ;;
  if analyze then
    (if jd =? "" then
       interact (st_warning "Please provide a job description.") ;; lift return_
     else lift (ret tt)) ;;
    match uploaded_file with
    | None =>
        interact (st_warning "Please upload a resume in PDF format.") ;; lift return_
    | Some file => analyze_action file jd
    end
  else lift (ret tt).

Definition cover_section (i : inputs)
    (company_name job_title personal_message jd : string) : IM W unit :=
  disabled <- interact get_processing ;;
  generate <- interact (st_button "Generate Cover Letter" disabled (cover_clicked i)) ;;
  if generate then
    (if (company_name =? "") || (job_title =? "") then
       interact (st_warning
                   "Please provide company name and job title for the cover letter.") ;;
       lift return_
     else lift (ret tt)) ;;
    cover_letter_action job_title company_name personal_message jd
  else lift (ret tt).

Definition page (i : inputs) : IM W unit :=
  st_sidebar (
    interact (st_title "🎯 Smart ATS") ;;
    interact (st_subheader "About") ;;
    interact (st_write (PyStr about_text))) ;;
  interact (st_title "📄 Smart ATS Resume Analyzer") ;;
  interact (st_subheader "Optimize Your Resume for ATS") ;;
  jd <- interact (st_text_area "Job Description" "Paste the job description here..."
          (Some "Enter the complete job description for accurate analysis") (jd i)) ;;
  uploaded_file <- interact (st_file_uploader "Resume (PDF)" "pdf"
          "Upload your resume in PDF format" (uploaded_file i)) ;;
  company_name <- interact (st_text_input "Company Name" "Enter company name here..."
          (company_name i)) ;;
  job_title <- interact (st_text_input "Job Title" "Enter job title here..."
          (job_title i)) ;;
  personal_message <- interact (st_text_area "Personal Message"
          "Add a personal message here..." None (personal_message i)) ;;
  analyze_section i jd uploaded_file ;;
  cover_section i company_name job_title personal_message jd.

Definition configure_then_page (i : inputs) : IM W unit :=
  match environ i "GOOGLE_API_KEY" with
  | None => interact (st_error missing_key_message) ;; lift return_
  | Some api_key =>
      if api_key =? "" then interact (st_error missing_key_message) ;; lift return_
      else
        itry_except (lift (call_configure h api_key))
          (fun e =>
             interact (st_error ("Failed to configure API: " ++ exn_str rt e)) ;;
             lift return_) ;;
        page i
  end.

Definition main (i : inputs) : IM W unit :=
  icall (init_session_state ;; configure_then_page i).

(** One run under a schedule. *)
Definition run (sg : schedule) (i : inputs) (ss : session_state) (w : W)
  : outcome unit * state W * list event :=
  let '(o, ws, t) :=
    main i sg {| script := {| session := ss; resume_text := None; world := w |};
                 seen := 0 |} in
  (o, script ws, t).

End Script.

End Watched.

(** The interactions of a validated Analyze run up to its request to
    the model: the initialisation of the flag (one or two), the ten
    calls of the form, the flag read and the button, the flag set, and
    the spinner. *)
Definition interactions_before_reply (ss : session_state) : nat :=
  match processing ss with
  | None => 16
  | Some _ => 15
  end.

(** A computation of the script against the same computation with its
    interactions marked.  When the second finishes, the first finishes
    the same way, in the same state and with the same log; when it is
    interrupted, the exception is one the schedule asked for. *)
Definition simulates {W A} (m' : IM W A) (m : M W A) : Prop :=
  forall sg ws,
    match m' sg ws with
    | (Finished r, ws', t) => m (script ws) = (r, script ws', t)
    | (Interrupted c, _, _) => exists n, sg n = Some c
    end.

(** A cleanup that neither returns nor raises an [Exception]. *)
Definition calm {W A} (m' : IM W A) : Prop :=
  forall sg ws,
    match m' sg ws with
    | (Finished (Normal _), _, _) | (Interrupted _, _, _) => True
    | _ => False
    end.

(** The runs of a session, each under its own schedule: the session
    state and the service after the last one, and whether every run
    finished. *)
Fixpoint watched_runs {W} (h : helper W) (rt : runtime)
    (runs : list (schedule * inputs)) (ss : session_state) (w : W)
  : bool * session_state * W :=
  match runs with
  | [] => (true, ss, w)
  | (sg, i) :: rest =>
      let '(o, s, _) := Watched.run h rt sg i ss w in
      let '(finished, ss', w') := watched_runs h rt rest (session s) (world s) in
      (match o with Finished _ => finished | Interrupted _ => false end, ss', w')
  end.

(** A computation that leaves the flag as it found it, once the flag is
    defined. *)
Definition keeps_flag {W A} (m' : IM W A) : Prop :=
  forall sg ws b,
    processing (session (script ws)) = Some b ->
    processing (session (script (snd (fst (m' sg ws))))) = Some b.

(** No click is reported in this run. *)
Definition unclicked (i : inputs) : Prop :=
  analyze_clicked i = false /\ cover_clicked i = false.

(** ** How a run decomposes *)

Section Decomposition.

Context {W : Type}.
Variables (h : helper W) (rt : runtime).

Lemma starts_inv (i : inputs) (w : W) :
  starts h i w = true ->
  exists api_key,
    environ i "GOOGLE_API_KEY" = Some api_key /\
    (api_key =? "") = false /\
    configure_genai h api_key w = (inl tt, world_started h i w) /\
    startup_calls i = [CallConfigure api_key].
Proof.
  unfold starts, world_started, startup_calls.
  destruct (environ i "GOOGLE_API_KEY") as [k|]; [|discriminate].
  destruct (k =? "") eqn:Hk; [discriminate|]. cbn.
  destruct (configure_genai h k w) as [[[]|e] w'] eqn:Hc; cbn; [|discriminate].
  intros _. exists k. auto.
Qed.

(** Past the startup, a run is the page. *)
Lemma run_started (i : inputs) (ss : session_state) (w : W) :
  starts h i w = true ->
  run h rt i ss w =
    let '(r, s, t) :=
      page h rt i {| session := {| processing := Some (busy ss) |};
                     resume_text := None;
                     world := world_started h i w |} in
    (match r with Returned => Normal tt | _ => r end,
     s, (init_events ss ++ startup_calls i ++ t)%list).
Proof.
  intros Hs. destruct (starts_inv i w Hs) as (k & Hk & Hne & Hc & Hcalls).
  rewrite Hcalls. unfold run, main, configure_then_page, call, init_events, busy.
  destruct ss as [[b|]]; cbn [processing].
  all: unfold bind at 1; unfold init_session_state; cbn [processing session];
    unfold set_processing, ret; cbn [session resume_text world];
    rewrite Hk, Hne; unfold bind at 1; unfold try_except, call_configure;
    cbn [world session resume_text]; rewrite Hc;
    match goal with |- context [page _ _ _ ?s] =>
      destruct (page h rt i s) as [[[u| |e] s'] t] end; reflexivity.
Qed.

(** The page is the form, the first button with its handler and, unless
    that handler returned, the second button with its handler. *)
Lemma page_sections (i : inputs) (s : state W) :
  page h rt i s =
    let '(r1, s1, t1) := analyze_section h rt i (jd i) (uploaded_file i) s in
    match r1 with
    | Normal _ =>
        let '(r2, s2, t2) :=
          cover_section h rt i (company_name i) (job_title i)
            (personal_message i) (jd i) s1 in
        (r2, s2, (page_form ++ t1 ++ t2)%list)
    | Returned => (Returned, s1, (page_form ++ t1)%list)
    | Raised e => (Raised e, s1, (page_form ++ t1)%list)
    end.
Proof.
  unfold page, st_sidebar, with_, try_finally, st_title, st_subheader, st_write,
    st_text_area, st_text_input, st_file_uploader, bind, emit, ret.
  destruct (analyze_section h rt i (jd i) (uploaded_file i) s) as [[[u| |e] s1] t1];
    cbn; try reflexivity.
  destruct (cover_section h rt i (company_name i) (job_title i)
              (personal_message i) (jd i) s1) as [[r2 s2] t2].
  reflexivity.
Qed.

End Decomposition.

(** ** The two handlers *)

Section Handlers.

Context {W : Type}.
Variables (h : helper W) (rt : runtime).

(** Decoding and rendering leave the state alone. *)
Lemma show_analysis_state (response : string) (s : state W) :
  snd (fst (show_analysis rt response s)) = s.
Proof. exec; reflexivity. Qed.

(** ... and never leave [main]. *)
Lemma show_analysis_no_return (response : string) (s : state W) :
  fst (fst (show_analysis rt response s)) <> Returned.
Proof. exec; discriminate. Qed.

(** The reply is not JSON: nothing is rendered. *)
Lemma show_analysis_parse_error (response : string) (e : exn) (s : state W) :
  json_loads rt response = inr e ->
  show_analysis rt response s = (Raised e, s, []).
Proof. intros He. exec. reflexivity. Qed.

(** The reply is a JSON object. *)
Lemma show_analysis_object (response : string) (items : list (string * pyval))
    (s : state W) :
  json_loads rt response = inl (PyDict items) ->
  let score := value_or (PyStr "N/A") (dict_lookup "JD Match" items) in
  let keywords := value_or (PyList []) (dict_lookup "MissingKeywords" items) in
  let summary :=
    value_or (PyStr "No summary available") (dict_lookup "Profile Summary" items) in
  show_analysis rt response s =
    if metric_accepts score then
      if truthy keywords then
        match str_join ", " keywords with
        | inl joined =>
            (Normal tt, s,
             [ Success "✨ Analysis Complete!"; Metric "Match Score" score;
               Subheader "Missing Keywords"; Write (PyStr joined);
               Subheader "Profile Summary"; Write summary ])
        | inr e =>
            (Raised e, s,
             [ Success "✨ Analysis Complete!"; Metric "Match Score" score;
               Subheader "Missing Keywords" ])
        end
      else
        (Normal tt, s,
         [ Success "✨ Analysis Complete!"; Metric "Match Score" score;
           Subheader "Missing Keywords";
           Write (PyStr "No critical missing keywords found!");
           Subheader "Profile Summary"; Write summary ])
    else
      (Raised (MetricValueRejected score), s, [ Success "✨ Analysis Complete!" ]).
Proof.
  intros He score keywords summary. subst score keywords summary.
  unfold show_analysis, py_get, bind, eval. rewrite He. unfold ret at 1.
  unfold st_success, emit at 1.
  destruct (dict_lookup "JD Match" items) as [m|];
    destruct (dict_lookup "MissingKeywords" items) as [k|];
    destruct (dict_lookup "Profile Summary" items) as [p|];
    cbn [value_or]; unfold st_metric, ret at 1.
  all: match goal with |- context [metric_accepts ?m] =>
         destruct (metric_accepts m) end; [|reflexivity].
  all: unfold emit at 1, st_subheader at 1, emit at 1, ret at 1.
  all: match goal with |- context [truthy ?k] => destruct (truthy k) end.
  all: try match goal with |- context [str_join ?a ?k] => destruct (str_join a k) end.
  all: reflexivity.
Qed.

(** The Analyze handler, from the reply on. *)
Lemma analyze_action_reply (file : UploadedFile) (jd text prompt response : string)
    (s : state W) (w' : W) :
  extract_pdf_text h file = inl text ->
  prepare_prompt h text jd = inl prompt ->
  get_gemini_response h prompt (world s) = (inl response, w') ->
  analyze_action h rt file jd s =
    let '(r, _, t) :=
      show_analysis rt response
        {| session := {| processing := Some true |};
           resume_text := Some text; world := w' |} in
    (Normal tt,
     {| session := {| processing := Some false |};
        resume_text := Some text; world := w' |},
     ([ SetProcessing true; SpinnerEnter "📊 Analyzing your resume...";
        CallExtract file; CallPrepare text jd; CallGenerate prompt ]
      ++ t ++ SpinnerExit ::
      match r with
      | Raised e => [Error ("An error occurred: " ++ exn_str rt e)]
      | _ => []
      end ++ [SetProcessing false])%list).
Proof.
  intros Hx Hp Hg.
  pose proof (show_analysis_state response
    {| session := {| processing := Some true |};
       resume_text := Some text; world := w' |}) as Hst.
  unfold analyze_action, analyze_body, st_spinner, with_, try_finally, try_except,
    call_extract, call_prepare, call_generate, assign_resume_text, set_processing,
    bind, eval, emit, ret.
  cbn [session resume_text world]. rewrite Hx. cbn [session resume_text world].
  rewrite Hp. cbn [session resume_text world]. rewrite Hg.
  pose proof (show_analysis_no_return response
    {| session := {| processing := Some true |};
       resume_text := Some text; world := w' |}) as Hnr.
  destruct (show_analysis rt response _) as [[r s1] t].
  cbn [fst snd] in Hst, Hnr. subst s1.
  destruct r as [[]| |e]; [| contradiction |];
    cbn; rewrite ?app_nil_r, <- ?app_assoc; reflexivity.
Qed.

(** However the body of the Analyze handler ends, the handler itself
    ends normally and with the flag released. *)
Lemma analyze_action_released (file : UploadedFile) (jd : string) (s : state W) :
  fst (fst (analyze_action h rt file jd s)) = Normal tt /\
  processing (session (snd (fst (analyze_action h rt file jd s)))) = Some false.
Proof. exec; split; reflexivity. Qed.

Lemma cover_letter_action_released
    (job_title company_name personal_message jd : string) (s : state W) :
  fst (fst (cover_letter_action h rt job_title company_name personal_message jd s))
    = Normal tt /\
  processing (session (snd (fst
    (cover_letter_action h rt job_title company_name personal_message jd s))))
    = Some false.
Proof. exec; split; reflexivity. Qed.

(** The cover-letter handler when [resume_text] is unbound. *)
Lemma cover_letter_action_unbound
    (job_title company_name personal_message jd : string) (s : state W) :
  resume_text s = None ->
  cover_letter_action h rt job_title company_name personal_message jd s =
    (Normal tt,
     {| session := {| processing := Some false |};
        resume_text := None; world := world s |},
     [ SetProcessing true; SpinnerEnter "📝 Generating cover letter...";
       SpinnerExit;
       Error ("An error occurred: " ++ exn_str rt (UnboundLocalError "resume_text"));
       SetProcessing false ]).
Proof. intros Hu. exec. reflexivity. Qed.

End Handlers.

(** ** The two buttons *)

Section Buttons.

Context {W : Type}.
Variables (h : helper W) (rt : runtime).

Lemma analyze_section_cases (i : inputs) (jd : string)
    (uploaded_file : option UploadedFile) (s : state W) (b : bool) :
  processing (session s) = Some b ->
  analyze_section h rt i jd uploaded_file s =
    if analyze_clicked i then
      if jd =? "" then
        (Returned, s,
         [Button "Analyze Resume" b; Warning "Please provide a job description."])
      else
        match uploaded_file with
        | None =>
            (Returned, s,
             [Button "Analyze Resume" b; Warning "Please upload a resume in PDF format."])
        | Some file =>
            let '(r, s', t) := analyze_action h rt file jd s in
            (r, s', Button "Analyze Resume" b :: t)
        end
    else (Normal tt, s, [Button "Analyze Resume" b]).
Proof.
  intros Hb.
  unfold analyze_section, get_processing, st_button, st_warning, bind, emit, ret, return_.
  rewrite Hb. cbn [app].
  destruct (analyze_clicked i); [|reflexivity].
  destruct (jd =? ""); [reflexivity|].
  destruct uploaded_file as [file|]; [|reflexivity].
  destruct (analyze_action h rt file jd s) as [[[u| |e] s'] t]; reflexivity.
Qed.

Lemma cover_section_cases (i : inputs)
    (company_name job_title personal_message jd : string) (s : state W) (b : bool) :
  processing (session s) = Some b ->
  cover_section h rt i company_name job_title personal_message jd s =
    if cover_clicked i then
      if (company_name =? "") || (job_title =? "") then
        (Returned, s,
         [ Button "Generate Cover Letter" b;
           Warning "Please provide company name and job title for the cover letter." ])
      else
        let '(r, s', t) :=
          cover_letter_action h rt job_title company_name personal_message jd s in
        (r, s', Button "Generate Cover Letter" b :: t)
    else (Normal tt, s, [Button "Generate Cover Letter" b]).
Proof.
  intros Hb.
  unfold cover_section, get_processing, st_button, st_warning, bind, emit, ret, return_.
  rewrite Hb. cbn [app].
  destruct (cover_clicked i); [|reflexivity].
  destruct ((company_name =? "") || (job_title =? "")); [reflexivity|].
  destruct (cover_letter_action h rt job_title company_name personal_message jd s)
    as [[[u| |e] s'] t]; reflexivity.
Qed.

(** Past the startup, a run is the form and the two sections. *)
Lemma run_sections (i : inputs) (ss : session_state) (w : W) :
  starts h i w = true ->
  run h rt i ss w =
    let '(r1, s1, t1) :=
      analyze_section h rt i (jd i) (uploaded_file i)
        {| session := {| processing := Some (busy ss) |};
           resume_text := None;
           world := world_started h i w |} in
    match r1 with
    | Normal _ =>
        let '(r2, s2, t2) :=
          cover_section h rt i (company_name i) (job_title i)
            (personal_message i) (jd i) s1 in
        (match r2 with Returned => Normal tt | _ => r2 end, s2,
         (init_events ss ++ startup_calls i ++ page_form ++ t1 ++ t2)%list)
    | Returned =>
        (Normal tt, s1, (init_events ss ++ startup_calls i ++ page_form ++ t1)%list)
    | Raised e =>
        (Raised e, s1, (init_events ss ++ startup_calls i ++ page_form ++ t1)%list)
    end.
Proof.
  intros Hs. rewrite (run_started h rt i ss w Hs), page_sections.
  destruct (analyze_section h rt i (jd i) (uploaded_file i) _) as [[[u| |e] s1] t1];
    try reflexivity.
  destruct (cover_section h rt i _ _ _ _ s1) as [[r2 s2] t2]. reflexivity.
Qed.

(** An Analyze run that gets the model's reply. *)
Lemma trace_analysis_reply (i : inputs) (ss : session_state) (w w' : W)
    (file : UploadedFile) (text prompt response : string) :
  analysis_gets h i w file text prompt response w' ->
  let shown :=
    show_analysis rt response
      {| session := {| processing := Some true |};
         resume_text := Some text; world := w' |} in
  trace_of h rt i ss w =
    (log_until_reply i ss file text prompt ++ snd shown ++ SpinnerExit ::
     match fst (fst shown) with
     | Raised e => [Error ("An error occurred: " ++ exn_str rt e)]
     | _ => []
     end ++ SetProcessing false :: cover_log h rt i (Some text) w')%list.
Proof.
  intros (Hs & Hclick & Hjd & Hfile & Hx & Hp & Hg) shown.
  unfold trace_of. rewrite (run_sections i ss w Hs).
  rewrite (analyze_section_cases i (jd i) (uploaded_file i)
             {| session := {| processing := Some (busy ss) |};
                resume_text := None; world := world_started h i w |}
             (busy ss) eq_refl).
  rewrite Hclick, Hfile. apply String.eqb_neq in Hjd. rewrite Hjd.
  rewrite (analyze_action_reply h rt file (jd i) text prompt response
             {| session := {| processing := Some (busy ss) |};
                resume_text := None; world := world_started h i w |}
             w' Hx Hp Hg).
  subst shown. unfold cover_log, log_until_reply.
  destruct (show_analysis rt response _) as [[r s1] t].
  destruct (cover_section h rt i _ _ _ _ _) as [[r2 s2] t2].
  cbn [fst snd].
  destruct r; cbn [app]; rewrite <- ?app_assoc; cbn [app]; reflexivity.
Qed.

End Buttons.

(** ** Logs of the startup and of the form *)

Section Prefix.

Context {W : Type}.
Variables (h : helper W) (rt : runtime).

(** A run whose startup fails. *)
Lemma run_startup_failure (i : inputs) (ss : session_state) (w : W) (msg : string) :
  startup_fails h rt i w msg ->
  run h rt i ss w =
    (Normal tt,
     {| session := {| processing := Some (busy ss) |};
        resume_text := None;
        world := world_started h i w |},
     (init_events ss ++ startup_calls i ++ [Error msg])%list).
Proof.
  intros Hfail. unfold init_events, startup_calls, world_started, busy.
  destruct ss as [[b|]];
    destruct Hfail as [[Hk|Hk]|key e Hk Hne Hc]; rewrite Hk.
  all: try (apply String.eqb_neq in Hne; rewrite Hne).
  all: try (destruct (configure_genai h key w) as [r w'] eqn:Hcfg;
            cbn in Hc; subst r).
  all: unfold_script; cbn; rewrite ?Hk; cbn; rewrite ?Hne; cbn;
       rewrite ?Hcfg; cbn; reflexivity.
Qed.

(** The startup passes or fails. *)
Lemma starts_or_fails (i : inputs) (w : W) :
  starts h i w = true \/ exists msg, startup_fails h rt i w msg.
Proof.
  unfold starts.
  destruct (environ i "GOOGLE_API_KEY") as [k|] eqn:Hk.
  - destruct (k =? "") eqn:Hne.
    + apply String.eqb_eq in Hne. subst k.
      right. eexists. apply key_missing. auto.
    + destruct (fst (configure_genai h k w)) as [u|e] eqn:Hc; cbn.
      * left. reflexivity.
      * right. eexists. eapply configuration_fails; eauto.
        now apply String.eqb_neq.
  - right. eexists. apply key_missing. auto.
Qed.

Lemma prefix_renders_nothing (i : inputs) (ss : session_state) (msg : string) :
  Forall (fun ev => renders ev = false)
    (init_events ss ++ startup_calls i ++ [Error msg]).
Proof.
  unfold init_events, startup_calls.
  repeat (apply Forall_app; split).
  - destruct (processing ss); repeat constructor.
  - destruct (environ i "GOOGLE_API_KEY") as [k|]; [destruct (k =? "")|];
      repeat constructor.
  - repeat constructor.
Qed.

Lemma prefix_no_action_call (i : inputs) (ss : session_state) :
  Forall (fun ev => is_action_call ev = false)
    (init_events ss ++ startup_calls i ++ page_form).
Proof.
  unfold init_events, startup_calls.
  repeat (apply Forall_app; split).
  - destruct (processing ss); repeat constructor.
  - destruct (environ i "GOOGLE_API_KEY") as [k|]; [destruct (k =? "")|];
      repeat constructor.
  - unfold page_form. repeat constructor.
Qed.

Lemma no_action_call_after_prefix (i : inputs) (ss : session_state)
    (rest : list event) :
  Forall (fun ev => is_action_call ev = false) rest ->
  Forall (fun ev => is_action_call ev = false)
    (init_events ss ++ startup_calls i ++ page_form ++ rest).
Proof.
  intros Hrest. rewrite 2 app_assoc. apply Forall_app. split; [|exact Hrest].
  rewrite <- app_assoc. apply prefix_no_action_call.
Qed.

Lemma prefix_no_analysis_result (i : inputs) (ss : session_state) :
  Forall (fun ev => is_analysis_result ev = false)
    (init_events ss ++ startup_calls i ++ page_form).
Proof.
  unfold init_events, startup_calls.
  repeat (apply Forall_app; split).
  - destruct (processing ss); repeat constructor.
  - destruct (environ i "GOOGLE_API_KEY") as [k|]; [destruct (k =? "")|];
      repeat constructor.
  - unfold page_form. repeat constructor.
Qed.

Lemma startup_never_sets_flag (i : inputs) (ss : session_state) :
  ~ In (SetProcessing true) (init_events ss ++ startup_calls i).
Proof.
  unfold init_events, startup_calls. intros Hin.
  apply in_app_or in Hin. destruct Hin as [Hin|Hin].
  - destruct (processing ss); cbn in Hin; intuition discriminate.
  - destruct (environ i "GOOGLE_API_KEY") as [k|]; [destruct (k =? "")|];
      cbn in Hin; intuition discriminate.
Qed.

Lemma form_never_sets_flag : ~ In (SetProcessing true) page_form.
Proof. unfold page_form. cbn. intuition discriminate. Qed.

Lemma prefix_never_sets_flag (i : inputs) (ss : session_state) (rest : list event) :
  In (SetProcessing true) (init_events ss ++ startup_calls i ++ page_form ++ rest) ->
  In (SetProcessing true) rest.
Proof.
  intros Hin. rewrite app_assoc in Hin.
  apply in_app_or in Hin. destruct Hin as [Hin|Hin].
  - exfalso. exact (startup_never_sets_flag i ss Hin).
  - apply in_app_or in Hin. destruct Hin as [Hin|Hin]; [|exact Hin].
    exfalso. exact (form_never_sets_flag Hin).
Qed.

(** The flag after initialisation does not depend on how the session
    state was before. *)
Lemma run_initialised (i : inputs) (ss : session_state) (w : W) :
  run h rt i ss w =
    let '(r, s, t) := run h rt i {| processing := Some (busy ss) |} w in
    (r, s, (init_events ss ++ t)%list).
Proof.
  destruct ss as [[b|]]; unfold init_events, busy; cbn [processing].
  - destruct (run h rt i _ w) as [[r s] t]. reflexivity.
  - unfold run, main, call, bind, init_session_state, set_processing, ret.
    cbn [processing session resume_text world].
    destruct (configure_then_page h rt i _) as [[[u| |e] s'] t]; reflexivity.
Qed.

End Prefix.

(** ** Startup and validation *)

Section Validation.

Context {W : Type}.
Variables (h : helper W) (rt : runtime).

(** C7. When the API key is absent from the environment (or empty), or
    when configuring the client with it raises, the run shows one error
    message and stops there: the log holds the initialisation of the
    flag, the configuration call if one was made, and the error.
    Nothing of the page (sidebar, text areas, buttons) is rendered. *)
Theorem startup_failure_halts (i : inputs) (ss : session_state) (w : W) (msg : string) :
  startup_fails h rt i w msg ->
  trace_of h rt i ss w = (init_events ss ++ startup_calls i ++ [Error msg])%list
  /\ Forall (fun ev => renders ev = false) (trace_of h rt i ss w)
  /\ fst (fst (run h rt i ss w)) = Normal tt.
Proof.
  intros Hfail. unfold trace_of.
  rewrite (run_startup_failure h rt i ss w msg Hfail). cbn [fst snd].
  repeat split. apply prefix_renders_nothing.
Qed.

(** A run whose Analyze click fails validation. *)
Lemma run_analyze_invalid (i : inputs) (ss : session_state) (w : W) :
  starts h i w = true ->
  analyze_clicked i = true ->
  jd i = "" \/ uploaded_file i = None ->
  run h rt i ss w =
    (Normal tt,
     {| session := {| processing := Some (busy ss) |};
        resume_text := None; world := world_started h i w |},
     (init_events ss ++ startup_calls i ++ page_form ++
      [ Button "Analyze Resume" (busy ss);
        Warning (if jd i =? "" then "Please provide a job description."
                 else "Please upload a resume in PDF format.") ])%list).
Proof.
  intros Hs Hclick Hbad.
  rewrite (run_sections h rt i ss w Hs).
  rewrite (analyze_section_cases h rt i (jd i) (uploaded_file i)
             {| session := {| processing := Some (busy ss) |};
                resume_text := None; world := world_started h i w |}
             (busy ss) eq_refl).
  rewrite Hclick.
  destruct (jd i =? "") eqn:Hjd; [reflexivity|].
  destruct Hbad as [Hbad|Hbad].
  - apply String.eqb_neq in Hjd. contradiction.
  - rewrite Hbad. reflexivity.
Qed.

(** C4. An Analyze click without a job description or without a file
    ends the run at once with a warning: after the form and the button
    the log holds the warning and nothing else, so the PDF is not read,
    no prompt is built, no request goes to the model, and the flag is
    not set; the session and the service are as the startup left them. *)
Theorem analyze_validation_aborts (i : inputs) (ss : session_state) (w : W) :
  starts h i w = true ->
  analyze_clicked i = true ->
  jd i = "" \/ uploaded_file i = None ->
  trace_of h rt i ss w =
    (init_events ss ++ startup_calls i ++ page_form ++
     [ Button "Analyze Resume" (busy ss);
       Warning (if jd i =? "" then "Please provide a job description."
                else "Please upload a resume in PDF format.") ])%list
  /\ Forall (fun ev => is_action_call ev = false) (trace_of h rt i ss w)
  /\ ~ In (SetProcessing true) (trace_of h rt i ss w)
  /\ session_after h rt i ss w = {| processing := Some (busy ss) |}
  /\ world_after h rt i ss w = world_started h i w.
Proof.
  intros Hs Hclick Hbad.
  unfold trace_of, session_after, world_after.
  rewrite (run_analyze_invalid i ss w Hs Hclick Hbad). cbn [fst snd session world].
  split; [reflexivity|]. split; [|split; [|split; reflexivity]].
  - apply no_action_call_after_prefix. repeat constructor.
  - intros Hin. apply prefix_never_sets_flag in Hin.
    cbn in Hin. intuition discriminate.
Qed.

(** A run does not look at the second click before the second button. *)
Lemma analyze_section_ignores_cover (i : inputs) (b : bool) (jd : string)
    (uploaded_file : option UploadedFile) (s : state W) :
  analyze_section h rt (with_cover_clicked i b) jd uploaded_file s
  = analyze_section h rt i jd uploaded_file s.
Proof. reflexivity. Qed.

(** When the second button is reached, the first section finished
    normally and left the flag defined. *)
Lemma analyze_section_passes (i : inputs) (s : state W) (b : bool) :
  reaches_cover i = true ->
  processing (session s) = Some b ->
  exists s1 t1 b1,
    analyze_section h rt i (jd i) (uploaded_file i) s = (Normal tt, s1, t1)
    /\ processing (session s1) = Some b1
    /\ (analyze_clicked i = false -> s1 = s /\ t1 = [Button "Analyze Resume" b]).
Proof.
  intros Hreach Hb. rewrite (analyze_section_cases h rt i _ _ s b Hb).
  unfold reaches_cover, analyze_valid in Hreach.
  destruct (analyze_clicked i); cbn in Hreach.
  - destruct (jd i =? ""); [discriminate|].
    destruct (uploaded_file i) as [file|]; [|discriminate].
    destruct (analyze_action_released h rt file (jd i) s) as [Hr Hrel].
    destruct (analyze_action h rt file (jd i) s) as [[r s'] t].
    cbn [fst snd] in Hr, Hrel. subst r.
    exists s', (Button "Analyze Resume" b :: t), false.
    repeat split; auto; discriminate.
  - exists s, [Button "Analyze Resume" b], b. auto.
Qed.

(** The second button is not reached exactly when the Analyze click
    fails validation. *)
Lemma unreached_cover (i : inputs) :
  reaches_cover i = false ->
  analyze_clicked i = true /\ (jd i = "" \/ uploaded_file i = None).
Proof.
  unfold reaches_cover, analyze_valid.
  destruct (analyze_clicked i); [|discriminate]. cbn.
  destruct (jd i =? "") eqn:Hjd.
  - apply String.eqb_eq in Hjd. auto.
  - destruct (uploaded_file i); [discriminate|auto].
Qed.

(** C5. A Generate Cover Letter click without a company name or without
    a job title adds a warning to the run and nothing else: the log is
    the log of the same run without that click, followed by the warning
    when the second button is reached (when the Analyze handler has
    already ended the run with its own warning, the click changes
    nothing).  Either way the run ends on a warning, and the session
    and the service end as they do without the click.  So the click
    builds no prompt, sends no request and does not set the flag; when
    the Analyze button was not clicked either, the whole run makes no
    action call and never sets the flag. *)
Theorem cover_validation_aborts (i : inputs) (ss : session_state) (w : W) :
  starts h i w = true ->
  cover_clicked i = true ->
  company_name i = "" \/ job_title i = "" ->
  let quiet := with_cover_clicked i false in
  trace_of h rt i ss w =
    (trace_of h rt quiet ss w ++
     if reaches_cover i then
       [Warning "Please provide company name and job title for the cover letter."]
     else [])%list
  /\ (exists before msg, trace_of h rt i ss w = (before ++ [Warning msg])%list)
  /\ session_after h rt i ss w = session_after h rt quiet ss w
  /\ world_after h rt i ss w = world_after h rt quiet ss w
  /\ (analyze_clicked i = false ->
      Forall (fun ev => is_action_call ev = false) (trace_of h rt i ss w)
      /\ ~ In (SetProcessing true) (trace_of h rt i ss w)).
Proof.
  intros Hs Hclick Hbad quiet. subst quiet.
  set (quiet := with_cover_clicked i false).
  destruct (reaches_cover i) eqn:Hreach.
  - assert (Hinvalid : (company_name i =? "") || (job_title i =? "") = true).
    { destruct Hbad as [Hbad|Hbad]; rewrite Hbad; cbn; auto using orb_true_r. }
    set (s0 := {| session := {| processing := Some (busy ss) |};
                  resume_text := None; world := world_started h i w |}).
    destruct (analyze_section_passes i s0 (busy ss) Hreach eq_refl)
      as (s1 & t1 & b1 & Hsec & Hb1 & Hidle).
    assert (Hrun : run h rt i ss w =
      (Normal tt, s1,
       (init_events ss ++ startup_calls i ++ page_form ++ t1 ++
        [ Button "Generate Cover Letter" b1;
          Warning "Please provide company name and job title for the cover letter." ])%list)).
    { rewrite (run_sections h rt i ss w Hs). fold s0. rewrite Hsec.
      rewrite (cover_section_cases h rt i _ _ _ _ s1 b1 Hb1), Hclick, Hinvalid.
      reflexivity. }
    assert (Hquiet : run h rt quiet ss w =
      (Normal tt, s1,
       (init_events ss ++ startup_calls i ++ page_form ++ t1 ++
        [ Button "Generate Cover Letter" b1 ])%list)).
    { rewrite (run_sections h rt quiet ss w Hs).
      change (world_started h quiet w) with (world_started h i w). fold s0.
      change (jd quiet) with (jd i).
      change (uploaded_file quiet) with (uploaded_file i).
      unfold quiet at 1. rewrite analyze_section_ignores_cover, Hsec.
      rewrite (cover_section_cases h rt quiet _ _ _ _ s1 b1 Hb1).
      reflexivity. }
    unfold trace_of, session_after, world_after. rewrite Hrun, Hquiet.
    cbn [fst snd].
    assert (Hlog :
      (init_events ss ++ startup_calls i ++ page_form ++ t1 ++
       [ Button "Generate Cover Letter" b1;
         Warning "Please provide company name and job title for the cover letter." ])%list
      = ((init_events ss ++ startup_calls i ++ page_form ++ t1 ++
          [ Button "Generate Cover Letter" b1 ]) ++
         [ Warning "Please provide company name and job title for the cover letter." ])%list).
    { rewrite <- !app_assoc. reflexivity. }
    split; [exact Hlog|].
    split; [do 2 eexists; exact Hlog|].
    split; [reflexivity|split; [reflexivity|]].
    intros Hidle'. destruct (Hidle Hidle') as [_ Ht1]. subst t1. split.
    + apply no_action_call_after_prefix. repeat constructor.
    + intros Hin. apply prefix_never_sets_flag in Hin.
      cbn in Hin. intuition discriminate.
  - destruct (unreached_cover i Hreach) as [Hanalyze Hmissing].
    pose proof (run_analyze_invalid i ss w Hs Hanalyze Hmissing) as Hrun.
    pose proof (run_analyze_invalid quiet ss w Hs Hanalyze Hmissing) as Hquiet.
    unfold trace_of, session_after, world_after. rewrite Hrun, Hquiet.
    cbn [fst snd]. rewrite app_nil_r.
    split; [reflexivity|]. split.
    { exists (init_events ss ++ startup_calls i ++ page_form ++
              [Button "Analyze Resume" (busy ss)])%list.
      eexists. rewrite <- !app_assoc. reflexivity. }
    split; [reflexivity|]. split; [reflexivity|].
    intros Hidle. congruence.
Qed.

End Validation.

(** ** The analysis result *)

Section Analysis.

Context {W : Type}.
Variables (h : helper W) (rt : runtime).

(** Joining a list of strings. *)
Lemma all_str_strings (keywords : list string) (index : nat) :
  all_str index (map PyStr keywords) = inl keywords.
Proof.
  revert index. induction keywords as [|k ks IH]; intros index; cbn.
  - reflexivity.
  - rewrite IH. reflexivity.
Qed.

Lemma str_join_strings (sep : string) (keywords : list string) :
  str_join sep (PyList (map PyStr keywords)) = inl (String.concat sep keywords).
Proof. unfold str_join, iterate. rewrite all_str_strings. reflexivity. Qed.

(** C2. When the model's reply is not JSON, the run shows the decoder's
    error and no analysis result: after the request to the model the log
    goes on with the end of the spinner, the error message and the
    release of the flag, and then with the second button.  No success
    message, metric, keywords heading or summary heading is rendered up
    to there. *)
Theorem parse_error_is_shown (i : inputs) (ss : session_state) (w w' : W)
    (file : UploadedFile) (text prompt response : string) (e : exn) :
  analysis_gets h i w file text prompt response w' ->
  json_loads rt response = inr e ->
  let failed :=
    (log_until_reply i ss file text prompt ++
     [ SpinnerExit;
       Error ("An error occurred: " ++ exn_str rt e);
       SetProcessing false ])%list in
  trace_of h rt i ss w = (failed ++ cover_log h rt i (Some text) w')%list
  /\ Forall (fun ev => is_analysis_result ev = false) failed.
Proof.
  intros Hgets He failed. subst failed. split.
  - rewrite (trace_analysis_reply h rt i ss w w' file text prompt response Hgets).
    rewrite (show_analysis_parse_error rt response e _ He). cbn [fst snd app].
    rewrite <- app_assoc. reflexivity.
  - unfold log_until_reply. rewrite <- !app_assoc, 2 app_assoc.
    apply Forall_app. split.
    + rewrite <- app_assoc. apply prefix_no_analysis_result.
    + repeat constructor.
Qed.

(** C3, as the code has it.  When the reply decodes to a JSON object
    whose match value is one [st.metric] takes and whose keywords are a
    list of strings (an absent key counting as its default), the run
    renders the match score, then the keywords joined with ", " in
    their order, repetitions included, or the fixed sentence when there
    is none, then the summary; each absent key is replaced by its
    default, and no error is shown. *)
Theorem analysis_is_rendered (i : inputs) (ss : session_state) (w w' : W)
    (file : UploadedFile) (text prompt response : string)
    (items : list (string * pyval)) (keywords : list string) :
  analysis_gets h i w file text prompt response w' ->
  json_loads rt response = inl (PyDict items) ->
  metric_accepts (value_or (PyStr "N/A") (dict_lookup "JD Match" items)) = true ->
  value_or (PyList []) (dict_lookup "MissingKeywords" items)
    = PyList (map PyStr keywords) ->
  trace_of h rt i ss w =
    (log_until_reply i ss file text prompt ++
     [ Success "✨ Analysis Complete!";
       Metric "Match Score" (value_or (PyStr "N/A") (dict_lookup "JD Match" items));
       Subheader "Missing Keywords";
       Write (PyStr (keywords_line keywords));
       Subheader "Profile Summary";
       Write (value_or (PyStr "No summary available")
                (dict_lookup "Profile Summary" items));
       SpinnerExit;
       SetProcessing false ] ++
     cover_log h rt i (Some text) w')%list.
Proof.
  intros Hgets Hd Hm Hk.
  rewrite (trace_analysis_reply h rt i ss w w' file text prompt response Hgets).
  rewrite (show_analysis_object rt response items _ Hd). rewrite Hm, Hk.
  destruct keywords as [|k ks].
  - cbn [map truthy fst snd app keywords_line]. reflexivity.
  - change (truthy (PyList (map PyStr (k :: ks)))) with true. cbn match.
    rewrite (str_join_strings ", " (k :: ks)).
    cbn [fst snd app keywords_line]. reflexivity.
Qed.

(** C10. When the decoded object has no "MissingKeywords" key, or has
    an empty list there, the keywords section shows the fixed sentence
    and not a join: if [st.metric] takes the match value, the log goes
    on with the metric, the keywords heading, the sentence, and the
    summary; if it does not, the analysis stops at the metric with an
    error and the keywords section is not rendered at all. *)
Theorem empty_keywords_sentence (i : inputs) (ss : session_state) (w w' : W)
    (file : UploadedFile) (text prompt response : string)
    (items : list (string * pyval)) :
  analysis_gets h i w file text prompt response w' ->
  json_loads rt response = inl (PyDict items) ->
  dict_lookup "MissingKeywords" items = None
    \/ dict_lookup "MissingKeywords" items = Some (PyList []) ->
  let score := value_or (PyStr "N/A") (dict_lookup "JD Match" items) in
  let summary :=
    value_or (PyStr "No summary available") (dict_lookup "Profile Summary" items) in
  trace_of h rt i ss w =
    (log_until_reply i ss file text prompt ++
     Success "✨ Analysis Complete!" ::
     (if metric_accepts score then
        [ Metric "Match Score" score;
          Subheader "Missing Keywords";
          Write (PyStr "No critical missing keywords found!");
          Subheader "Profile Summary";
          Write summary;
          SpinnerExit ]
      else
        [ SpinnerExit;
          Error ("An error occurred: " ++ exn_str rt (MetricValueRejected score)) ]) ++
     SetProcessing false :: cover_log h rt i (Some text) w')%list.
Proof.
  intros Hgets Hd Hk score summary. subst score summary.
  rewrite (trace_analysis_reply h rt i ss w w' file text prompt response Hgets).
  rewrite (show_analysis_object rt response items _ Hd).
  assert (Hkw : value_or (PyList []) (dict_lookup "MissingKeywords" items) = PyList []).
  { destruct Hk as [Hk|Hk]; rewrite Hk; reflexivity. }
  rewrite Hkw. cbn [truthy].
  destruct (metric_accepts _); cbn [fst snd app]; reflexivity.
Qed.

End Analysis.

(** ** The busy flag *)

Section Flag.

Context {W : Type}.
Variables (h : helper W) (rt : runtime).

(** The Analyze handler: it sets the flag first, renders no button, and
    ends normally with the flag released. *)
Lemma analyze_action_shape (file : UploadedFile) (jd : string) (s : state W) :
  exists s' rest,
    analyze_action h rt file jd s = (Normal tt, s', SetProcessing true :: rest)
    /\ processing (session s') = Some false
    /\ Forall (fun ev => is_button ev = false) rest.
Proof.
  exec; do 2 eexists; (split; [reflexivity|]); split; try reflexivity;
    repeat constructor.
Qed.

Lemma cover_letter_action_shape
    (job_title company_name personal_message jd : string) (s : state W) :
  exists s' rest,
    cover_letter_action h rt job_title company_name personal_message jd s
      = (Normal tt, s', SetProcessing true :: rest)
    /\ processing (session s') = Some false
    /\ Forall (fun ev => is_button ev = false) rest.
Proof.
  exec; do 2 eexists; (split; [reflexivity|]); split; try reflexivity;
    repeat constructor.
Qed.

(** A section renders its button with the current flag.  Then either
    its handler does not run, and the session is untouched, or it runs:
    the flag is set right after the button and is released at the end. *)
Lemma analyze_section_shape (i : inputs) (jd : string)
    (uploaded_file : option UploadedFile) (s : state W) (b : bool) :
  processing (session s) = Some b ->
  exists r s1 rest,
    analyze_section h rt i jd uploaded_file s
      = (r, s1, Button "Analyze Resume" b :: rest)
    /\ Forall (fun ev => is_button ev = false) rest
    /\ ((r = Normal tt \/ r = Returned)
        /\ ~ In (SetProcessing true) rest /\ session s1 = session s
        \/
        r = Normal tt
        /\ (exists rest', rest = SetProcessing true :: rest')
        /\ processing (session s1) = Some false).
Proof.
  intros Hb. rewrite (analyze_section_cases h rt i jd uploaded_file s b Hb).
  destruct (analyze_clicked i).
  - destruct (jd =? "").
    + do 3 eexists. split; [reflexivity|]. split; [repeat constructor|].
      left. repeat split; auto. cbn. intuition discriminate.
    + destruct uploaded_file as [file|].
      * destruct (analyze_action_shape file jd s) as (s' & rest & Heq & Hrel & Hnb).
        rewrite Heq. do 3 eexists. split; [reflexivity|].
        split; [constructor; [reflexivity|exact Hnb]|].
        right. repeat split; eauto.
      * do 3 eexists. split; [reflexivity|]. split; [repeat constructor|].
        left. repeat split; auto. cbn. intuition discriminate.
  - do 3 eexists. split; [reflexivity|]. split; [constructor|].
    left. repeat split; auto.
Qed.

Lemma cover_section_shape (i : inputs)
    (company_name job_title personal_message jd : string) (s : state W) (b : bool) :
  processing (session s) = Some b ->
  exists r s1 rest,
    cover_section h rt i company_name job_title personal_message jd s
      = (r, s1, Button "Generate Cover Letter" b :: rest)
    /\ Forall (fun ev => is_button ev = false) rest
    /\ ((r = Normal tt \/ r = Returned)
        /\ ~ In (SetProcessing true) rest /\ session s1 = session s
        \/
        r = Normal tt
        /\ (exists rest', rest = SetProcessing true :: rest')
        /\ processing (session s1) = Some false).
Proof.
  intros Hb.
  rewrite (cover_section_cases h rt i company_name job_title personal_message jd s b Hb).
  destruct (cover_clicked i).
  - destruct ((company_name =? "") || (job_title =? "")).
    + do 3 eexists. split; [reflexivity|]. split; [repeat constructor|].
      left. repeat split; auto. cbn. intuition discriminate.
    + destruct (cover_letter_action_shape job_title company_name personal_message jd s)
        as (s' & rest & Heq & Hrel & Hnb).
      rewrite Heq. do 3 eexists. split; [reflexivity|].
      split; [constructor; [reflexivity|exact Hnb]|].
      right. repeat split; eauto.
  - do 3 eexists. split; [reflexivity|]. split; [constructor|].
    left. repeat split; auto.
Qed.

(** The shape of a run that gets past the startup. *)
Lemma run_shape (i : inputs) (ss : session_state) (w : W) :
  starts h i w = true ->
  exists s2 rest1 rest2,
    run h rt i ss w =
      (Normal tt, s2,
       (init_events ss ++ startup_calls i ++ page_form ++
        Button "Analyze Resume" (busy ss) :: rest1 ++ rest2)%list)
    /\ Forall (fun ev => is_button ev = false) rest1
    /\ ( (* the Analyze handler ran *)
         (exists rest1', rest1 = SetProcessing true :: rest1')
         /\ processing (session s2) = Some false
         /\ (rest2 = [] \/ exists rest2',
               rest2 = Button "Generate Cover Letter" false :: rest2'
               /\ Forall (fun ev => is_button ev = false) rest2')
         \/
         (* it did not *)
         ~ In (SetProcessing true) rest1
         /\ (rest2 = [] /\ session s2 = {| processing := Some (busy ss) |}
             \/ exists rest2',
               rest2 = Button "Generate Cover Letter" (busy ss) :: rest2'
               /\ Forall (fun ev => is_button ev = false) rest2'
               /\ (~ In (SetProcessing true) rest2'
                   /\ session s2 = {| processing := Some (busy ss) |}
                   \/
                   (exists rest2'', rest2' = SetProcessing true :: rest2'')
                   /\ processing (session s2) = Some false)) ).
Proof.
  intros Hs. rewrite (run_sections h rt i ss w Hs).
  set (s0 := {| session := {| processing := Some (busy ss) |};
                resume_text := None; world := world_started h i w |}).
  destruct (analyze_section_shape i (jd i) (uploaded_file i) s0 (busy ss) eq_refl)
    as (r1 & s1 & rest1 & Heq1 & Hnb1 & Hcase1).
  rewrite Heq1.
  destruct Hcase1 as [([Hr1|Hr1] & Hno1 & Hsess1) | (Hr1 & Hset1 & Hrel1)]; subst r1.
  - (* handler idle, second button reached *)
    assert (Hb1 : processing (session s1) = Some (busy ss)) by (rewrite Hsess1; reflexivity).
    destruct (cover_section_shape i (company_name i) (job_title i)
                (personal_message i) (jd i) s1 (busy ss) Hb1)
      as (r2 & s2 & rest2 & Heq2 & Hnb2 & Hcase2).
    rewrite Heq2. exists s2, rest1, (Button "Generate Cover Letter" (busy ss) :: rest2).
    split.
    { destruct Hcase2 as [([Hr2|Hr2] & _) | (Hr2 & _)]; subst r2; reflexivity. }
    split; [exact Hnb1|]. right. split; [exact Hno1|]. right.
    exists rest2. split; [reflexivity|]. split; [exact Hnb2|].
    destruct Hcase2 as [(_ & Hno2 & Hsess2) | (_ & Hset2 & Hrel2)].
    + left. split; [exact Hno2|]. rewrite Hsess2, Hsess1. reflexivity.
    + right. split; assumption.
  - (* validation failed *)
    exists s1, rest1, []. split; [rewrite app_nil_r; reflexivity|].
    split; [exact Hnb1|]. right. split; [exact Hno1|]. left.
    split; [reflexivity|]. rewrite Hsess1. reflexivity.
  - (* handler ran *)
    destruct (cover_section_shape i (company_name i) (job_title i)
                (personal_message i) (jd i) s1 false Hrel1)
      as (r2 & s2 & rest2 & Heq2 & Hnb2 & Hcase2).
    rewrite Heq2. exists s2, rest1, (Button "Generate Cover Letter" false :: rest2).
    split.
    { destruct Hcase2 as [([Hr2|Hr2] & _) | (Hr2 & _)]; subst r2; reflexivity. }
    split; [exact Hnb1|]. left. split; [exact Hset1|]. split.
    + destruct Hcase2 as [(_ & _ & Hsess2) | (_ & _ & Hrel2)];
        [rewrite Hsess2; exact Hrel1 | exact Hrel2].
    + right. exists rest2. split; [reflexivity|exact Hnb2].
Qed.

(** A run that Streamlit does not interrupt: whenever it sets the flag
    (an action passed its validation), it ends with the flag released
    and without an exception escaping from [main], whatever the
    extractor, the prompt builder, the model and the decoder did. *)
Lemma uninterrupted_action_releases_flag (i : inputs) (ss : session_state) (w : W) :
  In (SetProcessing true) (trace_of h rt i ss w) ->
  processing (session_after h rt i ss w) = Some false
  /\ fst (fst (run h rt i ss w)) = Normal tt.
Proof.
  unfold trace_of, session_after.
  destruct (starts_or_fails h rt i w) as [Hs|[msg Hfail]].
  - destruct (run_shape i ss w Hs) as (s2 & rest1 & rest2 & Hrun & _ & Hcase).
    rewrite Hrun. cbn [fst snd]. intros Hin. split; [|reflexivity].
    destruct Hcase as [(_ & Hrel & _) | (Hno1 & Hcase)]; [exact Hrel|].
    apply prefix_never_sets_flag in Hin.
    destruct Hin as [Hin|Hin]; [discriminate|].
    apply in_app_or in Hin. destruct Hin as [Hin|Hin]; [contradiction|].
    destruct Hcase as [(Hnil & _) | (rest2' & Heq & _ & Hcase)].
    + subst rest2. contradiction.
    + subst rest2. destruct Hin as [Hin|Hin]; [discriminate|].
      destruct Hcase as [(Hno2 & _) | (_ & Hrel)]; [contradiction|exact Hrel].
  - rewrite (run_startup_failure h rt i ss w msg Hfail). cbn [fst snd].
    intros Hin. exfalso. rewrite app_assoc in Hin.
    apply in_app_or in Hin. destruct Hin as [Hin|Hin].
    + exact (startup_never_sets_flag i ss Hin).
    + cbn in Hin. intuition discriminate.
Qed.

End Flag.

(** ** What the flag does for the two buttons *)

Section Triggers.

Context {W : Type}.
Variables (h : helper W) (rt : runtime).

(** Every run leaves the flag defined, and released when the run began
    with the flag not set. *)
Lemma run_leaves_flag_released (i : inputs) (ss : session_state) (w : W) :
  busy ss = false ->
  session_after h rt i ss w = {| processing := Some false |}.
Proof.
  intros Hidle. unfold session_after.
  destruct (starts_or_fails h rt i w) as [Hs|[msg Hfail]].
  - destruct (run_shape h rt i ss w Hs) as (s2 & rest1 & rest2 & Hrun & _ & Hcase).
    rewrite Hrun. cbn [fst snd]. rewrite Hidle in Hcase.
    assert (Hflag : processing (session s2) = Some false).
    { destruct Hcase as [(_ & Hrel & _) | (_ & [(_ & Hsess) | (r & _ & _ & Hcase)])].
      - exact Hrel.
      - rewrite Hsess. reflexivity.
      - destruct Hcase as [(_ & Hsess) | (_ & Hrel)];
          [rewrite Hsess; reflexivity | exact Hrel]. }
    destruct (session s2) as [p]. cbn in Hflag. subst p. reflexivity.
  - rewrite (run_startup_failure h rt i ss w msg Hfail). cbn [fst snd session].
    rewrite Hidle. reflexivity.
Qed.

(** So the flag is never set when a run of a session begins. *)
Lemma session_starts_idle (runs : list inputs) (ss : session_state) (w : W) :
  busy ss = false ->
  busy (fst (session_runs h rt runs ss w)) = false.
Proof.
  revert ss w. induction runs as [|i runs IH]; intros ss w Hidle; cbn.
  - exact Hidle.
  - apply IH. rewrite (run_leaves_flag_released i ss w Hidle). reflexivity.
Qed.

(** A trigger rendered enabled and the flag set right after it: from
    there on the page shows an enabled trigger while the flag is set. *)
Lemma enabled_while_processing (label : string) (before rest : list event)
    (sc : screen) :
  label = "Analyze Resume" \/ label = "Generate Cover Letter" ->
  locked_throughout sc
    (before ++ Button label false :: SetProcessing true :: rest) = false.
Proof.
  intros Hlabel. revert sc.
  induction before as [|ev before IH]; intros sc.
  - cbn [app locked_throughout].
    assert (Hopen : triggers_locked
                      (screen_step (screen_step sc (Button label false))
                         (SetProcessing true)) = false).
    { destruct sc as [f a c].
      destruct Hlabel as [Hl|Hl]; subst label; cbn;
        destruct a as [[|]|], c as [[|]|]; reflexivity. }
    destruct rest; cbn [locked_throughout]; rewrite Hopen;
      rewrite ?andb_false_r; cbn; rewrite ?andb_false_r; reflexivity.
  - cbn [app locked_throughout]. rewrite IH. apply andb_false_r.
Qed.

Lemma buttons_enabled_after_prefix (i : inputs) (ss : session_state)
    (rest : list event) :
  Forall (fun ev => is_button ev = true -> is_enabled_button ev = true) rest ->
  Forall (fun ev => is_button ev = true -> is_enabled_button ev = true)
    (init_events ss ++ startup_calls i ++ page_form ++ rest).
Proof.
  intros Hrest. unfold init_events, startup_calls.
  repeat (apply Forall_app; split); [| | |exact Hrest].
  - destruct (processing ss); repeat constructor; discriminate.
  - destruct (environ i "GOOGLE_API_KEY") as [k|]; [destruct (k =? "")|];
      repeat constructor; discriminate.
  - unfold page_form. repeat constructor; discriminate.
Qed.

Lemma no_button_enabled_vacuous (l : list event) :
  Forall (fun ev => is_button ev = false) l ->
  Forall (fun ev => is_button ev = true -> is_enabled_button ev = true) l.
Proof.
  intros Hl. eapply Forall_impl; [|exact Hl].
  cbn. intros ev Hnb Hb. congruence.
Qed.

(** C6, as the code has it.  In a session, the flag is never set when a
    run begins; both buttons read it before any handler runs or after
    the handler has released it.  So every button of every run is
    rendered enabled, and in every run that dispatches an action the
    page shows an enabled trigger while the flag is set: the property
    "no trigger is enabled while [processing] is true" fails on its
    log. *)
Theorem triggers_stay_enabled (runs : list inputs) (i : inputs) (w0 : W) :
  let ss := fst (session_runs h rt runs new_session w0) in
  let w := snd (session_runs h rt runs new_session w0) in
  Forall (fun ev => is_button ev = true -> is_enabled_button ev = true)
    (trace_of h rt i ss w)
  /\ (In (SetProcessing true) (trace_of h rt i ss w) ->
      locked_throughout (screen_at_start ss) (trace_of h rt i ss w) = false).
Proof.
  intros ss w.
  assert (Hidle : busy ss = false).
  { apply session_starts_idle. reflexivity. }
  clearbody ss w. unfold trace_of.
  destruct (starts_or_fails h rt i w) as [Hs|[msg Hfail]].
  - destruct (run_shape h rt i ss w Hs) as (s2 & rest1 & rest2 & Hrun & Hnb1 & Hcase).
    rewrite Hrun. cbn [fst snd]. rewrite Hidle in *. split.
    + apply buttons_enabled_after_prefix. constructor; [reflexivity|].
      apply Forall_app. split; [apply no_button_enabled_vacuous; exact Hnb1|].
      destruct Hcase as [(_ & _ & [Hnil | (r & Heq & Hnb2)])
                        | (_ & [(Hnil & _) | (r & Heq & Hnb2 & _)])];
        subst rest2; try constructor; try reflexivity;
        apply no_button_enabled_vacuous; exact Hnb2.
    + intros Hin. apply prefix_never_sets_flag in Hin.
      destruct Hcase as [((r1 & Heq1) & _) | (Hno1 & Hcase)].
      * subst rest1. cbn [app].
        replace (init_events ss ++ startup_calls i ++ page_form ++
                 Button "Analyze Resume" false :: SetProcessing true :: r1 ++ rest2)%list
          with ((init_events ss ++ startup_calls i ++ page_form) ++
                Button "Analyze Resume" false :: SetProcessing true :: r1 ++ rest2)%list
          by (rewrite <- !app_assoc; reflexivity).
        apply enabled_while_processing. auto.
      * destruct Hin as [Hin|Hin]; [discriminate|].
        apply in_app_or in Hin. destruct Hin as [Hin|Hin]; [contradiction|].
        destruct Hcase as [(Hnil & _) | (r2 & Heq & _ & Hcase)];
          subst rest2; [contradiction|].
        destruct Hin as [Hin|Hin]; [discriminate|].
        destruct Hcase as [(Hno2 & _) | ((r3 & Heq3) & _)]; [contradiction|].
        subst r2.
        replace (init_events ss ++ startup_calls i ++ page_form ++
                 Button "Analyze Resume" false :: rest1 ++
                 Button "Generate Cover Letter" false :: SetProcessing true :: r3)%list
          with ((init_events ss ++ startup_calls i ++ page_form ++
                 Button "Analyze Resume" false :: rest1) ++
                Button "Generate Cover Letter" false :: SetProcessing true :: r3)%list
          by (rewrite <- !app_assoc; reflexivity).
        apply enabled_while_processing. auto.
  - rewrite (run_startup_failure h rt i ss w msg Hfail). cbn [fst snd]. split.
    + unfold init_events, startup_calls.
      repeat (apply Forall_app; split).
      * destruct (processing ss); repeat constructor; discriminate.
      * destruct (environ i "GOOGLE_API_KEY") as [k|]; [destruct (k =? "")|];
          repeat constructor; discriminate.
      * repeat constructor; discriminate.
    + intros Hin. exfalso. rewrite app_assoc in Hin.
      apply in_app_or in Hin. destruct Hin as [Hin|Hin].
      * exact (startup_never_sets_flag i ss Hin).
      * cbn in Hin. intuition discriminate.
Qed.

End Triggers.

(** ** The cover letter and the local variable *)

Section CoverLetter.

Context {W : Type}.
Variables (h : helper W) (rt : runtime).

(** The Analyze handler when the extractor raises: [resume_text] is
    left as it was. *)
Lemma analyze_action_extract_fails (file : UploadedFile) (jd : string)
    (e : exn) (s : state W) :
  extract_pdf_text h file = inr e ->
  analyze_action h rt file jd s =
    (Normal tt,
     {| session := {| processing := Some false |};
        resume_text := resume_text s; world := world s |},
     [ SetProcessing true; SpinnerEnter "📊 Analyzing your resume...";
       CallExtract file; SpinnerExit;
       Error ("An error occurred: " ++ exn_str rt e);
       SetProcessing false ]).
Proof. intros He. exec. reflexivity. Qed.

(** When the Analyze handler does not run, or runs and the extractor
    raises, the second button is reached with [resume_text] unbound. *)
Lemma analyze_section_leaves_unbound (i : inputs) (s : state W) (b : bool) :
  analyze_clicked i = false
    \/ (jd i <> "" /\ exists file e,
          uploaded_file i = Some file /\ extract_pdf_text h file = inr e) ->
  processing (session s) = Some b ->
  resume_text s = None ->
  exists s1 t1 b1,
    analyze_section h rt i (jd i) (uploaded_file i) s = (Normal tt, s1, t1)
    /\ processing (session s1) = Some b1
    /\ resume_text s1 = None.
Proof.
  intros Hcase Hb Hu. rewrite (analyze_section_cases h rt i _ _ s b Hb).
  destruct Hcase as [Hidle | (Hjd & file & e & Hfile & Hx)].
  - rewrite Hidle. exists s, [Button "Analyze Resume" b], b. auto.
  - apply String.eqb_neq in Hjd. rewrite Hjd, Hfile.
    rewrite (analyze_action_extract_fails file (jd i) e s Hx).
    destruct (analyze_clicked i); do 3 eexists; (split; [reflexivity|]);
      cbn [session resume_text processing]; eauto.
Qed.

(** C8, as the code has it.  A Generate Cover Letter click with a
    company and a job title, in a run where [resume_text] was never
    assigned (the Analyze handler did not run, or its PDF extraction
    raised), fails at the prompt: the log is the log of the same run
    without that click, followed by the flag being set, the spinner, the
    error message for the unbound variable and the release of the flag.
    No request goes to the model (the service ends as it does without
    the click) and no cover letter is shown. *)
Theorem cover_letter_needs_resume_text (i : inputs) (ss : session_state) (w : W) :
  starts h i w = true ->
  cover_clicked i = true ->
  company_name i <> "" ->
  job_title i <> "" ->
  analyze_clicked i = false
    \/ (jd i <> "" /\ exists file e,
          uploaded_file i = Some file /\ extract_pdf_text h file = inr e) ->
  let quiet := with_cover_clicked i false in
  trace_of h rt i ss w =
    (trace_of h rt quiet ss w ++
     [ SetProcessing true;
       SpinnerEnter "📝 Generating cover letter...";
       SpinnerExit;
       Error ("An error occurred: " ++ exn_str rt (UnboundLocalError "resume_text"));
       SetProcessing false ])%list
  /\ processing (session_after h rt i ss w) = Some false
  /\ world_after h rt i ss w = world_after h rt quiet ss w.
Proof.
  intros Hs Hclick Hcompany Htitle Hcase quiet. subst quiet.
  set (quiet := with_cover_clicked i false).
  apply String.eqb_neq in Hcompany, Htitle.
  set (s0 := {| session := {| processing := Some (busy ss) |};
                resume_text := None; world := world_started h i w |}).
  destruct (analyze_section_leaves_unbound i s0 (busy ss) Hcase eq_refl eq_refl)
    as (s1 & t1 & b1 & Hsec & Hb1 & Hu1).
  assert (Hrun : run h rt i ss w =
    (Normal tt,
     {| session := {| processing := Some false |};
        resume_text := None; world := world s1 |},
     (init_events ss ++ startup_calls i ++ page_form ++ t1 ++
      [ Button "Generate Cover Letter" b1;
        SetProcessing true;
        SpinnerEnter "📝 Generating cover letter...";
        SpinnerExit;
        Error ("An error occurred: " ++ exn_str rt (UnboundLocalError "resume_text"));
        SetProcessing false ])%list)).
  { rewrite (run_sections h rt i ss w Hs). fold s0. rewrite Hsec.
    rewrite (cover_section_cases h rt i _ _ _ _ s1 b1 Hb1), Hclick, Hcompany, Htitle.
    cbn [orb].
    rewrite (cover_letter_action_unbound h rt _ _ _ _ s1 Hu1). reflexivity. }
  assert (Hquiet : run h rt quiet ss w =
    (Normal tt, s1,
     (init_events ss ++ startup_calls i ++ page_form ++ t1 ++
      [ Button "Generate Cover Letter" b1 ])%list)).
  { rewrite (run_sections h rt quiet ss w Hs).
    change (world_started h quiet w) with (world_started h i w). fold s0.
    change (jd quiet) with (jd i).
    change (uploaded_file quiet) with (uploaded_file i).
    unfold quiet at 1. rewrite analyze_section_ignores_cover, Hsec.
    rewrite (cover_section_cases h rt quiet _ _ _ _ s1 b1 Hb1).
    reflexivity. }
  unfold trace_of, session_after, world_after. rewrite Hrun, Hquiet.
  cbn [fst snd session world processing].
  split; [|split; reflexivity].
  rewrite <- !app_assoc. reflexivity.
Qed.

End CoverLetter.

(** ** Runs do not depend on the state of a deterministic service *)

Section Determinism.

Context {W : Type}.
Variables (h : helper W) (rt : runtime).
Hypothesis stub : deterministic_stub h.

Lemma agrees_ret {A} (a : A) : agrees (@ret W A a).
Proof. intros s1 s2 Hsim. cbn. auto. Qed.

Lemma agrees_emit (ev : event) : agrees (@emit W ev).
Proof. intros s1 s2 Hsim. cbn. auto. Qed.

Lemma agrees_raise {A} (e : exn) : agrees (@raise W A e).
Proof. intros s1 s2 Hsim. cbn. auto. Qed.

Lemma agrees_return {A} : agrees (@return_ W A).
Proof. intros s1 s2 Hsim. cbn. auto. Qed.

Lemma agrees_eval {A} (r : A + exn) : agrees (@eval W A r).
Proof. destruct r; [apply agrees_ret|apply agrees_raise]. Qed.

Lemma agrees_bind {A B} (m : M W A) (k : A -> M W B) :
  agrees m -> (forall a, agrees (k a)) -> agrees (bind m k).
Proof.
  intros Hm Hk s1 s2 Hsim. unfold bind.
  destruct (Hm s1 s2 Hsim) as (Hr & Ht & Hs).
  destruct (m s1) as [[r1 s1'] t1], (m s2) as [[r2 s2'] t2].
  cbn [fst snd] in Hr, Ht, Hs. subst r2 t2.
  destruct r1 as [a| |e]; cbn [fst snd]; auto.
  destruct (Hk a s1' s2' Hs) as (Hr' & Ht' & Hs').
  destruct (k a s1') as [[r1 s1''] t1'], (k a s2') as [[r2 s2''] t2'].
  cbn [fst snd] in Hr', Ht', Hs'. subst r2 t2'. cbn [fst snd]. auto.
Qed.

Lemma agrees_try_except {A} (body : M W A) (handler : exn -> M W A) :
  agrees body -> (forall e, agrees (handler e)) -> agrees (try_except body handler).
Proof.
  intros Hm Hk s1 s2 Hsim. unfold try_except.
  destruct (Hm s1 s2 Hsim) as (Hr & Ht & Hs).
  destruct (body s1) as [[r1 s1'] t1], (body s2) as [[r2 s2'] t2].
  cbn [fst snd] in Hr, Ht, Hs. subst r2 t2.
  destruct r1 as [a| |e]; cbn [fst snd]; auto.
  destruct (Hk e s1' s2' Hs) as (Hr' & Ht' & Hs').
  destruct (handler e s1') as [[r1 s1''] t1'], (handler e s2') as [[r2 s2''] t2'].
  cbn [fst snd] in Hr', Ht', Hs'. subst r2 t2'. cbn [fst snd]. auto.
Qed.

Lemma agrees_try_finally {A} (body : M W A) (cleanup : M W unit) :
  agrees body -> agrees cleanup -> agrees (try_finally body cleanup).
Proof.
  intros Hm Hc s1 s2 Hsim. unfold try_finally.
  destruct (Hm s1 s2 Hsim) as (Hr & Ht & Hs).
  destruct (body s1) as [[r1 s1'] t1], (body s2) as [[r2 s2'] t2].
  cbn [fst snd] in Hr, Ht, Hs. subst r2 t2.
  destruct (Hc s1' s2' Hs) as (Hr' & Ht' & Hs').
  destruct (cleanup s1') as [[c1 s1''] t1'], (cleanup s2') as [[c2 s2''] t2'].
  cbn [fst snd] in Hr', Ht', Hs'. subst c2 t2'.
  destruct c1; cbn [fst snd]; auto.
Qed.

Lemma agrees_call (body : M W unit) : agrees body -> agrees (call body).
Proof.
  intros Hm s1 s2 Hsim. unfold call.
  destruct (Hm s1 s2 Hsim) as (Hr & Ht & Hs).
  destruct (body s1) as [[r1 s1'] t1], (body s2) as [[r2 s2'] t2].
  cbn [fst snd] in Hr, Ht, Hs. subst r2 t2.
  destruct r1; cbn [fst snd]; auto.
Qed.

Lemma agrees_get_processing : agrees (@get_processing W).
Proof.
  intros s1 s2 [Hsess Htext]. unfold get_processing. rewrite Hsess.
  destruct (processing (session s2)) eqn:Hv; cbn; repeat split; cbn; congruence.
Qed.

Lemma agrees_set_processing (b : bool) : agrees (@set_processing W b).
Proof. intros s1 s2 [Hsess Htext]. cbn. repeat split; cbn; auto. Qed.

Lemma agrees_assign_resume_text (v : string) : agrees (@assign_resume_text W v).
Proof. intros s1 s2 [Hsess Htext]. cbn. repeat split; cbn; auto. Qed.

Lemma agrees_read_resume_text : agrees (@read_resume_text W).
Proof.
  intros s1 s2 [Hsess Htext]. unfold read_resume_text. rewrite Htext.
  destruct (resume_text s2) eqn:Hv; cbn; repeat split; cbn; congruence.
Qed.

Lemma agrees_init_session_state : agrees (@init_session_state W).
Proof.
  intros s1 s2 [Hsess Htext]. unfold init_session_state, set_processing, ret.
  rewrite Hsess.
  destruct (processing (session s2)) eqn:Hv; cbn; repeat split; cbn; congruence.
Qed.

(** The two places where the state of the service is read. *)
Lemma agrees_call_generate (prompt : string) : agrees (call_generate h prompt).
Proof.
  intros s1 s2 [Hsess Htext]. unfold call_generate.
  pose proof (proj1 stub prompt (world s1) (world s2)) as Hsame.
  destruct (get_gemini_response h prompt (world s1)) as [r1 w1],
           (get_gemini_response h prompt (world s2)) as [r2 w2].
  cbn [fst] in Hsame. subst r2.
  destruct r1; cbn; repeat split; cbn; auto.
Qed.

Lemma agrees_call_configure (api_key : string) : agrees (call_configure h api_key).
Proof.
  intros s1 s2 [Hsess Htext]. unfold call_configure.
  pose proof (proj2 stub api_key (world s1) (world s2)) as Hsame.
  destruct (configure_genai h api_key (world s1)) as [r1 w1],
           (configure_genai h api_key (world s2)) as [r2 w2].
  cbn [fst] in Hsame. subst r2.
  destruct r1; cbn; repeat split; cbn; auto.
Qed.

Create HintDb agrees discriminated.
#[local] Hint Resolve agrees_ret agrees_emit agrees_raise agrees_return agrees_eval
  agrees_bind agrees_try_except agrees_try_finally agrees_call
  agrees_get_processing agrees_set_processing agrees_assign_resume_text
  agrees_read_resume_text agrees_init_session_state
  agrees_call_generate agrees_call_configure : agrees.

Ltac agrees_script :=
  repeat first
    [ progress intros
    | apply agrees_bind
    | apply agrees_try_except
    | apply agrees_try_finally
    | apply agrees_call
    | solve [auto with agrees]
    | match goal with
      | |- agrees (if ?c then _ else _) => destruct c
      | |- agrees (match ?x with _ => _ end) => destruct x
      end ].

Lemma agrees_main (i : inputs) : agrees (main h rt i).
Proof.
  unfold main, configure_then_page, page, analyze_section, cover_section,
    analyze_action, analyze_body, show_analysis, cover_letter_action,
    cover_letter_body, call_extract, call_prepare, st_spinner, st_sidebar, with_,
    st_button, st_text_area, st_text_input, st_file_uploader, st_download_button,
    st_metric, st_error, st_warning, st_success, st_title, st_subheader, st_write.
  agrees_script.
Qed.

(** The log and the session a run ends in are the same whatever the
    state of the service. *)
Lemma run_ignores_world (i : inputs) (ss : session_state) (w1 w2 : W) :
  trace_of h rt i ss w1 = trace_of h rt i ss w2
  /\ session_after h rt i ss w1 = session_after h rt i ss w2.
Proof.
  unfold trace_of, session_after, run.
  destruct (agrees_main i
              {| session := ss; resume_text := None; world := w1 |}
              {| session := ss; resume_text := None; world := w2 |})
    as (_ & Ht & Hs & _); [split; reflexivity|].
  auto.
Qed.

End Determinism.

(** ** Running Analyze twice *)

Section Twice.

Context {W : Type}.
Variables (h : helper W) (rt : runtime).

Lemma analysis_result_skips_init (ss : session_state) (log : list event) :
  analysis_result (init_events ss ++ log) = analysis_result log.
Proof. unfold init_events. destruct (processing ss); reflexivity. Qed.

(** C9. With a deterministic stub, a run repeated in a session with the
    same inputs produces the same log as the first one (which, in a new
    session, is preceded by the initialisation of the flag); so an
    Analyze run shows the same match score, keywords line and summary
    both times. *)
Theorem analyze_twice_same_result (i : inputs) (ss : session_state) (w : W) :
  deterministic_stub h ->
  processing ss <> Some true ->
  let ss' := session_after h rt i ss w in
  let w' := world_after h rt i ss w in
  trace_of h rt i ss w = (init_events ss ++ trace_of h rt i ss' w')%list
  /\ analysis_result (trace_of h rt i ss w) = analysis_result (trace_of h rt i ss' w').
Proof.
  intros Hstub Hidle ss' w'.
  assert (Hbusy : busy ss = false).
  { unfold busy. destruct (processing ss) as [[|]|]; congruence. }
  assert (Hlog : trace_of h rt i ss w
                 = (init_events ss ++ trace_of h rt i ss' w')%list).
  { unfold ss'. rewrite (run_leaves_flag_released h rt i ss w Hbusy).
    rewrite (proj1 (run_ignores_world h rt Hstub i _ w' w)).
    unfold trace_of. rewrite (run_initialised h rt i ss w), Hbusy.
    destruct (run h rt i _ w) as [[r s] t]. reflexivity. }
  split; [exact Hlog|].
  rewrite Hlog. apply analysis_result_skips_init.
Qed.

End Twice.

(** ** The theorems at work on the test doubles *)

Ltac found := cbv; repeat first [left; reflexivity | right].

Lemma stub_is_deterministic (configure : string -> unit + exn)
    (extract : UploadedFile -> string + exn) (model : string -> string + exn) :
  deterministic_stub (Stub.service configure extract model).
Proof. split; intros; reflexivity. Qed.

(** An Analyze run against a model that answers with fenced JSON. *)
Lemma fenced_run_gets_reply :
  analysis_gets (Stub.answering Stub.fences_analysis) (Stub.filled true false) 0
    Stub.resume_pdf "Backend engineer, five years of Python"
    Stub.analysis_prompt Stub.fenced_reply 1.
Proof. repeat split; try reflexivity. discriminate. Qed.

(** An Analyze run against a model that answers with the full object. *)
Lemma full_run_gets_reply :
  analysis_gets (Stub.answering (Stub.says Stub.full_reply)) (Stub.filled true false) 0
    Stub.resume_pdf "Backend engineer, five years of Python"
    Stub.analysis_prompt Stub.full_reply 1.
Proof. repeat split; try reflexivity. discriminate. Qed.

(** An Analyze run against a model that answers with the empty object. *)
Lemma empty_run_gets_reply :
  analysis_gets (Stub.answering (Stub.says Stub.empty_reply)) (Stub.filled true false) 0
    Stub.resume_pdf "Backend engineer, five years of Python"
    Stub.analysis_prompt Stub.empty_reply 1.
Proof. repeat split; try reflexivity. discriminate. Qed.

Lemma parse_error_is_shown_witness :
  analysis_gets (Stub.answering Stub.fences_analysis) (Stub.filled true false) 0
    Stub.resume_pdf "Backend engineer, five years of Python"
    Stub.analysis_prompt Stub.fenced_reply 1
  /\ json_loads Stub.rt Stub.fenced_reply
      = inr (Failure "JSONDecodeError" "Expecting value: line 1 column 1 (char 0)")
  /\ Stub.first_run Stub.fences_analysis (Stub.filled true false)
     = ((log_until_reply (Stub.filled true false) new_session Stub.resume_pdf
           "Backend engineer, five years of Python" Stub.analysis_prompt ++
         [ SpinnerExit;
           Error "An error occurred: Expecting value: line 1 column 1 (char 0)";
           SetProcessing false ]) ++
        [ Button "Generate Cover Letter" false ])%list.
Proof.
  split; [exact fenced_run_gets_reply|]. split; [reflexivity|].
  exact (proj1 (parse_error_is_shown (Stub.answering Stub.fences_analysis) Stub.rt
                  (Stub.filled true false) new_session 0 1 Stub.resume_pdf
                  "Backend engineer, five years of Python" Stub.analysis_prompt
                  Stub.fenced_reply
                  (Failure "JSONDecodeError" "Expecting value: line 1 column 1 (char 0)")
                  fenced_run_gets_reply eq_refl)).
Defined.

Lemma analysis_is_rendered_witness :
  (* the three keys *)
  (analysis_gets (Stub.answering (Stub.says Stub.full_reply)) (Stub.filled true false) 0
     Stub.resume_pdf "Backend engineer, five years of Python"
     Stub.analysis_prompt Stub.full_reply 1
   /\ json_loads Stub.rt Stub.full_reply = inl Stub.full_value
   /\ metric_accepts (PyStr "80%") = true
   /\ Stub.first_run (Stub.says Stub.full_reply) (Stub.filled true false)
      = (log_until_reply (Stub.filled true false) new_session Stub.resume_pdf
           "Backend engineer, five years of Python" Stub.analysis_prompt ++
         [ Success "✨ Analysis Complete!";
           Metric "Match Score" (PyStr "80%");
           Subheader "Missing Keywords";
           Write (PyStr "Kubernetes, Go");
           Subheader "Profile Summary";
           Write (PyStr "Strong backend candidate");
           SpinnerExit;
           SetProcessing false ] ++
         [ Button "Generate Cover Letter" false ])%list)
  /\
  (* none of them *)
  (analysis_gets (Stub.answering (Stub.says Stub.empty_reply)) (Stub.filled true false) 0
     Stub.resume_pdf "Backend engineer, five years of Python"
     Stub.analysis_prompt Stub.empty_reply 1
   /\ json_loads Stub.rt Stub.empty_reply = inl (PyDict [])
   /\ Stub.first_run (Stub.says Stub.empty_reply) (Stub.filled true false)
      = (log_until_reply (Stub.filled true false) new_session Stub.resume_pdf
           "Backend engineer, five years of Python" Stub.analysis_prompt ++
         [ Success "✨ Analysis Complete!";
           Metric "Match Score" (PyStr "N/A");
           Subheader "Missing Keywords";
           Write (PyStr "No critical missing keywords found!");
           Subheader "Profile Summary";
           Write (PyStr "No summary available");
           SpinnerExit;
           SetProcessing false ] ++
         [ Button "Generate Cover Letter" false ])%list).
Proof.
  split.
  - split; [exact full_run_gets_reply|]. split; [reflexivity|]. split; [reflexivity|].
    exact (analysis_is_rendered (Stub.answering (Stub.says Stub.full_reply)) Stub.rt
             (Stub.filled true false) new_session 0 1 Stub.resume_pdf
             "Backend engineer, five years of Python" Stub.analysis_prompt
             Stub.full_reply
             [ ("JD Match", PyStr "80%");
               ("MissingKeywords", PyList [PyStr "Kubernetes"; PyStr "Go"]);
               ("Profile Summary", PyStr "Strong backend candidate") ]
             ["Kubernetes"; "Go"]
             full_run_gets_reply eq_refl eq_refl eq_refl).
  - split; [exact empty_run_gets_reply|]. split; [reflexivity|].
    exact (analysis_is_rendered (Stub.answering (Stub.says Stub.empty_reply)) Stub.rt
             (Stub.filled true false) new_session 0 1 Stub.resume_pdf
             "Backend engineer, five years of Python" Stub.analysis_prompt
             Stub.empty_reply [] []
             empty_run_gets_reply eq_refl eq_refl eq_refl).
Defined.

Lemma startup_failure_halts_witness :
  (* no key in the environment *)
  (startup_fails (Stub.answering (Stub.says Stub.full_reply)) Stub.rt Stub.keyless 0
     missing_key_message
   /\ Stub.first_run (Stub.says Stub.full_reply) Stub.keyless
      = [ SetProcessing false;
          Error "Please set the GOOGLE_API_KEY in your .env file" ])
  /\
  (* a key the service rejects *)
  (startup_fails (Stub.service Stub.reject_key Stub.readable (Stub.says Stub.full_reply))
     Stub.rt (Stub.filled true false) 0 "Failed to configure API: API key not valid"
   /\ trace_of (Stub.service Stub.reject_key Stub.readable (Stub.says Stub.full_reply))
        Stub.rt (Stub.filled true false) new_session 0
      = [ SetProcessing false;
          CallConfigure "secret";
          Error "Failed to configure API: API key not valid" ]).
Proof.
  assert (Hkey : startup_fails (Stub.answering (Stub.says Stub.full_reply)) Stub.rt
                   Stub.keyless 0 missing_key_message).
  { apply key_missing. left. reflexivity. }
  assert (Hcfg : startup_fails
                   (Stub.service Stub.reject_key Stub.readable (Stub.says Stub.full_reply))
                   Stub.rt (Stub.filled true false) 0
                   "Failed to configure API: API key not valid").
  { apply (configuration_fails _ Stub.rt (Stub.filled true false) 0 "secret"
             (Failure "ValueError" "API key not valid")).
    - reflexivity.
    - discriminate.
    - reflexivity. }
  split; (split; [assumption|]).
  - exact (proj1 (startup_failure_halts (Stub.answering (Stub.says Stub.full_reply))
                    Stub.rt Stub.keyless new_session 0 missing_key_message Hkey)).
  - exact (proj1 (startup_failure_halts
                    (Stub.service Stub.reject_key Stub.readable (Stub.says Stub.full_reply))
                    Stub.rt (Stub.filled true false) new_session 0
                    "Failed to configure API: API key not valid" Hcfg)).
Defined.

Lemma analyze_validation_aborts_witness :
  starts (Stub.answering (Stub.says Stub.full_reply)) (Stub.blank true false) 0 = true
  /\ analyze_clicked (Stub.blank true false) = true
  /\ (jd (Stub.blank true false) = "" \/ uploaded_file (Stub.blank true false) = None)
  /\ Stub.first_run (Stub.says Stub.full_reply) (Stub.blank true false)
     = ([ SetProcessing false; CallConfigure "secret" ] ++ page_form ++
        [ Button "Analyze Resume" false;
          Warning "Please provide a job description." ])%list
  /\ world_after (Stub.answering (Stub.says Stub.full_reply)) Stub.rt
       (Stub.blank true false) new_session 0 = 0.
Proof.
  split; [reflexivity|]. split; [reflexivity|]. split; [left; reflexivity|].
  destruct (analyze_validation_aborts (Stub.answering (Stub.says Stub.full_reply))
              Stub.rt (Stub.blank true false) new_session 0
              eq_refl eq_refl (or_introl eq_refl))
    as (Hlog & _ & _ & _ & Hworld).
  split; [exact Hlog|exact Hworld].
Defined.

Lemma cover_validation_aborts_witness :
  starts (Stub.answering (Stub.says Stub.full_reply)) (Stub.blank false true) 0 = true
  /\ cover_clicked (Stub.blank false true) = true
  /\ (company_name (Stub.blank false true) = "" \/ job_title (Stub.blank false true) = "")
  /\ Stub.first_run (Stub.says Stub.full_reply) (Stub.blank false true)
     = ([ SetProcessing false; CallConfigure "secret" ] ++ page_form ++
        [ Button "Analyze Resume" false;
          Button "Generate Cover Letter" false;
          Warning "Please provide company name and job title for the cover letter." ])%list
  /\ world_after (Stub.answering (Stub.says Stub.full_reply)) Stub.rt
       (Stub.blank false true) new_session 0 = 0.
Proof.
  split; [reflexivity|]. split; [reflexivity|].
  split; [left; reflexivity|].
  destruct (cover_validation_aborts (Stub.answering (Stub.says Stub.full_reply))
              Stub.rt (Stub.blank false true) new_session 0
              eq_refl eq_refl (or_introl eq_refl))
    as (Hlog & _ & _ & Hworld & _).
  split; [exact Hlog|exact Hworld].
Defined.

Lemma cover_letter_needs_resume_text_witness :
  starts (Stub.answering (Stub.says "Dear Hiring Manager")) (Stub.filled false true) 0 = true
  /\ cover_clicked (Stub.filled false true) = true
  /\ company_name (Stub.filled false true) <> ""
  /\ job_title (Stub.filled false true) <> ""
  /\ analyze_clicked (Stub.filled false true) = false
  /\ Stub.first_run (Stub.says "Dear Hiring Manager") (Stub.filled false true)
     = ([ SetProcessing false; CallConfigure "secret" ] ++ page_form ++
        [ Button "Analyze Resume" false;
          Button "Generate Cover Letter" false;
          SetProcessing true;
          SpinnerEnter "📝 Generating cover letter...";
          SpinnerExit;
          Error "An error occurred: cannot access local variable 'resume_text' where it is not associated with a value";
          SetProcessing false ])%list
  /\ world_after (Stub.answering (Stub.says "Dear Hiring Manager")) Stub.rt
       (Stub.filled false true) new_session 0 = 0.
Proof.
  split; [reflexivity|]. split; [reflexivity|].
  split; [discriminate|]. split; [discriminate|]. split; [reflexivity|].
  destruct (cover_letter_needs_resume_text
              (Stub.answering (Stub.says "Dear Hiring Manager")) Stub.rt
              (Stub.filled false true) new_session 0 eq_refl eq_refl)
    as (Hlog & _ & Hworld); [discriminate | discriminate | left; reflexivity |].
  split; [exact Hlog|exact Hworld].
Defined.

Lemma analyze_twice_same_result_witness :
  deterministic_stub (Stub.answering (Stub.says Stub.full_reply))
  /\ processing new_session <> Some true
  /\ analysis_result (Stub.first_run (Stub.says Stub.full_reply) (Stub.filled true false))
     = Some (PyStr "80%", PyStr "Kubernetes, Go", PyStr "Strong backend candidate")
  /\ analysis_result
       (trace_of (Stub.answering (Stub.says Stub.full_reply)) Stub.rt
          (Stub.filled true false) {| processing := Some false |} 1)
     = analysis_result (Stub.first_run (Stub.says Stub.full_reply) (Stub.filled true false)).
Proof.
  split; [apply stub_is_deterministic|]. split; [discriminate|].
  split; [reflexivity|]. symmetry.
  exact (proj2 (analyze_twice_same_result (Stub.answering (Stub.says Stub.full_reply))
                  Stub.rt (Stub.filled true false) new_session 0
                  (stub_is_deterministic _ _ _)
                  (fun H : processing new_session = Some true =>
                     match H in _ = v return
                       match v with Some _ => False | None => True end
                     with eq_refl => I end))).
Defined.

(** An Analyze run against a model whose list of keywords is empty. *)
Lemma no_keywords_run_gets_reply :
  analysis_gets (Stub.answering (Stub.says Stub.no_keywords_reply))
    (Stub.filled true false) 0
    Stub.resume_pdf "Backend engineer, five years of Python"
    Stub.analysis_prompt Stub.no_keywords_reply 1.
Proof. repeat split; try reflexivity. discriminate. Qed.

Lemma empty_keywords_sentence_witness :
  analysis_gets (Stub.answering (Stub.says Stub.no_keywords_reply))
    (Stub.filled true false) 0
    Stub.resume_pdf "Backend engineer, five years of Python"
    Stub.analysis_prompt Stub.no_keywords_reply 1
  /\ json_loads Stub.rt Stub.no_keywords_reply = inl Stub.no_keywords_value
  /\ dict_lookup "MissingKeywords"
       [ ("JD Match", PyStr "95%");
         ("MissingKeywords", PyList []);
         ("Profile Summary", PyStr "Excellent fit") ] = Some (PyList [])
  /\ Stub.first_run (Stub.says Stub.no_keywords_reply) (Stub.filled true false)
  = (log_until_reply (Stub.filled true false) new_session Stub.resume_pdf
       "Backend engineer, five years of Python" Stub.analysis_prompt ++
     [ Success "✨ Analysis Complete!";
       Metric "Match Score" (PyStr "95%");
       Subheader "Missing Keywords";
       Write (PyStr "No critical missing keywords found!");
       Subheader "Profile Summary";
       Write (PyStr "Excellent fit");
       SpinnerExit;
       SetProcessing false;
       Button "Generate Cover Letter" false ])%list.
Proof.
  split; [exact no_keywords_run_gets_reply|].
  split; [reflexivity|]. split; [reflexivity|].
  exact (empty_keywords_sentence (Stub.answering (Stub.says Stub.no_keywords_reply))
           Stub.rt (Stub.filled true false) new_session 0 1 Stub.resume_pdf
           "Backend engineer, five years of Python" Stub.analysis_prompt
           Stub.no_keywords_reply
           [ ("JD Match", PyStr "95%");
             ("MissingKeywords", PyList []);
             ("Profile Summary", PyStr "Excellent fit") ]
           no_keywords_run_gets_reply eq_refl (or_intror eq_refl)).
Defined.

Lemma triggers_stay_enabled_witness :
  In (SetProcessing true) (Stub.first_run (Stub.says Stub.full_reply) (Stub.filled true false))
  /\ locked_throughout (screen_at_start new_session)
       (Stub.first_run (Stub.says Stub.full_reply) (Stub.filled true false)) = false.
Proof.
  split; [found|].
  apply (proj2 (triggers_stay_enabled (Stub.answering (Stub.says Stub.full_reply))
                  Stub.rt [] (Stub.filled true false) 0)).
  found.
Defined.

(** *** Where two sentences of the description do not hold *)

(** C3 as stated: the keywords line is the join of the keywords.  The
    model returns an object whose list of keywords is empty: the line is
    the fixed sentence, and the join (the empty string) is not written. *)
Lemma empty_keyword_list_not_joined :
  json_loads Stub.rt Stub.no_keywords_reply
    = inl (PyDict [ ("JD Match", PyStr "95%");
                    ("MissingKeywords", PyList []);
                    ("Profile Summary", PyStr "Excellent fit") ])
  /\ In (Write (PyStr "No critical missing keywords found!"))
        (Stub.first_run (Stub.says Stub.no_keywords_reply) (Stub.filled true false))
  /\ ~ In (Write (PyStr (String.concat ", " [])))
        (Stub.first_run (Stub.says Stub.no_keywords_reply) (Stub.filled true false)).
Proof.
  split; [reflexivity|]. split; [found|].
  cbv. intuition discriminate.
Qed.

(** C8 as stated: without a successful Analyze run before it in the same
    execution, the cover-letter handler fails on the unbound variable.
    Both buttons are clicked; the analysis fails at the decoder (the
    reply is fenced), after the PDF was read; the cover letter is then
    requested with the extracted text, and shown. *)
Lemma cover_letter_after_failed_analysis :
  cover_clicked (Stub.filled true true) = true
  /\ cover_valid (Stub.filled true true) = true
  /\ In (Error "An error occurred: Expecting value: line 1 column 1 (char 0)")
        (Stub.first_run Stub.fences_analysis (Stub.filled true true))
  /\ Forall (fun ev => is_analysis_result ev = false)
        (Stub.first_run Stub.fences_analysis (Stub.filled true true))
  /\ In (CallGenerate
           (cover_letter_prompt "Engineer" "ACME" ""
              "Backend engineer, five years of Python" "Python developer"))
        (Stub.first_run Stub.fences_analysis (Stub.filled true true))
  /\ In (Write (PyStr "Dear Hiring Manager"))
        (Stub.first_run Stub.fences_analysis (Stub.filled true true))
  /\ ~ In (Error ("An error occurred: "
                  ++ exn_str Stub.rt (UnboundLocalError "resume_text")))
        (Stub.first_run Stub.fences_analysis (Stub.filled true true)).
Proof.
  split; [reflexivity|]. split; [reflexivity|]. split; [found|].
  split; [cbv; repeat constructor|]. split; [found|]. split; [found|].
  cbv. intuition discriminate.
Qed.

(** ** The error paths of the Analyze handler *)

Section AnalyzeErrors.

Context {W : Type}.
Variables (h : helper W) (rt : runtime).

Lemma analyze_action_prepare_fails (file : UploadedFile) (jd text : string)
    (e : exn) (s : state W) :
  extract_pdf_text h file = inl text ->
  prepare_prompt h text jd = inr e ->
  analyze_action h rt file jd s =
    (Normal tt,
     {| session := {| processing := Some false |};
        resume_text := Some text; world := world s |},
     [ SetProcessing true; SpinnerEnter "📊 Analyzing your resume...";
       CallExtract file; CallPrepare text jd; SpinnerExit;
       Error ("An error occurred: " ++ exn_str rt e);
       SetProcessing false ]).
Proof. intros Hx Hp. exec. reflexivity. Qed.

Lemma analyze_action_generate_fails (file : UploadedFile) (jd text prompt : string)
    (e : exn) (s : state W) (w' : W) :
  extract_pdf_text h file = inl text ->
  prepare_prompt h text jd = inl prompt ->
  get_gemini_response h prompt (world s) = (inr e, w') ->
  analyze_action h rt file jd s =
    (Normal tt,
     {| session := {| processing := Some false |};
        resume_text := Some text; world := w' |},
     [ SetProcessing true; SpinnerEnter "📊 Analyzing your resume...";
       CallExtract file; CallPrepare text jd; CallGenerate prompt; SpinnerExit;
       Error ("An error occurred: " ++ exn_str rt e);
       SetProcessing false ]).
Proof. intros Hx Hp Hg. exec. reflexivity. Qed.

(** A run whose Analyze handler runs: the log of the handler sits
    between the first button and what the second section adds. *)
Lemma trace_analyze_action (i : inputs) (ss : session_state) (w : W)
    (file : UploadedFile) (text : option string) (w1 : W) (t : list event) :
  starts h i w = true ->
  analyze_clicked i = true ->
  jd i <> "" ->
  uploaded_file i = Some file ->
  analyze_action h rt file (jd i)
    {| session := {| processing := Some (busy ss) |};
       resume_text := None; world := world_started h i w |}
  = (Normal tt,
     {| session := {| processing := Some false |};
        resume_text := text; world := w1 |}, t) ->
  trace_of h rt i ss w =
    (init_events ss ++ startup_calls i ++ page_form ++
     Button "Analyze Resume" (busy ss) :: t ++ cover_log h rt i text w1)%list.
Proof.
  intros Hs Hclick Hjd Hfile Hact.
  unfold trace_of. rewrite (run_sections h rt i ss w Hs).
  rewrite (analyze_section_cases h rt i (jd i) (uploaded_file i)
             {| session := {| processing := Some (busy ss) |};
                resume_text := None; world := world_started h i w |}
             (busy ss) eq_refl).
  apply String.eqb_neq in Hjd. rewrite Hclick, Hjd, Hfile, Hact.
  unfold cover_log.
  destruct (cover_section h rt i _ _ _ _ _) as [[r2 s2] t2].
  reflexivity.
Qed.

(** X1. When the PDF extractor raises, the Analyze handler stops there:
    no prompt is built and no request goes to the model; the error is
    shown after the spinner, the flag is released, and the second
    section starts with [resume_text] unbound and the service as the
    startup left it. *)
Theorem extraction_failure_stops_analysis (i : inputs) (ss : session_state) (w : W)
    (file : UploadedFile) (e : exn) :
  starts h i w = true ->
  analyze_clicked i = true ->
  jd i <> "" ->
  uploaded_file i = Some file ->
  extract_pdf_text h file = inr e ->
  trace_of h rt i ss w =
    (init_events ss ++ startup_calls i ++ page_form ++
     [ Button "Analyze Resume" (busy ss);
       SetProcessing true;
       SpinnerEnter "📊 Analyzing your resume...";
       CallExtract file;
       SpinnerExit;
       Error ("An error occurred: " ++ exn_str rt e);
       SetProcessing false ] ++
     cover_log h rt i None (world_started h i w))%list.
Proof.
  intros Hs Hclick Hjd Hfile Hx.
  rewrite (trace_analyze_action i ss w file None (world_started h i w) _
             Hs Hclick Hjd Hfile
             (analyze_action_extract_fails h rt file (jd i) e
                {| session := {| processing := Some (busy ss) |};
                resume_text := None; world := world_started h i w |} Hx)).
  reflexivity.
Qed.

(** X2. When the prompt builder raises, no request goes to the model;
    the error is shown and the flag released.  The text extracted
    before stays bound for the rest of the run. *)
Theorem prompt_failure_stops_analysis (i : inputs) (ss : session_state) (w : W)
    (file : UploadedFile) (text : string) (e : exn) :
  starts h i w = true ->
  analyze_clicked i = true ->
  jd i <> "" ->
  uploaded_file i = Some file ->
  extract_pdf_text h file = inl text ->
  prepare_prompt h text (jd i) = inr e ->
  trace_of h rt i ss w =
    (init_events ss ++ startup_calls i ++ page_form ++
     [ Button "Analyze Resume" (busy ss);
       SetProcessing true;
       SpinnerEnter "📊 Analyzing your resume...";
       CallExtract file;
       CallPrepare text (jd i);
       SpinnerExit;
       Error ("An error occurred: " ++ exn_str rt e);
       SetProcessing false ] ++
     cover_log h rt i (Some text) (world_started h i w))%list.
Proof.
  intros Hs Hclick Hjd Hfile Hx Hp.
  rewrite (trace_analyze_action i ss w file (Some text) (world_started h i w) _
             Hs Hclick Hjd Hfile
             (analyze_action_prepare_fails file (jd i) text e
                {| session := {| processing := Some (busy ss) |};
                resume_text := None; world := world_started h i w |} Hx Hp)).
  reflexivity.
Qed.

(** X3. When the request to the model raises, the decoder is not
    consulted and nothing of a result is rendered: after the request
    the log goes on with the end of the spinner, the error and the
    release of the flag. *)
Theorem model_failure_stops_analysis (i : inputs) (ss : session_state) (w w' : W)
    (file : UploadedFile) (text prompt : string) (e : exn) :
  starts h i w = true ->
  analyze_clicked i = true ->
  jd i <> "" ->
  uploaded_file i = Some file ->
  extract_pdf_text h file = inl text ->
  prepare_prompt h text (jd i) = inl prompt ->
  get_gemini_response h prompt (world_started h i w) = (inr e, w') ->
  trace_of h rt i ss w =
    (log_until_reply i ss file text prompt ++
     [ SpinnerExit;
       Error ("An error occurred: " ++ exn_str rt e);
       SetProcessing false ] ++
     cover_log h rt i (Some text) w')%list.
Proof.
  intros Hs Hclick Hjd Hfile Hx Hp Hg.
  rewrite (trace_analyze_action i ss w file (Some text) w' _ Hs Hclick Hjd Hfile
             (analyze_action_generate_fails file (jd i) text prompt e
                {| session := {| processing := Some (busy ss) |};
                resume_text := None; world := world_started h i w |} w' Hx Hp Hg)).
  unfold log_until_reply. rewrite <- !app_assoc. reflexivity.
Qed.

(** The reply decodes, but not to an object. *)
Lemma show_analysis_not_object (response : string) (v : pyval) (s : state W) :
  json_loads rt response = inl v ->
  (forall items, v <> PyDict items) ->
  show_analysis rt response s =
    (Raised (AttributeError (type_name v) "get"), s,
     [Success "✨ Analysis Complete!"]).
Proof.
  intros Hd Hv. unfold show_analysis, bind, eval. rewrite Hd.
  destruct v; try reflexivity.
  exfalso. exact (Hv _ eq_refl).
Qed.

(** X4. When the reply decodes to a JSON value that is not an object (a
    list, a string, a number, true, false, null), the success message
    is already on the page when the first [.get] raises: the log shows
    the success message, then the error for the missing method, and no
    metric, keywords or summary. *)
Theorem non_object_reply_fails_after_success (i : inputs) (ss : session_state)
    (w w' : W) (file : UploadedFile) (text prompt response : string) (v : pyval) :
  analysis_gets h i w file text prompt response w' ->
  json_loads rt response = inl v ->
  (forall items, v <> PyDict items) ->
  trace_of h rt i ss w =
    (log_until_reply i ss file text prompt ++
     [ Success "✨ Analysis Complete!";
       SpinnerExit;
       Error ("An error occurred: " ++ exn_str rt (AttributeError (type_name v) "get"));
       SetProcessing false ] ++
     cover_log h rt i (Some text) w')%list.
Proof.
  intros Hgets Hd Hv.
  rewrite (trace_analysis_reply h rt i ss w w' file text prompt response Hgets).
  rewrite (show_analysis_not_object response v _ Hd Hv). reflexivity.
Qed.

(** The first item of a join that is not a string is the one reported. *)
Lemma all_str_first_offender (strings : list string) (x : pyval)
    (rest : list pyval) (index : nat) :
  (forall s, x <> PyStr s) ->
  all_str index (map PyStr strings ++ x :: rest)
  = inr (JoinItemNotStr (index + length strings) (type_name x)).
Proof.
  intros Hx. revert index.
  induction strings as [|k ks IH]; intros index; cbn.
  - rewrite Nat.add_0_r. destruct x; try reflexivity.
    exfalso. exact (Hx _ eq_refl).
  - rewrite IH. f_equal. f_equal. lia.
Qed.

(** X5. When the keywords are a list that holds an item which is not a
    string, the join raises on the first such item: the match score and
    the keywords heading are already on the page, no keywords line and
    no summary follow, and the error names the position of the item. *)
Theorem non_string_keyword_fails_the_join (i : inputs) (ss : session_state)
    (w w' : W) (file : UploadedFile) (text prompt response : string)
    (items : list (string * pyval)) (strings : list string) (x : pyval)
    (rest : list pyval) :
  analysis_gets h i w file text prompt response w' ->
  json_loads rt response = inl (PyDict items) ->
  metric_accepts (value_or (PyStr "N/A") (dict_lookup "JD Match" items)) = true ->
  dict_lookup "MissingKeywords" items = Some (PyList (map PyStr strings ++ x :: rest)) ->
  (forall s, x <> PyStr s) ->
  trace_of h rt i ss w =
    (log_until_reply i ss file text prompt ++
     [ Success "✨ Analysis Complete!";
       Metric "Match Score" (value_or (PyStr "N/A") (dict_lookup "JD Match" items));
       Subheader "Missing Keywords";
       SpinnerExit;
       Error ("An error occurred: "
              ++ exn_str rt (JoinItemNotStr (length strings) (type_name x)));
       SetProcessing false ] ++
     cover_log h rt i (Some text) w')%list.
Proof.
  intros Hgets Hd Hm Hk Hx.
  rewrite (trace_analysis_reply h rt i ss w w' file text prompt response Hgets).
  rewrite (show_analysis_object rt response items _ Hd). rewrite Hm, Hk.
  cbn [value_or].
  assert (Htruthy : truthy (PyList (map PyStr strings ++ x :: rest)) = true).
  { destruct strings; reflexivity. }
  rewrite Htruthy. unfold str_join, iterate.
  rewrite (all_str_first_offender strings x rest 0 Hx). reflexivity.
Qed.

(** X6. The keywords line is decided by the truth value of the decoded
    keywords, not by their type: for null, false, 0, an empty string, an
    empty list or an empty object the fixed sentence is written, and
    nothing is joined. *)
Theorem falsy_keywords_sentence (i : inputs) (ss : session_state)
    (w w' : W) (file : UploadedFile) (text prompt response : string)
    (items : list (string * pyval)) (keywords : pyval) :
  analysis_gets h i w file text prompt response w' ->
  json_loads rt response = inl (PyDict items) ->
  metric_accepts (value_or (PyStr "N/A") (dict_lookup "JD Match" items)) = true ->
  dict_lookup "MissingKeywords" items = Some keywords ->
  truthy keywords = false ->
  trace_of h rt i ss w =
    (log_until_reply i ss file text prompt ++
     [ Success "✨ Analysis Complete!";
       Metric "Match Score" (value_or (PyStr "N/A") (dict_lookup "JD Match" items));
       Subheader "Missing Keywords";
       Write (PyStr "No critical missing keywords found!");
       Subheader "Profile Summary";
       Write (value_or (PyStr "No summary available")
                (dict_lookup "Profile Summary" items));
       SpinnerExit;
       SetProcessing false ] ++
     cover_log h rt i (Some text) w')%list.
Proof.
  intros Hgets Hd Hm Hk Hfalsy.
  rewrite (trace_analysis_reply h rt i ss w w' file text prompt response Hgets).
  rewrite (show_analysis_object rt response items _ Hd). rewrite Hm, Hk.
  cbn [value_or]. rewrite Hfalsy. reflexivity.
Qed.

(** The code points of an ASCII string are its characters. *)
Lemma code_points_ascii (s : string) :
  ascii_only s = true -> code_points s = characters s.
Proof.
  unfold ascii_only, characters.
  induction s as [|c rest IH]; intros Hs; [reflexivity|].
  cbn [list_ascii_of_string forallb map] in *.
  apply andb_true_iff in Hs. destruct Hs as [_ Hrest].
  cbn [code_points]. rewrite (IH Hrest).
  destruct rest as [|c' rest']; [reflexivity|].
  cbn [list_ascii_of_string forallb] in Hrest.
  apply andb_true_iff in Hrest. destruct Hrest as [Hc' _].
  unfold is_continuation.
  apply Nat.ltb_lt in Hc'.
  replace (128 <=? nat_of_ascii c')%nat with false
    by (symmetry; apply Nat.leb_gt; exact Hc').
  reflexivity.
Qed.

(** X7. When the keywords are one string instead of a list of strings,
    the join runs over its characters: for a non-empty ASCII string the
    keywords line is its characters separated by ", ". *)
Theorem string_keywords_joined_by_character (i : inputs) (ss : session_state)
    (w w' : W) (file : UploadedFile) (text prompt response : string)
    (items : list (string * pyval)) (keywords : string) :
  analysis_gets h i w file text prompt response w' ->
  json_loads rt response = inl (PyDict items) ->
  metric_accepts (value_or (PyStr "N/A") (dict_lookup "JD Match" items)) = true ->
  dict_lookup "MissingKeywords" items = Some (PyStr keywords) ->
  keywords <> "" ->
  ascii_only keywords = true ->
  trace_of h rt i ss w =
    (log_until_reply i ss file text prompt ++
     [ Success "✨ Analysis Complete!";
       Metric "Match Score" (value_or (PyStr "N/A") (dict_lookup "JD Match" items));
       Subheader "Missing Keywords";
       Write (PyStr (String.concat ", " (characters keywords)));
       Subheader "Profile Summary";
       Write (value_or (PyStr "No summary available")
                (dict_lookup "Profile Summary" items));
       SpinnerExit;
       SetProcessing false ] ++
     cover_log h rt i (Some text) w')%list.
Proof.
  intros Hgets Hd Hm Hk Hne Hascii.
  rewrite (trace_analysis_reply h rt i ss w w' file text prompt response Hgets).
  rewrite (show_analysis_object rt response items _ Hd). rewrite Hm, Hk.
  cbn [value_or truthy]. apply String.eqb_neq in Hne. rewrite Hne. cbn [negb].
  unfold str_join, iterate. rewrite all_str_strings, (code_points_ascii _ Hascii).
  reflexivity.
Qed.

End AnalyzeErrors.

(** ** The cover-letter handler with the resume text at hand *)

Section CoverLetterRuns.

Context {W : Type}.
Variables (h : helper W) (rt : runtime).

(** The handler when [resume_text] is bound: one request, then the
    letter or the error. *)
Lemma cover_letter_action_bound
    (job_title company_name personal_message jd text : string) (s : state W) :
  resume_text s = Some text ->
  let prompt := cover_letter_prompt job_title company_name personal_message text jd in
  cover_letter_action h rt job_title company_name personal_message jd s =
    match get_gemini_response h prompt (world s) with
    | (inl letter, w') =>
        (Normal tt,
         {| session := {| processing := Some false |};
            resume_text := Some text; world := w' |},
         [ SetProcessing true; SpinnerEnter "📝 Generating cover letter...";
           CallGenerate prompt;
           Subheader "Generated Cover Letter";
           Write (PyStr letter);
           DownloadButton "Download Cover Letter" letter "cover_letter.txt" "text/plain";
           SpinnerExit; SetProcessing false ])
    | (inr e, w') =>
        (Normal tt,
         {| session := {| processing := Some false |};
            resume_text := Some text; world := w' |},
         [ SetProcessing true; SpinnerEnter "📝 Generating cover letter...";
           CallGenerate prompt;
           SpinnerExit;
           Error ("An error occurred: " ++ exn_str rt e);
           SetProcessing false ])
    end.
Proof. intros Hb prompt. subst prompt. exec; reflexivity. Qed.

(** The Analyze handler binds [resume_text] as soon as the extractor
    has returned, whatever happens after. *)
Lemma analyze_action_binds (file : UploadedFile) (jd text : string) (s : state W) :
  extract_pdf_text h file = inl text ->
  fst (fst (analyze_action h rt file jd s)) = Normal tt /\
  processing (session (snd (fst (analyze_action h rt file jd s)))) = Some false /\
  resume_text (snd (fst (analyze_action h rt file jd s))) = Some text.
Proof. intros Hx. exec; repeat split; reflexivity. Qed.

(** A validated cover-letter click runs the handler in the state the
    run without the click ends in, and adds the handler's log. *)
Lemma cover_click_runs_handler (i : inputs) (ss : session_state) (w : W) :
  starts h i w = true ->
  reaches_cover i = true ->
  cover_clicked i = true ->
  company_name i <> "" ->
  job_title i <> "" ->
  let quiet := with_cover_clicked i false in
  let out :=
    cover_letter_action h rt (job_title i) (company_name i) (personal_message i)
      (jd i) (state_after h rt quiet ss w) in
  run h rt i ss w =
    (Normal tt, snd (fst out), (trace_of h rt quiet ss w ++ snd out)%list).
Proof.
  intros Hs Hreach Hclick Hcompany Htitle quiet out. subst out quiet.
  set (quiet := with_cover_clicked i false).
  apply String.eqb_neq in Hcompany, Htitle.
  set (s0 := {| session := {| processing := Some (busy ss) |};
                resume_text := None; world := world_started h i w |}).
  destruct (analyze_section_passes h rt i s0 (busy ss) Hreach eq_refl)
    as (s1 & t1 & b1 & Hsec & Hb1 & _).
  assert (Hquiet : run h rt quiet ss w =
    (Normal tt, s1,
     (init_events ss ++ startup_calls i ++ page_form ++ t1 ++
      [ Button "Generate Cover Letter" b1 ])%list)).
  { rewrite (run_sections h rt quiet ss w Hs).
    change (world_started h quiet w) with (world_started h i w). fold s0.
    change (jd quiet) with (jd i).
    change (uploaded_file quiet) with (uploaded_file i).
    unfold quiet at 1. rewrite analyze_section_ignores_cover, Hsec.
    rewrite (cover_section_cases h rt quiet _ _ _ _ s1 b1 Hb1).
    reflexivity. }
  unfold state_after, trace_of. rewrite Hquiet. cbn [fst snd].
  rewrite (run_sections h rt i ss w Hs). fold s0. rewrite Hsec.
  rewrite (cover_section_cases h rt i _ _ _ _ s1 b1 Hb1), Hclick, Hcompany, Htitle.
  cbn [orb].
  destruct (cover_letter_action_released h rt (job_title i) (company_name i)
              (personal_message i) (jd i) s1) as [Hr _].
  destruct (cover_letter_action h rt _ _ _ _ s1) as [[r s2] t2].
  cbn [fst snd] in *. subst r. rewrite <- !app_assoc. reflexivity.
Qed.

(** The run without the second click ends with the extracted text bound. *)
Lemma quiet_run_binds (i : inputs) (ss : session_state) (w : W)
    (file : UploadedFile) (text : string) :
  starts h i w = true ->
  analyze_clicked i = true ->
  jd i <> "" ->
  uploaded_file i = Some file ->
  extract_pdf_text h file = inl text ->
  resume_text (state_after h rt (with_cover_clicked i false) ss w) = Some text.
Proof.
  intros Hs Hclick Hjd Hfile Hx.
  set (quiet := with_cover_clicked i false).
  set (s0 := {| session := {| processing := Some (busy ss) |};
                resume_text := None; world := world_started h i w |}).
  unfold state_after. rewrite (run_sections h rt quiet ss w Hs).
  change (world_started h quiet w) with (world_started h i w). fold s0.
  change (jd quiet) with (jd i).
  change (uploaded_file quiet) with (uploaded_file i).
  unfold quiet at 1. rewrite analyze_section_ignores_cover.
  rewrite (analyze_section_cases h rt i _ _ s0 (busy ss) eq_refl).
  apply String.eqb_neq in Hjd. rewrite Hclick, Hjd, Hfile.
  destruct (analyze_action_binds file (jd i) text s0 Hx) as (Hr & Hflag & Hbound).
  destruct (analyze_action h rt file (jd i) s0) as [[r s1] t1].
  cbn [fst snd] in *. subst r.
  rewrite (cover_section_cases h rt quiet _ _ _ _ s1 false Hflag).
  cbn [cover_clicked quiet with_cover_clicked fst snd]. exact Hbound.
Qed.

Lemma valid_analysis_reaches_cover (i : inputs) (file : UploadedFile) :
  jd i <> "" -> uploaded_file i = Some file -> reaches_cover i = true.
Proof.
  intros Hjd Hfile. unfold reaches_cover, analyze_valid.
  apply String.eqb_neq in Hjd. rewrite Hjd, Hfile. apply orb_true_r.
Qed.

(** X8. When both handlers run in one run and the PDF was read, the
    cover-letter handler sends one request, whose prompt is the f-string
    filled with the job title, the company, the personal message, the
    text extracted in this run and the job description; the letter the
    model returns is written on the page and offered for download
    verbatim, as [cover_letter.txt] of type [text/plain], and the flag
    is released. *)
Theorem cover_letter_is_generated (i : inputs) (ss : session_state) (w w' : W)
    (file : UploadedFile) (text letter : string) :
  starts h i w = true ->
  analyze_clicked i = true ->
  jd i <> "" ->
  uploaded_file i = Some file ->
  extract_pdf_text h file = inl text ->
  cover_clicked i = true ->
  company_name i <> "" ->
  job_title i <> "" ->
  let quiet := with_cover_clicked i false in
  let prompt :=
    cover_letter_prompt (job_title i) (company_name i) (personal_message i)
      text (jd i) in
  get_gemini_response h prompt (world_after h rt quiet ss w) = (inl letter, w') ->
  trace_of h rt i ss w =
    (trace_of h rt quiet ss w ++
     [ SetProcessing true;
       SpinnerEnter "📝 Generating cover letter...";
       CallGenerate prompt;
       Subheader "Generated Cover Letter";
       Write (PyStr letter);
       DownloadButton "Download Cover Letter" letter "cover_letter.txt" "text/plain";
       SpinnerExit;
       SetProcessing false ])%list
  /\ processing (session_after h rt i ss w) = Some false
  /\ world_after h rt i ss w = w'.
Proof.
  intros Hs Hclick Hjd Hfile Hx Hcover Hcompany Htitle quiet prompt Hg.
  subst quiet prompt. unfold world_after in Hg.
  pose proof (cover_click_runs_handler i ss w Hs
                (valid_analysis_reaches_cover i file Hjd Hfile)
                Hcover Hcompany Htitle) as Hrun.
  cbv zeta in Hrun.
  rewrite (cover_letter_action_bound _ _ _ _ text _
             (quiet_run_binds i ss w file text Hs Hclick Hjd Hfile Hx)) in Hrun.
  cbv zeta in Hrun. unfold state_after in Hrun. rewrite Hg in Hrun.
  unfold trace_of at 1, session_after, world_after. rewrite Hrun.
  cbn [fst snd session world processing]. auto.
Qed.

(** X9. When the request for the cover letter raises, the page gets no
    letter and no download button: after the request the log goes on
    with the end of the spinner, the error and the release of the
    flag. *)
Theorem cover_letter_request_fails (i : inputs) (ss : session_state) (w w' : W)
    (file : UploadedFile) (text : string) (e : exn) :
  starts h i w = true ->
  analyze_clicked i = true ->
  jd i <> "" ->
  uploaded_file i = Some file ->
  extract_pdf_text h file = inl text ->
  cover_clicked i = true ->
  company_name i <> "" ->
  job_title i <> "" ->
  let quiet := with_cover_clicked i false in
  let prompt :=
    cover_letter_prompt (job_title i) (company_name i) (personal_message i)
      text (jd i) in
  get_gemini_response h prompt (world_after h rt quiet ss w) = (inr e, w') ->
  trace_of h rt i ss w =
    (trace_of h rt quiet ss w ++
     [ SetProcessing true;
       SpinnerEnter "📝 Generating cover letter...";
       CallGenerate prompt;
       SpinnerExit;
       Error ("An error occurred: " ++ exn_str rt e);
       SetProcessing false ])%list
  /\ processing (session_after h rt i ss w) = Some false
  /\ world_after h rt i ss w = w'.
Proof.
  intros Hs Hclick Hjd Hfile Hx Hcover Hcompany Htitle quiet prompt Hg.
  subst quiet prompt. unfold world_after in Hg.
  pose proof (cover_click_runs_handler i ss w Hs
                (valid_analysis_reaches_cover i file Hjd Hfile)
                Hcover Hcompany Htitle) as Hrun.
  cbv zeta in Hrun.
  rewrite (cover_letter_action_bound _ _ _ _ text _
             (quiet_run_binds i ss w file text Hs Hclick Hjd Hfile Hx)) in Hrun.
  cbv zeta in Hrun. unfold state_after in Hrun. rewrite Hg in Hrun.
  unfold trace_of at 1, session_after, world_after. rewrite Hrun.
  cbn [fst snd session world processing]. auto.
Qed.

End CoverLetterRuns.

(** ** What every run does, and what none does *)

Section EveryRun.

Context {W : Type}.
Variables (h : helper W) (rt : runtime).

(** The log of a run that gets past the startup, section by section. *)
Lemma trace_two_sections (i : inputs) (ss : session_state) (w : W) :
  starts h i w = true ->
  let first :=
    analyze_section h rt i (jd i) (uploaded_file i)
      {| session := {| processing := Some (busy ss) |};
         resume_text := None; world := world_started h i w |} in
  trace_of h rt i ss w =
    (init_events ss ++ startup_calls i ++ page_form ++ snd first ++
     match fst (fst first) with
     | Normal _ =>
         snd (cover_section h rt i (company_name i) (job_title i)
                (personal_message i) (jd i) (snd (fst first)))
     | _ => []
     end)%list.
Proof.
  intros Hs first. subst first. unfold trace_of.
  rewrite (run_sections h rt i ss w Hs).
  destruct (analyze_section h rt i _ _ _) as [[[u| |e] s1] t1]; cbn [fst snd];
    rewrite ?app_nil_r; try reflexivity.
  destruct (cover_section h rt i _ _ _ _ s1) as [[r2 s2] t2]. reflexivity.
Qed.

(** A run that Streamlit does not interrupt finishes normally, whatever
    the environment, the widgets, the session state, the helpers and
    the decoder do: every exception of class [Exception] is caught. *)
Lemma uninterrupted_run_finishes (i : inputs) (ss : session_state) (w : W) :
  fst (fst (run h rt i ss w)) = Normal tt.
Proof.
  destruct (starts_or_fails h rt i w) as [Hs|[msg Hfail]].
  - destruct (run_shape h rt i ss w Hs) as (s2 & rest1 & rest2 & Hrun & _).
    rewrite Hrun. reflexivity.
  - rewrite (run_startup_failure h rt i ss w msg Hfail). reflexivity.
Qed.

(** *** Action calls and the flag *)

Lemma replay_flag_app (st : bool * bool) (l1 l2 : list event) :
  replay_flag st (l1 ++ l2) =
    match replay_flag st l1 with
    | Some st' => replay_flag st' l2
    | None => None
    end.
Proof.
  revert st. induction l1 as [|ev l1 IH]; intros st; [reflexivity|].
  destruct ev; cbn [app replay_flag]; try apply IH.
  - destruct (fst st); [apply IH|reflexivity].
  - destruct (fst st); [apply IH|reflexivity].
  - destruct (fst st && negb (snd st)); [apply IH|reflexivity].
Qed.

Lemma replay_flag_prefix (i : inputs) (ss : session_state) :
  replay_flag (busy ss, false) (init_events ss ++ startup_calls i ++ page_form)
  = Some (busy ss, false).
Proof.
  unfold init_events, startup_calls, busy.
  destruct (processing ss); (destruct (environ i "GOOGLE_API_KEY") as [k|];
    [destruct (k =? "")|]); reflexivity.
Qed.

Lemma analyze_section_replay (i : inputs) (jd : string)
    (uploaded_file : option UploadedFile) (s : state W) (st : bool * bool) :
  exists st',
    replay_flag st (snd (analyze_section h rt i jd uploaded_file s)) = Some st'.
Proof. exec; eexists; reflexivity. Qed.

Lemma cover_section_replay (i : inputs)
    (company_name job_title personal_message jd : string) (s : state W)
    (st : bool * bool) :
  exists st',
    replay_flag st
      (snd (cover_section h rt i company_name job_title personal_message jd s))
    = Some st'.
Proof. exec; eexists; reflexivity. Qed.

(** X12. In every run, the PDF is read, a prompt is built and a request
    is sent to the model only while the flag is set, and at most one
    request is sent between two assignments of the flag: each handler
    sends at most one request, under its own [processing = True]. *)
Theorem action_calls_guarded_by_flag (i : inputs) (ss : session_state) (w : W) :
  guarded_by_flag (busy ss) (trace_of h rt i ss w) = true.
Proof.
  unfold guarded_by_flag.
  destruct (starts_or_fails h rt i w) as [Hs|[msg Hfail]].
  - rewrite (trace_two_sections i ss w Hs). cbv zeta.
    rewrite 2 app_assoc, replay_flag_app, <- app_assoc, replay_flag_prefix.
    rewrite replay_flag_app.
    match goal with |- context [analyze_section h rt i ?j ?u ?s] =>
      destruct (analyze_section_replay i j u s (busy ss, false)) as [st1 H1];
      rewrite H1;
      destruct (fst (fst (analyze_section h rt i j u s)));
      [ match goal with |- context [cover_section h rt i ?a ?b ?c ?d ?s'] =>
          destruct (cover_section_replay i a b c d s' st1) as [st2 H2];
          rewrite H2; reflexivity end
      | reflexivity | reflexivity ]
    end.
  - unfold trace_of. rewrite (run_startup_failure h rt i ss w msg Hfail).
    cbn [snd]. unfold init_events, startup_calls, busy.
    destruct (processing ss); (destruct (environ i "GOOGLE_API_KEY") as [k|];
      [destruct (k =? "")|]); reflexivity.
Qed.

(** *** The configuration of the client *)

Lemma analyze_section_never_configures (i : inputs) (jd : string)
    (uploaded_file : option UploadedFile) (s : state W) :
  filter is_configure (snd (analyze_section h rt i jd uploaded_file s)) = [].
Proof. exec; reflexivity. Qed.

Lemma cover_section_never_configures (i : inputs)
    (company_name job_title personal_message jd : string) (s : state W) :
  filter is_configure
    (snd (cover_section h rt i company_name job_title personal_message jd s)) = [].
Proof. exec; reflexivity. Qed.

(** X13. The client is configured at the start of every run that finds
    a non-empty key, with that key, and nowhere else: the configuration
    calls of a run are the one call of its startup, or none when the
    key is missing. *)
Theorem configured_once_per_run (i : inputs) (ss : session_state) (w : W) :
  filter is_configure (trace_of h rt i ss w) =
    match environ i "GOOGLE_API_KEY" with
    | Some api_key => if api_key =? "" then [] else [CallConfigure api_key]
    | None => []
    end.
Proof.
  assert (Hprefix : forall rest,
            filter is_configure (init_events ss ++ startup_calls i ++ rest)
            = (startup_calls i ++ filter is_configure rest)%list).
  { intros rest. rewrite !filter_app. unfold init_events, startup_calls.
    destruct (processing ss); (destruct (environ i "GOOGLE_API_KEY") as [k|];
      [destruct (k =? "")|]); reflexivity. }
  change (filter is_configure (trace_of h rt i ss w) = startup_calls i).
  destruct (starts_or_fails h rt i w) as [Hs|[msg Hfail]].
  - rewrite (trace_two_sections i ss w Hs). cbv zeta.
    rewrite Hprefix, !filter_app, analyze_section_never_configures.
    match goal with |- context [match ?r with Normal _ => _ | _ => _ end] =>
      destruct r end;
      rewrite ?cover_section_never_configures; cbn; apply app_nil_r.
  - unfold trace_of. rewrite (run_startup_failure h rt i ss w msg Hfail).
    cbn [snd]. rewrite Hprefix. cbn. apply app_nil_r.
Qed.

(** *** A run without a click *)

(** X14. A run in which no button is clicked (any other widget change
    re-runs the script) renders the form and the two buttons and
    nothing else: no message, no action call; the session and the
    service are as the startup left them. *)
Theorem idle_run_renders_the_form (i : inputs) (ss : session_state) (w : W) :
  starts h i w = true ->
  analyze_clicked i = false ->
  cover_clicked i = false ->
  trace_of h rt i ss w =
    (init_events ss ++ startup_calls i ++ page_form ++
     [ Button "Analyze Resume" (busy ss);
       Button "Generate Cover Letter" (busy ss) ])%list
  /\ session_after h rt i ss w = {| processing := Some (busy ss) |}
  /\ world_after h rt i ss w = world_started h i w.
Proof.
  intros Hs Hanalyze Hcover.
  unfold trace_of, session_after, world_after.
  rewrite (run_sections h rt i ss w Hs).
  rewrite (analyze_section_cases h rt i (jd i) (uploaded_file i)
             {| session := {| processing := Some (busy ss) |};
                resume_text := None; world := world_started h i w |}
             (busy ss) eq_refl), Hanalyze.
  rewrite (cover_section_cases h rt i _ _ _ _
             {| session := {| processing := Some (busy ss) |};
                resume_text := None; world := world_started h i w |}
             (busy ss) eq_refl), Hcover.
  cbn [fst snd session world]. auto.
Qed.

(** *** The download button *)

Lemma analyze_section_no_download (i : inputs) (jd : string)
    (uploaded_file : option UploadedFile) (s : state W) :
  filter is_download (snd (analyze_section h rt i jd uploaded_file s)) = [].
Proof. exec; reflexivity. Qed.

Lemma filter_nil_not_in (p : event -> bool) (log : list event) (ev : event) :
  filter p log = [] -> p ev = true -> ~ In ev log.
Proof.
  intros Hnil Hp Hin.
  assert (Hf : In ev (filter p log)) by (apply filter_In; auto).
  rewrite Hnil in Hf. exact Hf.
Qed.

Lemma cover_section_download (i : inputs)
    (company_name job_title personal_message jd : string) (s : state W)
    (label data file_name mime : string) :
  let log := snd (cover_section h rt i company_name job_title personal_message jd s) in
  In (DownloadButton label data file_name mime) log ->
  label = "Download Cover Letter"
  /\ file_name = "cover_letter.txt"
  /\ mime = "text/plain"
  /\ In (Write (PyStr data)) log
  /\ (exists prompt, In (CallGenerate prompt) log)
  /\ cover_clicked i = true
  /\ company_name <> ""
  /\ job_title <> "".
Proof.
  cbv zeta. exec; intros Hin; cbn in Hin;
    repeat (destruct Hin as [Hin|Hin]; try discriminate Hin);
    try contradiction.
  injection Hin as -> -> -> ->.
  match goal with H : (_ =? "") || (_ =? "") = false |- _ =>
    apply orb_false_elim in H; destruct H as [Hc Ht];
    apply String.eqb_neq in Hc, Ht end.
  repeat split; auto; cbn; eauto 12.
Qed.

(** X15. A download button appears in a log only for a generated cover
    letter: whenever a run offers a download, the Generate Cover Letter
    button was clicked with a company and a job title, a request went
    to the model, the data offered is the text written on the page, and
    the file is [cover_letter.txt] of type [text/plain]. *)
Theorem download_offers_the_letter (i : inputs) (ss : session_state) (w : W)
    (label data file_name mime : string) :
  In (DownloadButton label data file_name mime) (trace_of h rt i ss w) ->
  label = "Download Cover Letter"
  /\ file_name = "cover_letter.txt"
  /\ mime = "text/plain"
  /\ In (Write (PyStr data)) (trace_of h rt i ss w)
  /\ (exists prompt, In (CallGenerate prompt) (trace_of h rt i ss w))
  /\ cover_clicked i = true
  /\ company_name i <> ""
  /\ job_title i <> "".
Proof.
  destruct (starts_or_fails h rt i w) as [Hs|[msg Hfail]].
  - rewrite (trace_two_sections i ss w Hs). cbv zeta. intros Hin.
    rewrite 2 app_assoc in Hin. apply in_app_or in Hin.
    destruct Hin as [Hin|Hin].
    { exfalso. rewrite <- app_assoc in Hin.
      unfold init_events, startup_calls, page_form in Hin.
      destruct (processing ss); (destruct (environ i "GOOGLE_API_KEY") as [k|];
        [destruct (k =? "")|]); cbn in Hin; intuition discriminate. }
    apply in_app_or in Hin. destruct Hin as [Hin|Hin].
    { exfalso. revert Hin.
      apply (filter_nil_not_in is_download); [|reflexivity].
      apply analyze_section_no_download. }
    destruct (fst (fst (analyze_section h rt i _ _ _)));
      [|contradiction|contradiction].
    destruct (cover_section_download i _ _ _ _ _ _ _ _ _ Hin)
      as (Hl & Hf & Hm & Hw & (prompt & Hp) & Hrest).
    split; [exact Hl|]. split; [exact Hf|]. split; [exact Hm|].
    split; [|split; [exists prompt|exact Hrest]];
      rewrite 2 app_assoc; apply in_or_app; right; apply in_or_app; right;
      assumption.
  - unfold trace_of. rewrite (run_startup_failure h rt i ss w msg Hfail).
    cbn [snd]. intros Hin. exfalso.
    unfold init_events, startup_calls in Hin.
    destruct (processing ss); (destruct (environ i "GOOGLE_API_KEY") as [k|];
      [destruct (k =? "")|]); cbn in Hin; intuition discriminate.
Qed.

End EveryRun.

(** ** These properties at work on the test doubles *)

Lemma extraction_failure_stops_analysis_witness :
  extract_pdf_text (Stub.service Stub.accept_key Stub.unreadable (Stub.says Stub.full_reply))
    Stub.resume_pdf = inr (Failure "PdfReadError" "EOF marker not found")
  /\ trace_of (Stub.service Stub.accept_key Stub.unreadable (Stub.says Stub.full_reply))
       Stub.rt (Stub.filled true false) new_session 0
     = ([ SetProcessing false; CallConfigure "secret" ] ++ page_form ++
        [ Button "Analyze Resume" false;
          SetProcessing true;
          SpinnerEnter "📊 Analyzing your resume...";
          CallExtract Stub.resume_pdf;
          SpinnerExit;
          Error "An error occurred: EOF marker not found";
          SetProcessing false;
          Button "Generate Cover Letter" false ])%list.
Proof.
  split; [reflexivity|].
  refine (extraction_failure_stops_analysis
            (Stub.service Stub.accept_key Stub.unreadable (Stub.says Stub.full_reply))
            Stub.rt (Stub.filled true false) new_session 0 Stub.resume_pdf
            (Failure "PdfReadError" "EOF marker not found")
            eq_refl eq_refl _ eq_refl eq_refl).
  discriminate.
Defined.

Lemma prompt_failure_stops_analysis_witness :
  prepare_prompt Scenario.no_prompt "Backend engineer, five years of Python"
    "Python developer" = inr (Failure "KeyError" "template")
  /\ trace_of Scenario.no_prompt Stub.rt (Stub.filled true false) new_session 0
     = ([ SetProcessing false; CallConfigure "secret" ] ++ page_form ++
        [ Button "Analyze Resume" false;
          SetProcessing true;
          SpinnerEnter "📊 Analyzing your resume...";
          CallExtract Stub.resume_pdf;
          CallPrepare "Backend engineer, five years of Python" "Python developer";
          SpinnerExit;
          Error "An error occurred: template";
          SetProcessing false;
          Button "Generate Cover Letter" false ])%list.
Proof.
  split; [reflexivity|].
  refine (prompt_failure_stops_analysis Scenario.no_prompt Stub.rt
            (Stub.filled true false) new_session 0 Stub.resume_pdf
            "Backend engineer, five years of Python" (Failure "KeyError" "template")
            eq_refl eq_refl _ eq_refl eq_refl eq_refl).
  discriminate.
Defined.

Lemma model_failure_stops_analysis_witness :
  get_gemini_response (Stub.answering Scenario.unavailable) Stub.analysis_prompt 0
    = (inr (Failure "ResourceExhausted" "429 quota exceeded"), 1)
  /\ Stub.first_run Scenario.unavailable (Stub.filled true false)
     = (log_until_reply (Stub.filled true false) new_session Stub.resume_pdf
          "Backend engineer, five years of Python" Stub.analysis_prompt ++
        [ SpinnerExit;
          Error "An error occurred: 429 quota exceeded";
          SetProcessing false;
          Button "Generate Cover Letter" false ])%list.
Proof.
  split; [reflexivity|].
  refine (model_failure_stops_analysis (Stub.answering Scenario.unavailable) Stub.rt
            (Stub.filled true false) new_session 0 1 Stub.resume_pdf
            "Backend engineer, five years of Python" Stub.analysis_prompt
            (Failure "ResourceExhausted" "429 quota exceeded")
            eq_refl eq_refl _ eq_refl eq_refl eq_refl eq_refl).
  discriminate.
Defined.

(** An Analyze run against a model that always gives the same reply. *)
Lemma constant_reply_run (reply : string) :
  analysis_gets (Stub.answering (Stub.says reply)) (Stub.filled true false) 0
    Stub.resume_pdf "Backend engineer, five years of Python"
    Stub.analysis_prompt reply 1.
Proof. repeat split; try reflexivity. discriminate. Qed.

Lemma non_object_reply_fails_after_success_witness :
  json_loads Scenario.rt Scenario.list_reply = inl (PyList [PyInt 1; PyInt 2])
  /\ trace_of (Stub.answering (Stub.says Scenario.list_reply)) Scenario.rt
       (Stub.filled true false) new_session 0
     = (log_until_reply (Stub.filled true false) new_session Stub.resume_pdf
          "Backend engineer, five years of Python" Stub.analysis_prompt ++
        [ Success "✨ Analysis Complete!";
          SpinnerExit;
          Error "An error occurred: 'list' object has no attribute 'get'";
          SetProcessing false;
          Button "Generate Cover Letter" false ])%list.
Proof.
  split; [reflexivity|].
  refine (non_object_reply_fails_after_success
            (Stub.answering (Stub.says Scenario.list_reply)) Scenario.rt
            (Stub.filled true false) new_session 0 1 Stub.resume_pdf
            "Backend engineer, five years of Python" Stub.analysis_prompt
            Scenario.list_reply (PyList [PyInt 1; PyInt 2])
            (constant_reply_run Scenario.list_reply) eq_refl _).
  intros items H. discriminate H.
Defined.

Lemma non_string_keyword_fails_the_join_witness :
  json_loads Scenario.rt Scenario.mixed_keywords_reply
    = inl (PyDict [("MissingKeywords", PyList [PyStr "Go"; PyInt 3])])
  /\ trace_of (Stub.answering (Stub.says Scenario.mixed_keywords_reply)) Scenario.rt
       (Stub.filled true false) new_session 0
     = (log_until_reply (Stub.filled true false) new_session Stub.resume_pdf
          "Backend engineer, five years of Python" Stub.analysis_prompt ++
        [ Success "✨ Analysis Complete!";
          Metric "Match Score" (PyStr "N/A");
          Subheader "Missing Keywords";
          SpinnerExit;
          Error "An error occurred: sequence item: expected str instance, int found";
          SetProcessing false;
          Button "Generate Cover Letter" false ])%list.
Proof.
  split; [reflexivity|].
  refine (non_string_keyword_fails_the_join
            (Stub.answering (Stub.says Scenario.mixed_keywords_reply)) Scenario.rt
            (Stub.filled true false) new_session 0 1 Stub.resume_pdf
            "Backend engineer, five years of Python" Stub.analysis_prompt
            Scenario.mixed_keywords_reply
            [("MissingKeywords", PyList [PyStr "Go"; PyInt 3])] ["Go"] (PyInt 3) []
            (constant_reply_run Scenario.mixed_keywords_reply) eq_refl eq_refl eq_refl _).
  intros s H. discriminate H.
Defined.

Lemma falsy_keywords_sentence_witness :
  json_loads Scenario.rt Scenario.null_keywords_reply
    = inl (PyDict [("MissingKeywords", PyNone)])
  /\ truthy PyNone = false
  /\ trace_of (Stub.answering (Stub.says Scenario.null_keywords_reply)) Scenario.rt
       (Stub.filled true false) new_session 0
     = (log_until_reply (Stub.filled true false) new_session Stub.resume_pdf
          "Backend engineer, five years of Python" Stub.analysis_prompt ++
        [ Success "✨ Analysis Complete!";
          Metric "Match Score" (PyStr "N/A");
          Subheader "Missing Keywords";
          Write (PyStr "No critical missing keywords found!");
          Subheader "Profile Summary";
          Write (PyStr "No summary available");
          SpinnerExit;
          SetProcessing false;
          Button "Generate Cover Letter" false ])%list.
Proof.
  split; [reflexivity|]. split; [reflexivity|].
  exact (falsy_keywords_sentence
           (Stub.answering (Stub.says Scenario.null_keywords_reply)) Scenario.rt
           (Stub.filled true false) new_session 0 1 Stub.resume_pdf
           "Backend engineer, five years of Python" Stub.analysis_prompt
           Scenario.null_keywords_reply
           [("MissingKeywords", PyNone)] PyNone
           (constant_reply_run Scenario.null_keywords_reply)
           eq_refl eq_refl eq_refl eq_refl).
Defined.

Lemma string_keywords_joined_by_character_witness :
  json_loads Scenario.rt Scenario.string_keywords_reply
    = inl (PyDict [("MissingKeywords", PyStr "Go")])
  /\ ascii_only "Go" = true
  /\ trace_of (Stub.answering (Stub.says Scenario.string_keywords_reply)) Scenario.rt
       (Stub.filled true false) new_session 0
     = (log_until_reply (Stub.filled true false) new_session Stub.resume_pdf
          "Backend engineer, five years of Python" Stub.analysis_prompt ++
        [ Success "✨ Analysis Complete!";
          Metric "Match Score" (PyStr "N/A");
          Subheader "Missing Keywords";
          Write (PyStr "G, o");
          Subheader "Profile Summary";
          Write (PyStr "No summary available");
          SpinnerExit;
          SetProcessing false;
          Button "Generate Cover Letter" false ])%list.
Proof.
  split; [reflexivity|]. split; [reflexivity|].
  refine (string_keywords_joined_by_character
            (Stub.answering (Stub.says Scenario.string_keywords_reply)) Scenario.rt
            (Stub.filled true false) new_session 0 1 Stub.resume_pdf
            "Backend engineer, five years of Python" Stub.analysis_prompt
            Scenario.string_keywords_reply
            [("MissingKeywords", PyStr "Go")] "Go"
            (constant_reply_run Scenario.string_keywords_reply)
            eq_refl eq_refl eq_refl _ eq_refl).
  discriminate.
Defined.

Lemma cover_letter_is_generated_witness :
  get_gemini_response (Stub.answering Scenario.answers_both) Scenario.letter_prompt
    (world_after (Stub.answering Scenario.answers_both) Stub.rt
       (Stub.filled true false) new_session 0)
    = (inl "Dear Hiring Manager", 2)
  /\ Stub.first_run Scenario.answers_both (Stub.filled true true)
     = (Stub.first_run Scenario.answers_both (Stub.filled true false) ++
        [ SetProcessing true;
          SpinnerEnter "📝 Generating cover letter...";
          CallGenerate Scenario.letter_prompt;
          Subheader "Generated Cover Letter";
          Write (PyStr "Dear Hiring Manager");
          DownloadButton "Download Cover Letter" "Dear Hiring Manager"
            "cover_letter.txt" "text/plain";
          SpinnerExit;
          SetProcessing false ])%list
  /\ world_after (Stub.answering Scenario.answers_both) Stub.rt
       (Stub.filled true true) new_session 0 = 2.
Proof.
  split; [reflexivity|].
  assert (Hjd : jd (Stub.filled true true) <> "") by discriminate.
  assert (Hcompany : company_name (Stub.filled true true) <> "") by discriminate.
  assert (Htitle : job_title (Stub.filled true true) <> "") by discriminate.
  destruct (cover_letter_is_generated (Stub.answering Scenario.answers_both) Stub.rt
              (Stub.filled true true) new_session 0 2 Stub.resume_pdf
              "Backend engineer, five years of Python" "Dear Hiring Manager"
              eq_refl eq_refl Hjd eq_refl eq_refl eq_refl Hcompany Htitle eq_refl)
    as (Hlog & _ & Hworld).
  split; [exact Hlog|exact Hworld].
Defined.

Lemma cover_letter_request_fails_witness :
  get_gemini_response (Stub.answering Scenario.answers_once) Scenario.letter_prompt
    (world_after (Stub.answering Scenario.answers_once) Stub.rt
       (Stub.filled true false) new_session 0)
    = (inr (Failure "ResourceExhausted" "429 quota exceeded"), 2)
  /\ Stub.first_run Scenario.answers_once (Stub.filled true true)
     = (Stub.first_run Scenario.answers_once (Stub.filled true false) ++
        [ SetProcessing true;
          SpinnerEnter "📝 Generating cover letter...";
          CallGenerate Scenario.letter_prompt;
          SpinnerExit;
          Error "An error occurred: 429 quota exceeded";
          SetProcessing false ])%list.
Proof.
  split; [reflexivity|].
  assert (Hjd : jd (Stub.filled true true) <> "") by discriminate.
  assert (Hcompany : company_name (Stub.filled true true) <> "") by discriminate.
  assert (Htitle : job_title (Stub.filled true true) <> "") by discriminate.
  destruct (cover_letter_request_fails (Stub.answering Scenario.answers_once) Stub.rt
              (Stub.filled true true) new_session 0 2 Stub.resume_pdf
              "Backend engineer, five years of Python"
              (Failure "ResourceExhausted" "429 quota exceeded")
              eq_refl eq_refl Hjd eq_refl eq_refl eq_refl Hcompany Htitle eq_refl)
    as (Hlog & _).
  exact Hlog.
Defined.

Lemma idle_run_renders_the_form_witness :
  starts (Stub.answering (Stub.says Stub.full_reply)) (Stub.filled false false) 0 = true
  /\ Stub.first_run (Stub.says Stub.full_reply) (Stub.filled false false)
     = ([ SetProcessing false; CallConfigure "secret" ] ++ page_form ++
        [ Button "Analyze Resume" false;
          Button "Generate Cover Letter" false ])%list
  /\ world_after (Stub.answering (Stub.says Stub.full_reply)) Stub.rt
       (Stub.filled false false) new_session 0 = 0.
Proof.
  split; [reflexivity|].
  destruct (idle_run_renders_the_form (Stub.answering (Stub.says Stub.full_reply))
              Stub.rt (Stub.filled false false) new_session 0
              eq_refl eq_refl eq_refl)
    as (Hlog & _ & Hworld).
  split; [exact Hlog|exact Hworld].
Defined.

Lemma download_offers_the_letter_witness :
  In (DownloadButton "Download Cover Letter" "Dear Hiring Manager"
        "cover_letter.txt" "text/plain")
     (Stub.first_run Scenario.answers_both (Stub.filled true true))
  /\ In (Write (PyStr "Dear Hiring Manager"))
        (Stub.first_run Scenario.answers_both (Stub.filled true true))
  /\ cover_clicked (Stub.filled true true) = true.
Proof.
  assert (Hin : In (DownloadButton "Download Cover Letter" "Dear Hiring Manager"
                      "cover_letter.txt" "text/plain")
                   (Stub.first_run Scenario.answers_both (Stub.filled true true)))
    by found.
  split; [exact Hin|].
  destruct (download_offers_the_letter (Stub.answering Scenario.answers_both) Stub.rt
              (Stub.filled true true) new_session 0 _ _ _ _ Hin)
    as (_ & _ & _ & Hwrite & _ & Hclick & _).
  split; [exact Hwrite|exact Hclick].
Defined.

(** ** Runs that Streamlit cuts short *)

(** *** The interruptible script against the script *)

Section Simulation.

Context {W : Type}.

Lemma sim_lift {A} (m : M W A) : simulates (lift m) m.
Proof.
  intros sg ws. unfold lift. destruct (m (script ws)) as [[r s] t]. reflexivity.
Qed.

Lemma sim_interact {A} (m : M W A) : simulates (interact m) m.
Proof.
  intros sg ws. unfold interact. destruct (sg (seen ws)) as [c|] eqn:Hc.
  - exists (seen ws). exact Hc.
  - destruct (m (script ws)) as [[r s] t]. reflexivity.
Qed.

Lemma sim_bind {A B} (m' : IM W A) (m : M W A) (k' : A -> IM W B) (k : A -> M W B) :
  simulates m' m -> (forall a, simulates (k' a) (k a)) ->
  simulates (ibind m' k') (bind m k).
Proof.
  intros Hm Hk sg ws. specialize (Hm sg ws). unfold ibind, bind.
  destruct (m' sg ws) as [[[[a| |e]|c] ws1] t1].
  - rewrite Hm. specialize (Hk a sg ws1).
    destruct (k' a sg ws1) as [[[r|c] ws2] t2].
    + rewrite Hk. reflexivity.
    + exact Hk.
  - rewrite Hm. reflexivity.
  - rewrite Hm. reflexivity.
  - exact Hm.
Qed.

Lemma sim_try_except {A} (b' : IM W A) (b : M W A)
    (k' : exn -> IM W A) (k : exn -> M W A) :
  simulates b' b -> (forall e, simulates (k' e) (k e)) ->
  simulates (itry_except b' k') (try_except b k).
Proof.
  intros Hb Hk sg ws. specialize (Hb sg ws). unfold itry_except, try_except.
  destruct (b' sg ws) as [[[[a| |e]|c] ws1] t1].
  - rewrite Hb. reflexivity.
  - rewrite Hb. reflexivity.
  - rewrite Hb. specialize (Hk e sg ws1).
    destruct (k' e sg ws1) as [[[r|c] ws2] t2].
    + rewrite Hk. reflexivity.
    + exact Hk.
  - exact Hb.
Qed.

Lemma sim_try_finally {A} (b' : IM W A) (b : M W A) (c' : IM W unit) (c : M W unit) :
  simulates b' b -> simulates c' c -> calm c' ->
  simulates (itry_finally b' c') (try_finally b c).
Proof.
  intros Hb Hc Hcalm sg ws. specialize (Hb sg ws). unfold itry_finally, try_finally.
  destruct (b' sg ws) as [[o ws1] t1].
  specialize (Hc sg ws1). specialize (Hcalm sg ws1).
  destruct (c' sg ws1) as [[[[u| |e]|c0] ws2] t2]; try contradiction.
  - destruct o as [r|c0].
    + rewrite Hb, Hc. reflexivity.
    + exact Hb.
  - exact Hc.
Qed.

Lemma sim_call (b' : IM W unit) (b : M W unit) :
  simulates b' b -> simulates (icall b') (call b).
Proof.
  intros Hb sg ws. specialize (Hb sg ws). unfold icall, call.
  destruct (b' sg ws) as [[[[a| |e]|c] ws1] t1]; try rewrite Hb; try reflexivity.
  exact Hb.
Qed.

Lemma calm_lift_emit (ev : event) : calm (W := W) (lift (emit ev)).
Proof. intros sg ws. exact Logic.I. Qed.

Lemma calm_interact_emit (ev : event) : calm (W := W) (interact (emit ev)).
Proof.
  intros sg ws. unfold interact. destruct (sg (seen ws)); exact Logic.I.
Qed.

Lemma calm_set_processing (b : bool) : calm (W := W) (interact (set_processing b)).
Proof.
  intros sg ws. unfold interact. destruct (sg (seen ws)); exact Logic.I.
Qed.

End Simulation.

Ltac simulate :=
  repeat (intros;
    lazymatch goal with
    | |- simulates (lift _) _ => apply sim_lift
    | |- simulates (interact _) _ => apply sim_interact
    | |- simulates (ibind _ _) _ => apply sim_bind
    | |- simulates (itry_except _ _) _ => apply sim_try_except
    | |- simulates (itry_finally _ _) _ => apply sim_try_finally
    | |- simulates (icall _) _ => apply sim_call
    | |- simulates (if ?b then _ else _) _ => destruct b
    | |- simulates (match ?x with _ => _ end) _ => destruct x
    | |- calm (lift (emit _)) => apply calm_lift_emit
    | |- calm (interact (emit _)) => apply calm_interact_emit
    | |- calm (interact (set_processing _)) => apply calm_set_processing
    end); intros.

Section Interruptible.

Context {W : Type}.
Variables (h : helper W) (rt : runtime).

Lemma sim_init_session_state :
  simulates (Watched.init_session_state (W := W)) init_session_state.
Proof.
  intros sg ws. unfold Watched.init_session_state, ibind, interact, lift,
    Watched.has_processing, init_session_state, set_processing, ret.
  destruct (sg (seen ws)) as [c|] eqn:Hc; [exists (seen ws); exact Hc|].
  destruct (processing (session (script ws))) as [b|]; cbn [seen script].
  - reflexivity.
  - destruct (sg (S (seen ws))) as [c|] eqn:Hc'; [exists (S (seen ws)); exact Hc'|].
    reflexivity.
Qed.

Lemma sim_show_analysis (response : string) :
  simulates (Watched.show_analysis rt response) (show_analysis (W := W) rt response).
Proof.
  unfold Watched.show_analysis, show_analysis, Watched.st_metric, st_metric. simulate.
Qed.

Lemma sim_analyze_action (file : UploadedFile) (jd : string) :
  simulates (Watched.analyze_action h rt file jd) (analyze_action h rt file jd).
Proof.
  unfold Watched.analyze_action, analyze_action, Watched.st_spinner, st_spinner, with_,
    Watched.analyze_body, analyze_body.
  simulate. apply sim_show_analysis.
Qed.

Lemma sim_cover_letter_action (job_title company_name personal_message jd : string) :
  simulates (Watched.cover_letter_action h rt job_title company_name personal_message jd)
    (cover_letter_action h rt job_title company_name personal_message jd).
Proof.
  unfold Watched.cover_letter_action, cover_letter_action, Watched.st_spinner,
    st_spinner, with_, Watched.cover_letter_body, cover_letter_body.
  simulate.
Qed.

Lemma sim_analyze_section (i : inputs) (jd : string)
    (uploaded_file : option UploadedFile) :
  simulates (Watched.analyze_section h rt i jd uploaded_file)
    (analyze_section h rt i jd uploaded_file).
Proof.
  unfold Watched.analyze_section, analyze_section. simulate.
  apply sim_analyze_action.
Qed.

Lemma sim_cover_section (i : inputs)
    (company_name job_title personal_message jd : string) :
  simulates (Watched.cover_section h rt i company_name job_title personal_message jd)
    (cover_section h rt i company_name job_title personal_message jd).
Proof.
  unfold Watched.cover_section, cover_section. simulate.
  apply sim_cover_letter_action.
Qed.

Lemma sim_page (i : inputs) : simulates (Watched.page h rt i) (page h rt i).
Proof.
  unfold Watched.page, page, Watched.st_sidebar, st_sidebar, with_. simulate.
  - apply sim_analyze_section.
  - apply sim_cover_section.
Qed.

Lemma sim_main (i : inputs) : simulates (Watched.main h rt i) (main h rt i).
Proof.
  unfold Watched.main, main, Watched.configure_then_page, configure_then_page.
  simulate; try apply sim_init_session_state; try apply sim_page.
Qed.

(** A run that finishes did what the uninterrupted run does. *)
Lemma finished_run (sg : schedule) (i : inputs) (ss : session_state) (w : W)
    (r : completion unit) (s : state W) (t : list event) :
  Watched.run h rt sg i ss w = (Finished r, s, t) ->
  run h rt i ss w = (r, s, t).
Proof.
  unfold Watched.run, run. intros Hrun.
  pose proof (sim_main i sg
                {| script := {| session := ss; resume_text := None; world := w |};
                   seen := 0 |}) as Hsim.
  destruct (Watched.main h rt i sg _) as [[o ws] t0].
  injection Hrun as -> <- ->. exact Hsim.
Qed.

(** A run is interrupted only by a request. *)
Lemma interrupted_run (sg : schedule) (i : inputs) (ss : session_state) (w : W)
    (c : control) (s : state W) (t : list event) :
  Watched.run h rt sg i ss w = (Interrupted c, s, t) ->
  exists n, sg n = Some c.
Proof.
  unfold Watched.run. intros Hrun.
  pose proof (sim_main i sg
                {| script := {| session := ss; resume_text := None; world := w |};
                   seen := 0 |}) as Hsim.
  destruct (Watched.main h rt i sg _) as [[o ws] t0].
  injection Hrun as -> <- ->. exact Hsim.
Qed.

(** Without a request, a run is the uninterrupted run. *)
Lemma undisturbed_run (i : inputs) (ss : session_state) (w : W) :
  Watched.run h rt undisturbed i ss w =
    (Finished (fst (fst (run h rt i ss w))), snd (fst (run h rt i ss w)),
     snd (run h rt i ss w)).
Proof.
  destruct (Watched.run h rt undisturbed i ss w) as [[[r|c] s] t] eqn:Hrun.
  - rewrite (finished_run _ _ _ _ _ _ _ Hrun). reflexivity.
  - destruct (interrupted_run _ _ _ _ _ _ _ Hrun) as [n Hn]. discriminate.
Qed.

End Interruptible.

(** *** A stop while the model is answering *)

Ltac unfold_watched :=
  unfold Watched.run, Watched.main, Watched.configure_then_page, Watched.page,
    Watched.analyze_section, Watched.cover_section, Watched.analyze_action,
    Watched.analyze_body, Watched.show_analysis, Watched.cover_letter_action,
    Watched.cover_letter_body, Watched.init_session_state, Watched.has_processing,
    Watched.st_spinner, Watched.st_sidebar, Watched.st_metric,
    icall, itry_finally, itry_except, ibind, interact, lift, stop_from in *.

Section Stopped.

Context {W : Type}.
Variables (h : helper W) (rt : runtime).

(** The user stops the script while the model is answering.  The first
    interaction after the reply raises [StopException], and so do the
    two on the way out: the spinner's exit and the assignment in
    [finally].  The run ends with the flag still set. *)
Lemma stopped_analysis (i : inputs) (ss : session_state) (w w' : W)
    (file : UploadedFile) (text prompt response : string) :
  analysis_gets h i w file text prompt response w' ->
  Watched.run h rt (stop_from (interactions_before_reply ss)) i ss w =
    (Interrupted StopException,
     {| session := {| processing := Some true |};
        resume_text := Some text;
        world := w' |},
     log_until_reply i ss file text prompt).
Proof.
  intros (Hs & Hclick & Hjd & Hfile & Hx & Hp & Hg).
  destruct (starts_inv h i w Hs) as (k & Hk & Hne & Hc & Hcalls).
  apply String.eqb_neq in Hjd.
  unfold log_until_reply, init_events, interactions_before_reply, busy, page_form.
  rewrite Hcalls.
  destruct ss as [[b|]]; cbn [processing].
  all: unfold_watched; unfold_script;
    cbn [script seen session resume_text world processing Nat.leb fst snd app];
    rewrite Hk, Hne; cbn [script seen session resume_text world processing Nat.leb];
    rewrite Hc; cbn [script seen session resume_text world processing Nat.leb];
    rewrite Hclick, Hjd, Hfile;
    cbn [script seen session resume_text world processing Nat.leb];
    rewrite Hx; cbn [script seen session resume_text world processing Nat.leb];
    rewrite Hp; cbn [script seen session resume_text world processing Nat.leb];
    rewrite Hg; cbn [script seen session resume_text world processing Nat.leb].
  all: destruct (json_loads rt response) as [v|e]; reflexivity.
Qed.

End Stopped.

(** *** After a stop: runs that never write the flag *)

Section KeepsFlag.

Context {W : Type}.

Lemma keeps_lift {A} (m : M W A) :
  (forall s, session (snd (fst (m s))) = session s) -> keeps_flag (lift m).
Proof.
  intros Hm sg ws b Hb. unfold lift. specialize (Hm (script ws)).
  destruct (m (script ws)) as [[r s] t]. cbn in *. rewrite Hm. exact Hb.
Qed.

Lemma keeps_interact {A} (m : M W A) :
  (forall s, session (snd (fst (m s))) = session s) -> keeps_flag (interact m).
Proof.
  intros Hm sg ws b Hb. unfold interact. specialize (Hm (script ws)).
  destruct (sg (seen ws)); [exact Hb|].
  destruct (m (script ws)) as [[r s] t]. cbn in *. rewrite Hm. exact Hb.
Qed.

Lemma keeps_bind {A B} (m' : IM W A) (k' : A -> IM W B) :
  keeps_flag m' -> (forall a, keeps_flag (k' a)) -> keeps_flag (ibind m' k').
Proof.
  intros Hm Hk sg ws b Hb. specialize (Hm sg ws b Hb). unfold ibind.
  destruct (m' sg ws) as [[[[a| |e]|c] ws1] t1]; cbn [fst snd] in *; try exact Hm.
  specialize (Hk a sg ws1 b Hm). destruct (k' a sg ws1) as [[o ws2] t2]. exact Hk.
Qed.

(** What follows a button that reports no click. *)
Lemma keeps_unclicked {B} (label : string) (disabled : bool) (k' : bool -> IM W B) :
  keeps_flag (k' false) ->
  keeps_flag (ibind (interact (st_button label disabled false)) k').
Proof.
  intros Hk sg ws b Hb. unfold ibind, interact, st_button, bind, emit, ret.
  destruct (sg (seen ws)); cbn [fst snd script]; [exact Hb|].
  specialize (Hk sg {| script := script ws; seen := S (seen ws) |} b Hb).
  destruct (k' false sg _) as [[o ws2] t2]. exact Hk.
Qed.

Lemma keeps_try_except {A} (b' : IM W A) (k' : exn -> IM W A) :
  keeps_flag b' -> (forall e, keeps_flag (k' e)) -> keeps_flag (itry_except b' k').
Proof.
  intros Hb Hk sg ws b Hflag. specialize (Hb sg ws b Hflag). unfold itry_except.
  destruct (b' sg ws) as [[[[a| |e]|c] ws1] t1]; cbn [fst snd] in *; try exact Hb.
  specialize (Hk e sg ws1 b Hb). destruct (k' e sg ws1) as [[o ws2] t2]. exact Hk.
Qed.

Lemma keeps_try_finally {A} (b' : IM W A) (c' : IM W unit) :
  keeps_flag b' -> keeps_flag c' -> keeps_flag (itry_finally b' c').
Proof.
  intros Hb Hc sg ws b Hflag. specialize (Hb sg ws b Hflag). unfold itry_finally.
  destruct (b' sg ws) as [[o ws1] t1]. cbn [fst snd] in Hb.
  specialize (Hc sg ws1 b Hb).
  destruct (c' sg ws1) as [[[[u| |e]|c] ws2] t2]; exact Hc.
Qed.

Lemma keeps_call (b' : IM W unit) : keeps_flag b' -> keeps_flag (icall b').
Proof.
  intros Hb sg ws b Hflag. specialize (Hb sg ws b Hflag). unfold icall.
  destruct (b' sg ws) as [[[[a| |e]|c] ws1] t1]; exact Hb.
Qed.

Lemma keeps_init_session_state : keeps_flag (Watched.init_session_state (W := W)).
Proof.
  intros sg ws b Hb. unfold Watched.init_session_state, ibind, interact, lift,
    Watched.has_processing, ret.
  destruct (sg (seen ws)); cbn [fst snd script]; [exact Hb|].
  rewrite Hb. cbn [fst snd script]. exact Hb.
Qed.

End KeepsFlag.

Ltac keep_flag :=
  repeat (intros;
    lazymatch goal with
    | |- keeps_flag (ibind (interact (st_button _ _ false)) _) => apply keeps_unclicked
    | |- keeps_flag (ibind _ _) => apply keeps_bind
    | |- keeps_flag (itry_except _ _) => apply keeps_try_except
    | |- keeps_flag (itry_finally _ _) => apply keeps_try_finally
    | |- keeps_flag (icall _) => apply keeps_call
    | |- keeps_flag (if ?b then _ else _) => destruct b
    | |- keeps_flag (match ?x with _ => _ end) => destruct x
    | |- keeps_flag Watched.init_session_state => apply keeps_init_session_state
    | |- keeps_flag (lift _) =>
        apply keeps_lift; intros; exec; reflexivity
    | |- keeps_flag (interact _) =>
        apply keeps_interact; intros; exec; reflexivity
    end); intros.

Section Disabled.

Context {W : Type}.
Variables (h : helper W) (rt : runtime).

Lemma main_keeps_flag (j : inputs) :
  unclicked j -> keeps_flag (Watched.main h rt j).
Proof.
  intros [Ha Hc].
  unfold Watched.main, Watched.configure_then_page, Watched.page, Watched.st_sidebar,
    Watched.analyze_section, Watched.cover_section.
  rewrite Ha, Hc. keep_flag.
Qed.

(** A run in which no click is reported never writes the flag, however
    it ends. *)
Lemma unclicked_run_keeps_flag (sg : schedule) (j : inputs) (b : bool) (w : W) :
  unclicked j ->
  session (snd (fst (Watched.run h rt sg j {| processing := Some b |} w)))
    = {| processing := Some b |}.
Proof.
  intros Hj. unfold Watched.run.
  pose proof (main_keeps_flag j Hj sg
                {| script := {| session := {| processing := Some b |};
                                resume_text := None; world := w |};
                   seen := 0 |} b eq_refl) as Hkeep.
  destruct (Watched.main h rt j sg _) as [[o ws] t]. cbn [fst snd] in *.
  destruct (session (script ws)) as [p]. cbn in Hkeep. rewrite Hkeep. reflexivity.
Qed.

(** So do any number of them. *)
Lemma unclicked_runs_keep_flag (runs : list (schedule * inputs)) (b : bool) (w : W) :
  Forall (fun r => unclicked (snd r)) runs ->
  snd (fst (watched_runs h rt runs {| processing := Some b |} w))
    = {| processing := Some b |}.
Proof.
  intros Hruns. revert w.
  induction Hruns as [|[sg j] runs Hj Hruns IH]; intros w; [reflexivity|].
  cbn [watched_runs]. cbn [snd] in Hj.
  pose proof (unclicked_run_keeps_flag sg j b w Hj) as Hrun.
  destruct (Watched.run h rt sg j {| processing := Some b |} w) as [[o s] t].
  cbn [fst snd] in Hrun. rewrite Hrun. specialize (IH (world s)).
  destruct (watched_runs h rt runs {| processing := Some b |} (world s))
    as [[finished ss'] w']. exact IH.
Qed.

(** With the flag set, a run that gets past the startup and is not
    interrupted renders both buttons disabled. *)
Lemma run_with_flag_set (j : inputs) (b : bool) (w : W) :
  starts h j w = true ->
  unclicked j ->
  Watched.run h rt undisturbed j {| processing := Some b |} w =
    (Finished (Normal tt),
     {| session := {| processing := Some b |};
        resume_text := None;
        world := world_started h j w |},
     (startup_calls j ++ page_form ++
      [ Button "Analyze Resume" b;
        Button "Generate Cover Letter" b ])%list).
Proof.
  intros Hs [Ha Hc]. rewrite undisturbed_run.
  rewrite (run_sections h rt j {| processing := Some b |} w Hs).
  cbn [busy processing].
  rewrite (analyze_section_cases h rt j (jd j) (uploaded_file j)
             {| session := {| processing := Some b |};
                resume_text := None; world := world_started h j w |}
             b eq_refl), Ha.
  rewrite (cover_section_cases h rt j _ _ _ _
             {| session := {| processing := Some b |};
                resume_text := None; world := world_started h j w |}
             b eq_refl), Hc.
  reflexivity.
Qed.

End Disabled.

(** *** The flag after a stop *)

Section StoppedSession.

Context {W : Type}.
Variables (h : helper W) (rt : runtime).

(** C1. The flag is not released on every path.  A validated Analyze
    action has set [processing] and sent its request; the user stops the
    script while the model is answering.  [st.success] (or [st.error],
    when the reply does not decode) raises [StopException], which
    [except Exception] does not catch; in [finally] the assignment
    [processing = False] raises it again instead of taking place.  The
    run ends with [processing = True].  From then on no run in which no
    click is reported writes the flag, however Streamlit schedules it,
    and a run that gets past the startup renders both buttons disabled:
    the session stays disabled.  On the paths where the run finishes,
    whatever the decoder did, the flag is released. *)
Theorem stop_leaves_session_disabled (i : inputs) (ss : session_state) (w w' : W)
    (file : UploadedFile) (text prompt response : string) :
  analysis_gets h i w file text prompt response w' ->
  Watched.run h rt (stop_from (interactions_before_reply ss)) i ss w =
    (Interrupted StopException,
     {| session := {| processing := Some true |};
        resume_text := Some text;
        world := w' |},
     log_until_reply i ss file text prompt)
  /\ (forall later : list (schedule * inputs),
        Forall (fun r => unclicked (snd r)) later ->
        snd (fst (watched_runs h rt later {| processing := Some true |} w'))
          = {| processing := Some true |})
  /\ (forall (j : inputs) (w1 : W),
        starts h j w1 = true ->
        unclicked j ->
        Watched.run h rt undisturbed j {| processing := Some true |} w1 =
          (Finished (Normal tt),
           {| session := {| processing := Some true |};
              resume_text := None;
              world := world_started h j w1 |},
           (startup_calls j ++ page_form ++
            [ Button "Analyze Resume" true;
              Button "Generate Cover Letter" true ])%list))
  /\ (forall (sg : schedule) (r : completion unit) (s : state W) (t : list event),
        Watched.run h rt sg i ss w = (Finished r, s, t) ->
        r = Normal tt /\ processing (session s) = Some false).
Proof.
  intros Hgets. split; [exact (stopped_analysis h rt i ss w w' file text prompt response Hgets)|].
  split; [intros later Hlater; exact (unclicked_runs_keep_flag h rt later true w' Hlater)|].
  split; [intros j w1 Hs Hj; exact (run_with_flag_set h rt j true w1 Hs Hj)|].
  intros sg r s t Hrun. apply finished_run in Hrun.
  assert (Hin : In (SetProcessing true) (trace_of h rt i ss w)).
  { rewrite (trace_analysis_reply h rt i ss w w' file text prompt response Hgets).
    unfold log_until_reply. rewrite !in_app_iff. left. right. right.
    cbn. tauto. }
  destruct (uninterrupted_action_releases_flag h rt i ss w Hin) as [Hflag Hr].
  unfold session_after in Hflag. rewrite Hrun in Hflag, Hr. cbn [fst snd] in *.
  split; [exact Hr|exact Hflag].
Qed.

(** X10. No exception of class [Exception] leaves [main], whatever the
    environment, the widgets, the session state, the helpers and the
    decoder do: a run finishes normally, unless one of its interactions
    with Streamlit raises the [StopException] or the [RerunException]
    that the browser asked for, which leaves [main]. *)
Theorem only_script_control_leaves_main (sg : schedule) (i : inputs)
    (ss : session_state) (w : W) :
  match fst (fst (Watched.run h rt sg i ss w)) with
  | Finished r => r = Normal tt
  | Interrupted c => exists n, sg n = Some c
  end.
Proof.
  destruct (Watched.run h rt sg i ss w) as [[[r|c] s] t] eqn:Hrun; cbn [fst].
  - apply finished_run in Hrun.
    pose proof (uninterrupted_run_finishes h rt i ss w) as Hr.
    rewrite Hrun in Hr. exact Hr.
  - exact (interrupted_run h rt sg i ss w c s t Hrun).
Qed.

(** Runs that all finish, from a session whose flag is not set. *)
Lemma finished_runs_stay_idle (runs : list (schedule * inputs))
    (ss : session_state) (w : W) :
  busy ss = false ->
  fst (fst (watched_runs h rt runs ss w)) = true ->
  busy (snd (fst (watched_runs h rt runs ss w))) = false
  /\ (runs <> [] ->
      snd (fst (watched_runs h rt runs ss w)) = {| processing := Some false |}).
Proof.
  revert ss w. induction runs as [|[sg i] runs IH]; intros ss w Hidle Hall.
  - split; [exact Hidle|]. intros Hne. contradiction Hne. reflexivity.
  - cbn [watched_runs] in *.
    destruct (Watched.run h rt sg i ss w) as [[o s] t] eqn:Hrun.
    destruct (watched_runs h rt runs (session s) (world s)) as [[finished ss'] w'] eqn:Hrest.
    cbn [fst snd] in *.
    destruct o as [r|c].
    + apply finished_run in Hrun.
      pose proof (run_leaves_flag_released h rt i ss w Hidle) as Hflag.
      unfold session_after in Hflag. rewrite Hrun in Hflag. cbn [fst snd] in Hflag.
      specialize (IH (session s) (world s)). rewrite Hrest in IH. cbn [fst snd] in IH.
      rewrite Hflag in IH. destruct (IH eq_refl Hall) as [Hbusy Hlast].
      split; [exact Hbusy|]. intros _.
      destruct runs as [|next runs].
      * cbn [watched_runs] in Hrest. injection Hrest as _ <- _. exact Hflag.
      * apply Hlast. discriminate.
    + discriminate.
Qed.

(** X11. Between the runs of a session the flag is [False] as long as
    no run was cut short: starting from a new session, after one run or
    more, each under any schedule and with any inputs, if every run
    finished then the session state holds [processing = False]. *)
Theorem flag_is_false_after_finished_runs (first : schedule * inputs)
    (runs : list (schedule * inputs)) (w0 : W) :
  fst (fst (watched_runs h rt (first :: runs) new_session w0)) = true ->
  snd (fst (watched_runs h rt (first :: runs) new_session w0))
    = {| processing := Some false |}.
Proof.
  intros Hall.
  apply (proj2 (finished_runs_stay_idle (first :: runs) new_session w0 eq_refl Hall)).
  discriminate.
Qed.


End StoppedSession.

Lemma stop_leaves_session_disabled_witness :
  analysis_gets (Stub.answering (Stub.says Stub.full_reply)) (Stub.filled true false) 0
    Stub.resume_pdf "Backend engineer, five years of Python"
    Stub.analysis_prompt Stub.full_reply 1
  /\ Watched.run (Stub.answering (Stub.says Stub.full_reply)) Stub.rt
       (stop_from (interactions_before_reply new_session))
       (Stub.filled true false) new_session 0 =
     (Interrupted StopException,
      {| session := {| processing := Some true |};
         resume_text := Some "Backend engineer, five years of Python";
         world := 1 |},
      log_until_reply (Stub.filled true false) new_session Stub.resume_pdf
        "Backend engineer, five years of Python" Stub.analysis_prompt)
  /\ Watched.run (Stub.answering (Stub.says Stub.full_reply)) Stub.rt undisturbed
       (Stub.filled false false) {| processing := Some true |} 1 =
     (Finished (Normal tt),
      {| session := {| processing := Some true |};
         resume_text := None;
         world := 1 |},
      (startup_calls (Stub.filled false false) ++ page_form ++
       [ Button "Analyze Resume" true;
         Button "Generate Cover Letter" true ])%list).
Proof.
  split; [exact full_run_gets_reply|].
  destruct (stop_leaves_session_disabled (Stub.answering (Stub.says Stub.full_reply))
              Stub.rt (Stub.filled true false) new_session 0 1 Stub.resume_pdf
              "Backend engineer, five years of Python" Stub.analysis_prompt
              Stub.full_reply full_run_gets_reply) as (Hstop & _ & Hnext & _).
  split; [exact Hstop|].
  apply (Hnext (Stub.filled false false) 1); [reflexivity|split; reflexivity].
Defined.

Lemma flag_is_false_after_finished_runs_witness :
  fst (fst (watched_runs (Stub.answering (Stub.says Stub.full_reply)) Stub.rt
              [ (undisturbed, Stub.filled false false);
                (undisturbed, Stub.filled true false);
                (undisturbed, Stub.filled false true) ] new_session 0)) = true
  /\ snd (fst (watched_runs (Stub.answering (Stub.says Stub.full_reply)) Stub.rt
                 [ (undisturbed, Stub.filled false false);
                   (undisturbed, Stub.filled true false);
                   (undisturbed, Stub.filled false true) ] new_session 0))
     = {| processing := Some false |}.
Proof.
  assert (Hall : fst (fst (watched_runs (Stub.answering (Stub.says Stub.full_reply))
                             Stub.rt
                             [ (undisturbed, Stub.filled false false);
                               (undisturbed, Stub.filled true false);
                               (undisturbed, Stub.filled false true) ]
                             new_session 0)) = true) by reflexivity.
  split; [exact Hall|].
  exact (flag_is_false_after_finished_runs (Stub.answering (Stub.says Stub.full_reply))
           Stub.rt (undisturbed, Stub.filled false false)
           [ (undisturbed, Stub.filled true false);
             (undisturbed, Stub.filled false true) ] 0 Hall).
Defined.


(** *** Where a third sentence of the description does not hold *)

(** C2 as stated: a reply that is not valid JSON fails with a parse
    error and no analysis result is rendered.  [json.loads] takes the
    literal [NaN], which the JSON grammar does not have, for a float.
    The model answers with an object whose match value is [NaN]: the
    text is not JSON, the decoder returns a dict, and the run renders
    the success message, the metric and the two defaults; no error is
    shown. *)
Lemma nan_reply_is_rendered :
  valid_json Lenient.nan_reply = false
  /\ (forall fuel,
        Json.parse fuel Json.Value (list_ascii_of_string Lenient.nan_reply) = None)
  /\ json_loads Lenient.rt Lenient.nan_reply
     = inl (PyDict [("JD Match", PyFloat S754_nan)])
  /\ analysis_gets (Stub.answering (Stub.says Lenient.nan_reply)) (Stub.filled true false) 0
       Stub.resume_pdf "Backend engineer, five years of Python"
       Stub.analysis_prompt Lenient.nan_reply 1
  /\ trace_of (Stub.answering (Stub.says Lenient.nan_reply)) Lenient.rt
       (Stub.filled true false) new_session 0
     = (log_until_reply (Stub.filled true false) new_session Stub.resume_pdf
          "Backend engineer, five years of Python" Stub.analysis_prompt ++
        [ Success "✨ Analysis Complete!";
          Metric "Match Score" (PyFloat S754_nan);
          Subheader "Missing Keywords";
          Write (PyStr "No critical missing keywords found!");
          Subheader "Profile Summary";
          Write (PyStr "No summary available");
          SpinnerExit;
          SetProcessing false;
          Button "Generate Cover Letter" false ])%list.
Proof.
  split; [reflexivity|]. split.
  { intros [|[|[|fuel]]]; reflexivity. }
  split; [reflexivity|]. split.
  { repeat split; try reflexivity. discriminate. }
  reflexivity.
Qed.
